(** * govendor/internal/gt/vcs.go: the VCS test harness

    A shallow embedding of [internal/gt/vcs.go]: the go-import redirect
    server ([HttpHandler.ServeHTTP]), the routing table of repository
    handles ([Setup], [remove]), the git handle ([create], [Commit]), the
    command runner ([run], [freePort], [runAsync] and the cleanup closure it
    registers) and the constructor [NewHttpHandler].

    Go strings are byte strings: they are [string] here (a list of 8-bit
    [ascii]).  Everything outside the file (the operating system, the git
    binary, the clock) is an explicit [Env] of answers.

    Not embedded: [HttpHandler.Close] and the body of the goroutine that
    serves.  Closing the listener ends [http.Serve] with an error, on
    which that goroutine prints a line and exits the whole process, beside
    whatever the caller of [Close] does next; of the goroutine only its
    start is kept, as an event of the trace. *)

From Stdlib Require Import ZArith Lia Ascii String DecimalString.
From stdpp Require Import base option list gmap strings fin_maps.

(** ** Go's [strings] package, as far as the file uses it *)

Definition dquote : string := String (ascii_of_nat 34) EmptyString.
Definition newline : string := String (ascii_of_nat 10) EmptyString.

(** [s[i:]]: the string without its first [i] bytes. *)
Fixpoint slice_from (i : nat) (s : string) : string :=
  match i, s with
  | O, _ => s
  | S i', String _ s' => slice_from i' s'
  | S _, EmptyString => EmptyString
  end.

(** [s[:i]]: the first [i] bytes of the string. *)
Fixpoint slice_to (i : nat) (s : string) : string :=
  match i, s with
  | O, _ => EmptyString
  | S i', String c s' => String c (slice_to i' s')
  | S _, EmptyString => EmptyString
  end.

(** [strings.HasPrefix]:
    [len(s) >= len(prefix) && s[:len(prefix)] == prefix]. *)
Definition HasPrefix (s prefix : string) : bool :=
  (String.length prefix <=? String.length s)%nat
  && String.eqb (slice_to (String.length prefix) s) prefix.

(** [strings.TrimPrefix]:
    [if HasPrefix(s, prefix) { return s[len(prefix):] }; return s]. *)
Definition TrimPrefix (s prefix : string) : string :=
  if HasPrefix s prefix then slice_from (String.length prefix) s else s.

(** [strings.Contains]: [substr] occurs somewhere in [s]. *)
Fixpoint Contains (s substr : string) : bool :=
  HasPrefix s substr
  || match s with
     | EmptyString => false
     | String _ s' => Contains s' substr
     end.

(** [strings.Split(s, sep)] for a one-byte separator, the only way the file
    calls it ([Split(line, "@")]): every piece between separators, in
    order; a string without the separator is its own single piece. *)
Fixpoint Split (s : string) (sep : ascii) : list string :=
  match s with
  | EmptyString => [EmptyString]
  | String c s' =>
      if Ascii.eqb c sep then EmptyString :: Split s' sep
      else match Split s' sep with
           | piece :: pieces => String c piece :: pieces
           | [] => [String c EmptyString]
           end
  end.

(** *** [strings.TrimSpace] *)

Definition bytes (l : list nat) : string :=
  fold_right (fun n s => String (ascii_of_nat n) s) EmptyString l.

(** The UTF-8 encodings of the code points [unicode.IsSpace] accepts. *)
Definition space_runes : list string :=
  map bytes
    [[9%nat]; [10%nat]; [11%nat]; [12%nat]; [13%nat]; [32%nat];
     [194; 133]%nat; [194; 160]%nat; [225; 154; 128]%nat;
     [226; 128; 128]%nat; [226; 128; 129]%nat; [226; 128; 130]%nat;
     [226; 128; 131]%nat; [226; 128; 132]%nat; [226; 128; 133]%nat;
     [226; 128; 134]%nat; [226; 128; 135]%nat; [226; 128; 136]%nat;
     [226; 128; 137]%nat; [226; 128; 138]%nat; [226; 128; 168]%nat;
     [226; 128; 169]%nat; [226; 128; 175]%nat; [226; 129; 159]%nat;
     [227; 128; 128]%nat].

Fixpoint string_rev_onto (s acc : string) : string :=
  match s with
  | EmptyString => acc
  | String c s' => string_rev_onto s' (String c acc)
  end.
Definition string_rev (s : string) : string := string_rev_onto s EmptyString.

(** [s] without the first of [runes] it starts with, if there is one. *)
Fixpoint strip_rune (runes : list string) (s : string) : option string :=
  match runes with
  | [] => None
  | r :: runes' =>
      if HasPrefix s r then Some (slice_from (String.length r) s)
      else strip_rune runes' s
  end.

Fixpoint trim_left (fuel : nat) (runes : list string) (s : string) : string :=
  match fuel with
  | O => s
  | S fuel' =>
      match strip_rune runes s with
      | Some s' => trim_left fuel' runes s'
      | None => s
      end
  end.

(** [strings.TrimSpace]: without the white space at either end. *)
Definition TrimSpace (s : string) : string :=
  let s1 := trim_left (String.length s) space_runes s in
  string_rev
    (trim_left (String.length s1) (map string_rev space_runes) (string_rev s1)).

(** [fmt.Sprintf] restricted to the [%s] verb over string operands, which
    is all that [ServeHTTP]'s template needs. *)
Fixpoint Sprintf (format : string) (args : list string) : string :=
  match format with
  | EmptyString => EmptyString
  | String c rest =>
      match rest with
      | String d rest' =>
          if Ascii.eqb c "%" && Ascii.eqb d "s" then
            match args with
            | a :: args' => a +:+ Sprintf rest' args'
            | [] => "%!s(MISSING)" +:+ Sprintf rest' []
            end
          else String c (Sprintf rest args)
      | EmptyString => String c EmptyString
      end
  end.

(** [fmt.Sprintf("%d", n)] *)
Definition itoa (n : Z) : string := NilZero.string_of_int (Z.to_int n).

(** ** Handles and the routing table *)

(** [gitVcsHandle] (with its embedded [vcsCommon] and [runner]).  Handles
    are heap objects used through pointers: [vcs_addr] is the address, so
    two handles for the same package are still two handles. *)
Record VcsHandle := mkVcsHandle {
  vcs_addr : nat;
  vcs_execPath : string;
  vcs_cwd : string;
  importPath : string
}.

(** [func (vcs *vcsCommon) pkg() string] *)
Definition pkg (vcs : VcsHandle) : string := importPath vcs.

(** The kinds of handle a [vcsNewer] builds; the file has one. *)
Inductive vcsNewer := gitNewer.

(** [HttpHandler].  The listener [l] is known by its port, the test
    context [g] lives in the [World] below, and [newer] is [nil] until
    [NewHttpHandler] sets it. *)
Record HttpHandler := mkHttpHandler {
  h_execPath : string;
  h_cwd : string;
  httpAddr : string;
  vcsAddr : string;
  vcsName : string;
  h_pkg : string;
  l : Z;
  newer : option vcsNewer;
  handles : gmap string VcsHandle
}.

Definition with_handles (f : gmap string VcsHandle -> gmap string VcsHandle)
    (h : HttpHandler) : HttpHandler :=
  {| h_execPath := h_execPath h; h_cwd := h_cwd h; httpAddr := httpAddr h;
     vcsAddr := vcsAddr h; vcsName := vcsName h; h_pkg := h_pkg h;
     l := l h; newer := newer h; handles := f (handles h) |}.

(** ** The redirect server *)

(** What a request handler leaves in its [http.ResponseWriter]: the status
    line, the [Content-Type] it set itself (when it did) and the body. *)
Record Response := mkResponse {
  status : Z;
  contentType : option string;
  body : string
}.

Definition StatusOK : Z := 200.
Definition StatusNotFound : Z := 404.

(** [http.Error(w, msg, code)]: a plain-text reply, the message on a line
    of its own. *)
Definition http_Error (msg : string) (code : Z) : Response :=
  {| status := code;
     contentType := Some "text/plain; charset=utf-8";
     body := msg +:+ newline |}.

(** [fmt.Fprintf(w, ...)] on a writer nothing was written to: the first
    write sends the implicit [200 OK]. *)
Definition Fprintf_fresh (format : string) (args : list string) : Response :=
  {| status := StatusOK;
     contentType := None;
     body := Sprintf format args |}.

Definition templ : string :=
  "<html><head><meta name=" +:+ dquote +:+ "go-import" +:+ dquote
  +:+ " content=" +:+ dquote +:+ "%s %s %s" +:+ dquote
  +:+ "></head></html>" +:+ newline.

(** The [for _, try := range h.handles] loop: Go visits the entries of a
    map in an order of its own choosing, each entry once; [order] is that
    order, and the loop stops at the first entry whose package is a prefix
    of [p]. *)
Fixpoint range_handles (p : string) (order : list (string * VcsHandle))
  : option VcsHandle :=
  match order with
  | [] => None
  | (_, try) :: rest =>
      if HasPrefix p (pkg try) then Some try else range_handles p rest
  end.

(** An order in which [range] may visit the table. *)
Definition iteration_of (m : gmap string VcsHandle)
    (order : list (string * VcsHandle)) : Prop :=
  order ≡ₚ map_to_list m.

(** [func (h *HttpHandler) ServeHTTP(w http.ResponseWriter, r *http.Request)] *)
Definition ServeHTTP (h : HttpHandler) (order : list (string * VcsHandle))
    (urlPath : string) : Response :=
  let p := TrimPrefix urlPath "/" in
  match range_handles p order with
  | None => http_Error "repo not found" StatusNotFound
  | Some handle =>
      Fprintf_fresh templ
        [httpAddr h +:+ "/" +:+ pkg handle;
         vcsName h;
         vcsAddr h +:+ pkg handle +:+ "/.git"]
  end.

(** [func (vcs *gitVcsHandle) remove()]:
    [delete(vcs.h.handles, vcs.pkg())] on the handler the handle points
    back to. *)
Definition remove (vcs : VcsHandle) (h : HttpHandler) : HttpHandler :=
  with_handles (delete (pkg vcs)) h.

(** ** The test context and the outside world *)

(** An operand of a [Fatalf] or [Logf] call, as the call site passes it. *)
Inductive FmtArg :=
| AString (s : string)
| AStrings (ss : list string)
| ABytes (b : string)
| AError (e : string).

(** A formatted message: the format string and its operands. *)
Record Diagnostic := mkDiagnostic {
  d_format : string;
  d_args : list FmtArg
}.

Inductive RuntimeError :=
| IndexOutOfRange (index len : nat)
| NilDereference.

(** The ways a call ends other than by returning.

    Modelled from the spec: the test context [GopathTest] is not in the
    file; its [Fatalf] aborts the test with the message and its [Skip]
    marks the test skipped, and neither returns to the caller. *)
Inductive Abort :=
| Fatal (d : Diagnostic)
| Skipped (reason : string)
| Panicked (msg : string)
| Crashed (e : RuntimeError).

Inductive Outcome (A : Type) :=
| Returned (a : A)
| Aborted (why : Abort).
Arguments Returned {A} a.
Arguments Aborted {A} why.

(** [runner] (its [t] is the test context, kept in the [World]). *)
Record runner := mkRunner {
  execPath : string;
  cwd : string
}.

(** The two [bytes.Buffer]s of a supervised process. *)
Inductive Stream := StdOut | StdErr.

(** [os.ProcessState]: [Exited()] reports that the program has exited. *)
Record ProcessState := mkProcessState { Exited : bool }.

(** [exec.Cmd], as far as the file reads it.  [cmd_Process] is [nil] until
    [Start] succeeds.  [cmd_ProcessState] is [nil] until [cmd.Wait] (or
    [cmd.Run], which calls it) has returned: [Start] leaves it [nil], and
    no function of the file calls [cmd.Wait] or [cmd.Run] (the cleanup
    waits on [cmd.Process], which does not touch the field). *)
Record Cmd := mkCmd {
  cmd_Path : string;
  cmd_Args : list string;
  cmd_Dir : string;
  cmd_Stdout : option Stream;
  cmd_Stderr : option Stream;
  cmd_Process : option nat;
  cmd_ProcessState : option ProcessState
}.

(** A function handed to [onClean]: [vcs.remove], or the closure of
    [runAsync] with the variables it captured ([r], [cmd], [buf] and
    [bufErr]; a buffer pointer is [nil] when nothing is captured). *)
Inductive Cleanup :=
| CleanRemove (vcs : VcsHandle)
| CleanProcess (r : runner) (cmd : Cmd) (buf bufErr : option Stream).

(** What the harness does to the outside, in order. *)
Inductive Event :=
| EvCommand (path dir : string) (args : list string)
| EvListen (addr : string)
| EvClose (port : Z)
| EvServe (port : Z)
| EvStart (pid : nat) (path dir : string) (args : list string)
| EvSignalInterrupt (pid : nat)
| EvKill (pid : nat)
| EvSleep (ms : Z)
| EvPrint (d : Diagnostic).

(** The mutable state around the harness: the test context's package,
    registered cleanups and log, the trace of events, and the counters for
    external calls and allocations. *)
Record World := mkWorld {
  g_pkg : string;
  cleanups : list Cleanup;
  logs : list Diagnostic;
  trace : list Event;
  calls : nat;
  allocs : nat
}.

(** The supervised process at one pass of the polling loop: whether it
    has exited by then (a fact of the operating system; [cmd] learns of it
    through [Wait] only), and what it has written to the two buffers. *)
Record Observation := mkObservation {
  obs_exited : bool;
  obs_out : string;
  obs_err : string
}.

Definition obs_bytes (o : Observation) (s : Stream) : string :=
  match s with StdOut => obs_out o | StdErr => obs_err o end.

(** What the cleanup closure meets: the error of [Process.Signal] (there is
    one when the process has already exited; the closure drops it), whether
    [Process.Wait] returns before the 300ms timer fires, and the buffers at
    that time. *)
Record CleanupView := mkCleanupView {
  cv_Signal : option string;
  cv_wait_in_time : bool;
  cv_out : string;
  cv_err : string
}.

Definition cv_bytes (v : CleanupView) (s : Stream) : string :=
  match s with StdOut => cv_out v | StdErr => cv_err v end.

(** The answers of everything outside the file.  The external calls are
    numbered ([calls]) so that the same call may be answered differently
    the second time. *)
Record Env := mkEnv {
  env_GOOS : string;
  (** [g.Current()] and [g.Path(suffix)] of the test context. *)
  env_Current : string;
  env_Path : string -> string;
  (** [net.Listen("tcp", "localhost:0")]: the listener's address and port,
      or the error. *)
  env_Listen : nat -> (string * Z) + string;
  (** [exec.LookPath]: the path found, empty when there is none. *)
  env_LookPath : string -> string;
  (** [cmd.CombinedOutput()]: the output, and the error if any. *)
  env_CombinedOutput :
    nat -> string -> string -> list string -> string * option string;
  (** [cmd.Start()]: the process id, or the error. *)
  env_Start : nat -> string -> string -> list string -> nat + string;
  (** The process at pass [i] of the polling loop (pass 100 is the read
      after the loop). *)
  env_poll : nat -> nat -> Observation;
  env_cleanup : nat -> CleanupView
}.

(** Computations of the harness: they read and change the [World] and
    either return or abort. *)
Definition M (A : Type) : Type := World -> Outcome A * World.

#[global] Instance M_ret : MRet M := fun A a w => (Returned a, w).
#[global] Instance M_bind : MBind M := fun A B f m w =>
  match m w with
  | (Returned a, w') => f a w'
  | (Aborted why, w') => (Aborted why, w')
  end.

Definition abort {A} (why : Abort) : M A := fun w => (Aborted why, w).

Definition with_cleanups (f : list Cleanup -> list Cleanup) (w : World) : World :=
  {| g_pkg := g_pkg w; cleanups := f (cleanups w); logs := logs w;
     trace := trace w; calls := calls w; allocs := allocs w |}.
Definition with_logs (f : list Diagnostic -> list Diagnostic) (w : World) : World :=
  {| g_pkg := g_pkg w; cleanups := cleanups w; logs := f (logs w);
     trace := trace w; calls := calls w; allocs := allocs w |}.
Definition with_trace (f : list Event -> list Event) (w : World) : World :=
  {| g_pkg := g_pkg w; cleanups := cleanups w; logs := logs w;
     trace := f (trace w); calls := calls w; allocs := allocs w |}.
Definition with_calls (f : nat -> nat) (w : World) : World :=
  {| g_pkg := g_pkg w; cleanups := cleanups w; logs := logs w;
     trace := trace w; calls := f (calls w); allocs := allocs w |}.
Definition with_allocs (f : nat -> nat) (w : World) : World :=
  {| g_pkg := g_pkg w; cleanups := cleanups w; logs := logs w;
     trace := trace w; calls := calls w; allocs := f (allocs w) |}.

(** [t.Fatalf(format, args...)] *)
Definition Fatalf {A} (format : string) (args : list FmtArg) : M A :=
  abort (Fatal (mkDiagnostic format args)).

(** [t.Skip(reason)] *)
Definition Skip {A} (reason : string) : M A := abort (Skipped reason).

(** [panic(msg)] *)
Definition panic {A} (msg : string) : M A := abort (Panicked msg).

(** [t.Logf(format, args...)]: the log grows at its end. *)
Definition Logf (format : string) (args : list FmtArg) : M unit :=
  fun w => (Returned tt, with_logs (fun l => l ++ [mkDiagnostic format args]) w).

(** [t.onClean(fn)]: registrations accumulate, the latest last. *)
Definition onClean (c : Cleanup) : M unit :=
  fun w => (Returned tt, with_cleanups (fun l => l ++ [c]) w).

Definition emit (e : Event) : M unit :=
  fun w => (Returned tt, with_trace (fun l => l ++ [e]) w).

(** The number of the next external call. *)
Definition next_call : M nat :=
  fun w => (Returned (calls w), with_calls S w).

(** A fresh heap address. *)
Definition alloc : M nat :=
  fun w => (Returned (allocs w), with_allocs S w).

Definition get_pkg : M string := fun w => (Returned (g_pkg w), w).

(** [time.Sleep(time.Millisecond * ms)] *)
Definition Sleep (ms : Z) : M unit := emit (EvSleep ms).

(** [b.Bytes()] through a [*bytes.Buffer]: the method reads [b.buf], so a
    nil pointer faults. *)
Definition Buffer_Bytes (b : option Stream) (content : Stream -> string)
  : M string :=
  match b with
  | None => abort (Crashed NilDereference)
  | Some s => mret (content s)
  end.

(** [b.String()]: a nil [*bytes.Buffer] prints as [<nil>]. *)
Definition Buffer_String (b : option Stream) (content : Stream -> string)
  : string :=
  match b with
  | None => "<nil>"
  | Some s => content s
  end.

(** ** Go's [time] package, as far as [Commit] uses it

    [time.Parse] and [Time.Format] walk a layout one element at a time
    ([nextStdChunk]).  A layout is given here as the elements that walk
    finds, each with the literal text in front of it. *)

Local Open Scope Z_scope.

(** [time.Time]: the instant in seconds since the Unix epoch and
    nanoseconds within the second, and the offset east of UTC of the
    time's location, in seconds. *)
Record Time := mkTime {
  unixSec : Z;
  nsec : Z;
  zoneOffset : Z
}.

(** [func (t Time) UTC() Time]: the same instant, located in UTC. *)
Definition UTC (t : Time) : Time :=
  {| unixSec := unixSec t; nsec := nsec t; zoneOffset := 0 |}.

(** [*time.ParseError] *)
Record ParseError := mkParseError {
  pe_Layout : string;
  pe_Value : string;
  pe_LayoutElem : string;
  pe_ValueElem : string;
  pe_Message : string
}.

Definition backslash : ascii := ascii_of_nat 92.

Definition lowerhex (n : nat) : ascii :=
  default zero (String.get n "0123456789abcdef").

(** The package's [quote]: the text between double quotes, a backslash in
    front of a quote or a backslash, and every byte that is not printable
    ASCII as a backslash, [x] and its two hexadecimal digits. *)
Fixpoint quote_bytes (s : string) : string :=
  match s with
  | EmptyString => EmptyString
  | String c s' =>
      let n := nat_of_ascii c in
      (if (128 <=? n)%nat || (n <? 32)%nat then
         String backslash (String "x" (String (lowerhex (n / 16))
                                   (String (lowerhex (n mod 16)) EmptyString)))
       else if (n =? 34)%nat || (n =? 92)%nat then
         String backslash (String c EmptyString)
       else String c EmptyString)
      +:+ quote_bytes s'
  end.

Definition quote (s : string) : string := dquote +:+ quote_bytes s +:+ dquote.

(** [func (e *ParseError) Error() string] *)
Definition ParseError_Error (e : ParseError) : string :=
  if (String.length (pe_Message e) =? 0)%nat then
    "parsing time " +:+ quote (pe_Value e) +:+ " as " +:+ quote (pe_Layout e)
    +:+ ": cannot parse " +:+ quote (pe_ValueElem e) +:+ " as "
    +:+ quote (pe_LayoutElem e)
  else "parsing time " +:+ quote (pe_Value e) +:+ pe_Message e.

Inductive Chunk :=
| stdLongYear          (* 2006 *)
| stdZeroMonth         (* 01 *)
| stdZeroDay           (* 02 *)
| stdHour              (* 15 *)
| stdZeroMinute        (* 04 *)
| stdZeroSecond        (* 05 *)
| stdNumTZ             (* -0700 *)
| stdISO8601ColonTZ.   (* Z07:00 *)

Definition stdstr (c : Chunk) : string :=
  match c with
  | stdLongYear => "2006"
  | stdZeroMonth => "01"
  | stdZeroDay => "02"
  | stdHour => "15"
  | stdZeroMinute => "04"
  | stdZeroSecond => "05"
  | stdNumTZ => "-0700"
  | stdISO8601ColonTZ => "Z07:00"
  end.

(** A layout string and the elements [nextStdChunk] cuts it into. *)
Record Layout := mkLayout {
  layout_string : string;
  layout_chunks : list (string * Chunk)
}.

(** The layout [Commit] parses git's [%ai] with. *)
Definition gitLayout : Layout :=
  {| layout_string := "2006-01-02 15:04:05 -0700";
     layout_chunks :=
       [(EmptyString, stdLongYear); ("-", stdZeroMonth); ("-", stdZeroDay);
        (" ", stdHour); (":", stdZeroMinute); (":", stdZeroSecond);
        (" ", stdNumTZ)] |}.

(** [time.RFC3339] *)
Definition RFC3339 : Layout :=
  {| layout_string := "2006-01-02T15:04:05Z07:00";
     layout_chunks :=
       [(EmptyString, stdLongYear); ("-", stdZeroMonth); ("-", stdZeroDay);
        ("T", stdHour); (":", stdZeroMinute); (":", stdZeroSecond);
        (EmptyString, stdISO8601ColonTZ)] |}.

(** *** The calendar *)

(** [isLeap] *)
Definition isLeap (year : Z) : bool :=
  (year mod 4 =? 0) && (negb (year mod 100 =? 0) || (year mod 400 =? 0)).

(** [daysIn] *)
Definition daysIn (month year : Z) : Z :=
  if (month =? 2) && isLeap year then 29
  else if month =? 2 then 28
  else if (month =? 4) || (month =? 6) || (month =? 9) || (month =? 11) then 30
  else 31.

(** Days from 1970-01-01 to the given day of the proleptic Gregorian
    calendar, counted in 400-year eras that start on 1 March. *)
Definition days_from_civil (y m d : Z) : Z :=
  let y' := if m <=? 2 then y - 1 else y in
  let era := y' / 400 in
  let yoe := y' mod 400 in
  let mp := (m + 9) mod 12 in
  let doy := (153 * mp + 2) / 5 + d - 1 in
  let doe := yoe * 365 + yoe / 4 - yoe / 100 + doy in
  era * 146097 + doe - 719468.

(** The day of the calendar that many days after 1970-01-01. *)
Definition civil_from_days (z : Z) : Z * Z * Z :=
  let z' := z + 719468 in
  let era := z' / 146097 in
  let doe := z' mod 146097 in
  let yoe := (doe - doe / 1460 + doe / 36524 - doe / 146096) / 365 in
  let doy := doe - (365 * yoe + yoe / 4 - yoe / 100) in
  let mp := (5 * doy + 2) / 153 in
  let d := doy - (153 * mp + 2) / 5 + 1 in
  let m := if mp <? 10 then mp + 3 else mp - 9 in
  let y := yoe + era * 400 + (if m <=? 2 then 1 else 0) in
  (y, m, d).

(** [time.Date(year, month, day, hour, min, sec, nsec, time.UTC)] for
    fields that are in range, as [Parse] has them. *)
Definition Date (year month day hour min sec ns : Z) : Time :=
  {| unixSec := days_from_civil year month day * 86400
                + hour * 3600 + min * 60 + sec;
     nsec := ns;
     zoneOffset := 0 |}.

(** The date and the clock a time shows in its own location. *)
Definition civil (t : Time) : Z * Z * Z :=
  civil_from_days ((unixSec t + zoneOffset t) / 86400).
Definition Year (t : Time) : Z := (civil t).1.1.
Definition Month (t : Time) : Z := (civil t).1.2.
Definition Day (t : Time) : Z := (civil t).2.
Definition secondOfDay (t : Time) : Z := (unixSec t + zoneOffset t) mod 86400.
Definition Hour (t : Time) : Z := secondOfDay t / 3600.
Definition Minute (t : Time) : Z := secondOfDay t mod 3600 / 60.
Definition Second (t : Time) : Z := secondOfDay t mod 60.

(** *** Digits *)

Definition digit_char (d : Z) : ascii := ascii_of_nat (48 + Z.to_nat d).
Definition digit_val (c : ascii) : Z := Z.of_nat (nat_of_ascii c) - 48.
Definition is_digit_char (c : ascii) : bool :=
  (48 <=? nat_of_ascii c)%nat && (nat_of_ascii c <=? 57)%nat.

Definition byte_at (s : string) (i : nat) : ascii :=
  default zero (String.get i s).

(** [isDigit(s, i)]: there is a byte at [i] and it is a decimal digit. *)
Definition isDigit (s : string) (i : nat) : bool :=
  match String.get i s with
  | Some c => is_digit_char c
  | None => false
  end.

(** The decimal digits of [u], at most [fuel] of them, before [acc]. *)
Fixpoint utoa (fuel : nat) (u : Z) (acc : string) : string :=
  match fuel with
  | O => acc
  | S fuel' =>
      let acc' := String (digit_char (u mod 10)) acc in
      if u <? 10 then acc' else utoa fuel' (u / 10) acc'
  end.

Fixpoint zeros (n : nat) : string :=
  match n with
  | O => EmptyString
  | S n' => String "0" (zeros n')
  end.

(** [appendInt(b, x, width)]: the decimal form of [x], a sign in front when
    it is negative, its digits padded with zeros to [width]. *)
Definition appendInt (x : Z) (width : nat) : string :=
  let digits := utoa 20 (Z.abs x) EmptyString in
  (if x <? 0 then "-" else EmptyString)
  +:+ zeros (width - String.length digits) +:+ digits.

(** [leadingInt]: the value of the leading digits, and the rest. *)
Fixpoint leadingInt (s : string) (x : Z) : Z * string :=
  match s with
  | String c s' =>
      if is_digit_char c then leadingInt s' (x * 10 + digit_val c)
      else (x, s)
  | EmptyString => (x, s)
  end.

(** [atoi]: an optional sign and digits, nothing else. *)
Definition atoi (s : string) : option Z :=
  let signed :=
    match s with
    | String c s' =>
        if Ascii.eqb c "-" then (true, s')
        else if Ascii.eqb c "+" then (false, s') else (false, s)
    | EmptyString => (false, s)
    end in
  let '(q, rem) := leadingInt signed.2 0 in
  if (String.length rem =? 0)%nat then Some (if signed.1 then - q else q)
  else None.

(** [getnum(s, fixed)]: one or two digits; [fixed] insists on two. *)
Definition getnum (s : string) (fixed : bool) : option (Z * string) :=
  if negb (isDigit s 0) then None
  else if negb (isDigit s 1) then
    if fixed then None else Some (digit_val (byte_at s 0), slice_from 1 s)
  else Some (digit_val (byte_at s 0) * 10 + digit_val (byte_at s 1),
             slice_from 2 s).

(** [cutspace]: without the leading spaces. *)
Fixpoint cutspace (s : string) : string :=
  match s with
  | String c s' => if Ascii.eqb c " " then cutspace s' else s
  | EmptyString => s
  end.

(** The loop of [skip]: every pass shortens [prefix].  As in Go the result
    is what is left of [value], and whether the prefix was matched. *)
Fixpoint skip_loop (fuel : nat) (value prefix : string) : string * bool :=
  match prefix with
  | EmptyString => (value, true)
  | String p prefix' =>
      match fuel with
      | O => (value, false)
      | S fuel' =>
          if Ascii.eqb p " " then
            match value with
            | String v _ =>
                if Ascii.eqb v " "
                then skip_loop fuel' (cutspace value) (cutspace prefix)
                else (value, false)
            | EmptyString => skip_loop fuel' (cutspace value) (cutspace prefix)
            end
          else
            match value with
            | String v value' =>
                if Ascii.eqb v p then skip_loop fuel' value' prefix'
                else (value, false)
            | EmptyString => (value, false)
            end
      end
  end.

(** [skip(value, prefix)]: [value] without the literal text [prefix], where
    a run of spaces in the layout stands for any run of spaces. *)
Definition skip (value prefix : string) : string * bool :=
  skip_loop (String.length prefix) value prefix.

Definition commaOrPeriod (c : ascii) : bool :=
  Ascii.eqb c "." || Ascii.eqb c ",".

(** The number of bytes of [value] up to the first non-digit at or after
    position [n]. *)
Fixpoint digits_end (fuel n : nat) (value : string) : nat :=
  match fuel with
  | O => n
  | S fuel' => if isDigit value n then digits_end fuel' (S n) value else n
  end.

(** [parseNanoseconds(value, nbytes)]: the fraction [value[:nbytes]] (a
    separator and digits, cut to nine digits) in nanoseconds. *)
Definition parseNanoseconds (value : string) (nbytes : nat) : option Z :=
  if negb (commaOrPeriod (byte_at value 0)) then None
  else
    let nbytes := Nat.min nbytes 10 in
    match atoi (slice_from 1 (slice_to nbytes value)) with
    | None => None
    | Some ns => Some (ns * 10 ^ Z.of_nat (10 - nbytes))
    end.

(** *** [time.Parse] *)

(** The fields [Parse] collects; [-1] in [f_zoneOffset] says that no
    offset was read, [f_z] that the zone was given as [Z]. *)
Record Fields := mkFields {
  f_year : Z;
  f_month : Z;
  f_day : Z;
  f_hour : Z;
  f_min : Z;
  f_sec : Z;
  f_nsec : Z;
  f_zoneOffset : Z;
  f_z : bool
}.

Definition initFields : Fields :=
  {| f_year := 0; f_month := -1; f_day := -1; f_hour := 0; f_min := 0;
     f_sec := 0; f_nsec := 0; f_zoneOffset := -1; f_z := false |}.

(** How the work on one layout element ends: with the fields and the rest
    of the value, with [errBad] (reported against the value the element
    started from), or with a field out of range (reported against the rest
    of the value). *)
Inductive ChunkResult :=
| ChunkOk (f : Fields) (value : string)
| ChunkBad
| ChunkRange (what : string) (value : string).

Definition set_year (f : Fields) (v : Z) : Fields :=
  {| f_year := v; f_month := f_month f; f_day := f_day f; f_hour := f_hour f;
     f_min := f_min f; f_sec := f_sec f; f_nsec := f_nsec f;
     f_zoneOffset := f_zoneOffset f; f_z := f_z f |}.
Definition set_month (f : Fields) (v : Z) : Fields :=
  {| f_year := f_year f; f_month := v; f_day := f_day f; f_hour := f_hour f;
     f_min := f_min f; f_sec := f_sec f; f_nsec := f_nsec f;
     f_zoneOffset := f_zoneOffset f; f_z := f_z f |}.
Definition set_day (f : Fields) (v : Z) : Fields :=
  {| f_year := f_year f; f_month := f_month f; f_day := v; f_hour := f_hour f;
     f_min := f_min f; f_sec := f_sec f; f_nsec := f_nsec f;
     f_zoneOffset := f_zoneOffset f; f_z := f_z f |}.
Definition set_hour (f : Fields) (v : Z) : Fields :=
  {| f_year := f_year f; f_month := f_month f; f_day := f_day f; f_hour := v;
     f_min := f_min f; f_sec := f_sec f; f_nsec := f_nsec f;
     f_zoneOffset := f_zoneOffset f; f_z := f_z f |}.
Definition set_min (f : Fields) (v : Z) : Fields :=
  {| f_year := f_year f; f_month := f_month f; f_day := f_day f;
     f_hour := f_hour f; f_min := v; f_sec := f_sec f; f_nsec := f_nsec f;
     f_zoneOffset := f_zoneOffset f; f_z := f_z f |}.
Definition set_sec (f : Fields) (v ns : Z) : Fields :=
  {| f_year := f_year f; f_month := f_month f; f_day := f_day f;
     f_hour := f_hour f; f_min := f_min f; f_sec := v; f_nsec := ns;
     f_zoneOffset := f_zoneOffset f; f_z := f_z f |}.
Definition set_zoneOffset (f : Fields) (v : Z) : Fields :=
  {| f_year := f_year f; f_month := f_month f; f_day := f_day f;
     f_hour := f_hour f; f_min := f_min f; f_sec := f_sec f;
     f_nsec := f_nsec f; f_zoneOffset := v; f_z := f_z f |}.
Definition set_z (f : Fields) : Fields :=
  {| f_year := f_year f; f_month := f_month f; f_day := f_day f;
     f_hour := f_hour f; f_min := f_min f; f_sec := f_sec f;
     f_nsec := f_nsec f; f_zoneOffset := f_zoneOffset f; f_z := true |}.

(** A numeric zone offset: the sign, two digits of hours and two of
    minutes, cut out of the value by the caller. *)
Definition parse_offset (f : Fields) (sign hour min rest : string)
  : ChunkResult :=
  let hr := getnum hour true in
  let mm := match hr with Some _ => getnum min true | None => None end in
  let h := match hr with Some (h, _) => h | None => 0 end in
  let m := match mm with Some (m, _) => m | None => 0 end in
  let offset := (h * 60 + m) * 60 in
  let sign_ok := Ascii.eqb (byte_at sign 0) "+" || Ascii.eqb (byte_at sign 0) "-" in
  if 60 <? m then ChunkRange "time zone offset minute" rest
  else if 24 <? h then ChunkRange "time zone offset hour" rest
  else
    match mm with
    | None => ChunkBad
    | Some _ =>
        if negb sign_ok then ChunkBad
        else ChunkOk (set_zoneOffset f
                        (if Ascii.eqb (byte_at sign 0) "-" then - offset
                         else offset)) rest
    end.

(** One pass of [Parse]'s loop after the literal prefix: the [switch] on
    the layout element. *)
Definition parse_chunk (c : Chunk) (f : Fields) (value : string) : ChunkResult :=
  match c with
  | stdLongYear =>
      if (String.length value <? 4)%nat || negb (isDigit value 0) then ChunkBad
      else
        match atoi (slice_to 4 value) with
        | Some y => ChunkOk (set_year f y) (slice_from 4 value)
        | None => ChunkBad
        end
  | stdZeroMonth =>
      match getnum value true with
      | Some (m, rest) =>
          if (m <=? 0) || (12 <? m) then ChunkRange "month" rest
          else ChunkOk (set_month f m) rest
      | None => ChunkBad
      end
  | stdZeroDay =>
      match getnum value true with
      | Some (d, rest) => ChunkOk (set_day f d) rest
      | None => ChunkBad
      end
  | stdHour =>
      match getnum value false with
      | Some (h, rest) =>
          if (h <? 0) || (24 <=? h) then ChunkRange "hour" rest
          else ChunkOk (set_hour f h) rest
      | None => ChunkBad
      end
  | stdZeroMinute =>
      match getnum value true with
      | Some (m, rest) =>
          if (m <? 0) || (60 <=? m) then ChunkRange "minute" rest
          else ChunkOk (set_min f m) rest
      | None => ChunkBad
      end
  | stdZeroSecond =>
      match getnum value true with
      | Some (s, rest) =>
          if (s <? 0) || (60 <=? s) then ChunkRange "second" rest
          else if (2 <=? String.length rest)%nat
                  && commaOrPeriod (byte_at rest 0) && isDigit rest 1 then
            (* a fraction in the value that the layout does not ask for *)
            let n := digits_end (String.length rest) 2 rest in
            match parseNanoseconds rest n with
            | Some ns => ChunkOk (set_sec f s ns) (slice_from n rest)
            | None => ChunkBad
            end
          else ChunkOk (set_sec f s (f_nsec f)) rest
      | None => ChunkBad
      end
  | stdNumTZ =>
      if (String.length value <? 5)%nat then ChunkBad
      else parse_offset f (slice_to 1 value)
             (slice_to 2 (slice_from 1 value))
             (slice_to 2 (slice_from 3 value))
             (slice_from 5 value)
  | stdISO8601ColonTZ =>
      if (1 <=? String.length value)%nat && Ascii.eqb (byte_at value 0) "Z"
      then ChunkOk (set_z f) (slice_from 1 value)
      else if (String.length value <? 6)%nat then ChunkBad
      else if negb (Ascii.eqb (byte_at value 3) ":") then ChunkBad
      else parse_offset f (slice_to 1 value)
             (slice_to 2 (slice_from 1 value))
             (slice_to 2 (slice_from 4 value))
             (slice_from 6 value)
  end.

Inductive ParseResult :=
| Parsed (t : Time)
| ParseFailed (e : ParseError).

(** What [Parse] does once the layout is used up: nothing may be left of
    the value, the day must exist in its month, and the instant is the
    date and clock read, moved by the offset read. *)
Definition parse_finish (layout avalue : string) (f : Fields) (value : string)
  : ParseResult :=
  if negb (String.length value =? 0)%nat then
    ParseFailed
      (mkParseError layout avalue EmptyString value
         (": extra text: " +:+ quote value))
  else if (f_day f <? 1) || (daysIn (f_month f) (f_year f) <? f_day f) then
    ParseFailed
      (mkParseError layout avalue EmptyString value ": day out of range")
  else
    let t := Date (f_year f) (f_month f) (f_day f)
                  (f_hour f) (f_min f) (f_sec f) (f_nsec f) in
    if f_z f then Parsed t
    else if negb (f_zoneOffset f =? -1) then
      Parsed {| unixSec := unixSec t - f_zoneOffset f;
                nsec := nsec t;
                zoneOffset := f_zoneOffset f |}
    else Parsed t.

(** [Parse]'s loop over the elements of the layout. *)
Fixpoint parse_loop (layout avalue : string) (chunks : list (string * Chunk))
    (f : Fields) (value : string) : ParseResult :=
  match chunks with
  | [] => parse_finish layout avalue f value
  | (prefix, c) :: chunks' =>
      match skip value prefix with
      | (value1, false) =>
          ParseFailed (mkParseError layout avalue prefix value1 EmptyString)
      | (value1, true) =>
          match parse_chunk c f value1 with
          | ChunkOk f' value2 => parse_loop layout avalue chunks' f' value2
          | ChunkBad =>
              ParseFailed
                (mkParseError layout avalue (stdstr c) value1 EmptyString)
          | ChunkRange what rest =>
              ParseFailed
                (mkParseError layout avalue (stdstr c) rest
                   (": " +:+ what +:+ " out of range"))
          end
      end
  end.

(** [time.Parse(layout, value)] *)
Definition time_Parse (layout : Layout) (value : string) : ParseResult :=
  parse_loop (layout_string layout) value (layout_chunks layout)
    initFields value.

(** *** [Time.Format] *)

Definition format_chunk (c : Chunk) (t : Time) : string :=
  match c with
  | stdLongYear => appendInt (Year t) 4
  | stdZeroMonth => appendInt (Month t) 2
  | stdZeroDay => appendInt (Day t) 2
  | stdHour => appendInt (Hour t) 2
  | stdZeroMinute => appendInt (Minute t) 2
  | stdZeroSecond => appendInt (Second t) 2
  | stdNumTZ =>
      let zone := Z.quot (zoneOffset t) 60 in
      (if zone <? 0 then "-" else "+")
      +:+ appendInt (Z.abs zone / 60) 2 +:+ appendInt (Z.abs zone mod 60) 2
  | stdISO8601ColonTZ =>
      if zoneOffset t =? 0 then "Z"
      else
        let zone := Z.quot (zoneOffset t) 60 in
        (if zone <? 0 then "-" else "+")
        +:+ appendInt (Z.abs zone / 60) 2 +:+ ":"
        +:+ appendInt (Z.abs zone mod 60) 2
  end.

Fixpoint format_loop (chunks : list (string * Chunk)) (t : Time) : string :=
  match chunks with
  | [] => EmptyString
  | (prefix, c) :: chunks' =>
      prefix +:+ format_chunk c t +:+ format_loop chunks' t
  end.

(** [t.Format(layout)] *)
Definition Format (t : Time) (layout : Layout) : string :=
  format_loop (layout_chunks layout) t.

(** ** The runner *)

Section Harness.

Variable env : Env.

(** [func (r *runner) run(args ...string) []byte] *)
Definition run (r : runner) (args : list string) : M string :=
  n ← next_call;
  emit (EvCommand (execPath r) (cwd r) args);;
  let '(out, err) := env_CombinedOutput env n (execPath r) (cwd r) args in
  match err with
  | Some e =>
      Fatalf "Failed to run %q %q: %v"
        [AString (execPath r); AStrings args; AError e]
  | None => mret out
  end.

(** [func (r *runner) freePort() int] *)
Definition freePort (r : runner) : M Z :=
  n ← next_call;
  match env_Listen env n with
  | inr e => Fatalf "Failed to find free port %v" [AError e]
  | inl (addr, port) =>
      emit (EvListen addr);;
      emit (EvClose port);;
      (if String.eqb (env_GOOS env) "windows" then Sleep 300 else mret tt);;
      mret port
  end.

(** The closure [runAsync] hands to [onClean]. *)
Definition cleanProcess (r : runner) (cmd : Cmd) (buf bufErr : option Stream)
  : M unit :=
  match cmd_Process cmd with
  | None => mret tt
  | Some pid =>
      let v := env_cleanup env pid in
      emit (EvSignalInterrupt pid);;
      (if cv_wait_in_time v then mret tt else emit (EvKill pid));;
      out ← Buffer_Bytes buf (cv_bytes v);
      Logf ("%q StdOut: %s" +:+ newline) [AString (cmd_Path cmd); ABytes out];;
      err ← Buffer_Bytes bufErr (cv_bytes v);
      Logf ("%q StdErr: %s" +:+ newline) [AString (cmd_Path cmd); ABytes err]
  end.

(** The loop [for i := 0; i < 100; i++] of [runAsync], from pass [i] with
    [n] passes left, and the [Fatalf] after it.  The test of the loop for
    a process that has exited reads the field [cmd.ProcessState]; the
    buffers are read as the process has filled them by that pass. *)
Fixpoint poll (r : runner) (checkFor : string) (args : list string)
    (cmd : Cmd) (pid : nat) (buf bufErr : option Stream) (i n : nat) : M Cmd :=
  let o := env_poll env pid i in
  match n with
  | O =>
      err ← Buffer_Bytes bufErr (obs_bytes o);
      Fatalf ("failed to read expected output %q from %q %q" +:+ newline
              +:+ "%s" +:+ newline)
        [AString checkFor; AString (execPath r); AStrings args; ABytes err]
  | S n' =>
      match cmd_ProcessState cmd with
      | Some ps =>
          if Exited ps then
            out ← Buffer_Bytes buf (obs_bytes o);
            err ← Buffer_Bytes bufErr (obs_bytes o);
            Fatalf ("unexpected stop %q %q" +:+ newline +:+ "%s" +:+ newline
                    +:+ "%s" +:+ newline)
              [AString (execPath r); AStrings args; ABytes out; ABytes err]
          else mret tt
      | None => mret tt
      end;;
      if Contains (Buffer_String buf (obs_bytes o)) checkFor then mret cmd
      else if Contains (Buffer_String bufErr (obs_bytes o)) checkFor then mret cmd
      else Sleep 10;; poll r checkFor args cmd pid buf bufErr (S i) n'
  end.

(** [func (r *runner) runAsync(checkFor string, args ...string) *exec.Cmd] *)
Definition runAsync (r : runner) (checkFor : string) (args : list string)
  : M Cmd :=
  let capture := negb (String.eqb checkFor EmptyString) in
  let buf := if capture then Some StdOut else None in
  let bufErr := if capture then Some StdErr else None in
  let dir := env_Current env in
  n ← next_call;
  match env_Start env n (execPath r) dir args with
  | inr e =>
      Fatalf "Failed to start %q %q: %v" [AString (execPath r); AStrings args]
  | inl pid =>
      emit (EvStart pid (execPath r) dir args);;
      let cmd :=
        {| cmd_Path := execPath r; cmd_Args := execPath r :: args;
           cmd_Dir := dir; cmd_Stdout := buf; cmd_Stderr := bufErr;
           cmd_Process := Some pid; cmd_ProcessState := None |} in
      onClean (CleanProcess r cmd buf bufErr);;
      if capture then poll r checkFor args cmd pid buf bufErr 0 100
      else mret cmd
  end.

(** ** The git handle *)

Definition vcs_runner (vcs : VcsHandle) : runner :=
  {| execPath := vcs_execPath vcs; cwd := vcs_cwd vcs |}.

(** [func (vcs *gitVcsHandle) create()] *)
Definition create (vcs : VcsHandle) : M unit :=
  run (vcs_runner vcs) ["init"];;
  run (vcs_runner vcs) ["config"; "user.name"; "tests"];;
  run (vcs_runner vcs) ["config"; "user.email"; "tests@govendor.io"];;
  mret tt.

(** [ss[i]]: indexing a slice checks the bounds. *)
Definition index (ss : list string) (i : nat) : M string :=
  match ss !! i with
  | Some s => mret s
  | None => abort (Crashed (IndexOutOfRange i (length ss)))
  end.

(** [Commit] from [line := strings.TrimSpace(string(out))] on. *)
Definition parse_commit (line : string) : M (string * string) :=
  let ss := Split line "@" in
  rev ← index ss 0;
  stamp ← index ss 1;
  match time_Parse gitLayout stamp with
  | ParseFailed err =>
      panic ("Failed to parse time: " +:+ stamp +:+ " : "
             +:+ ParseError_Error err)
  | Parsed tm => mret (rev, Format (UTC tm) RFC3339)
  end.

(** [func (vcs *gitVcsHandle) Commit() (rev string, commitTime string)] *)
Definition Commit (vcs : VcsHandle) : M (string * string) :=
  run (vcs_runner vcs) ["add"; "-A"];;
  run (vcs_runner vcs) ["commit"; "-a"; "-m"; "msg"];;
  out ← run (vcs_runner vcs) ["show"; "--pretty=format:%H@%ai"; "-s"];
  parse_commit (TrimSpace out).

(** ** The harness *)

(** [h.newer(h)]: calling a nil function value faults; the git [newer]
    allocates a handle for the test context's current package. *)
Definition call_newer (h : HttpHandler) : M VcsHandle :=
  match newer h with
  | None => abort (Crashed NilDereference)
  | Some gitNewer =>
      a ← alloc;
      p ← get_pkg;
      mret {| vcs_addr := a;
              vcs_execPath := h_execPath h;
              vcs_cwd := env_Current env;
              importPath := p |}
  end.

(** [func (h *HttpHandler) Setup() VcsHandle]; the handler is returned
    with the table as the call leaves it. *)
Definition Setup (h : HttpHandler) : M (VcsHandle * HttpHandler) :=
  vcs ← call_newer h;
  create vcs;;
  onClean (CleanRemove vcs);;
  mret (vcs, with_handles (<[pkg vcs := vcs]>) h).

(** Running a registered cleanup. *)
Definition run_cleanup (c : Cleanup) (h : HttpHandler) : M HttpHandler :=
  match c with
  | CleanRemove vcs => mret (remove vcs h)
  | CleanProcess r cmd buf bufErr => cleanProcess r cmd buf bufErr;; mret h
  end.

Definition h_runner (h : HttpHandler) : runner :=
  {| execPath := h_execPath h; cwd := h_cwd h |}.

(** [func NewHttpHandler(g *GopathTest, vcsName string) *HttpHandler];
    [None] is the nil pointer. *)
Definition NewHttpHandler (name : string) : M (option HttpHandler) :=
  n ← next_call;
  match env_Listen env n with
  | inr _ => mret None
  | inl (addr, port) =>
      emit (EvListen addr);;
      p ← get_pkg;
      let h0 :=
        {| h_execPath := EmptyString; h_cwd := env_Current env;
           httpAddr := addr; vcsAddr := EmptyString; vcsName := name;
           h_pkg := p; l := port; newer := None; handles := ∅ |} in
      emit (EvServe port);;
      let path := env_LookPath env name in
      (if (String.length path =? 0)%nat then Skip "unsupported vcs"
       else mret tt);;
      let h1 :=
        {| h_execPath := path; h_cwd := h_cwd h0; httpAddr := httpAddr h0;
           vcsAddr := vcsAddr h0; vcsName := vcsName h0; h_pkg := h_pkg h0;
           l := l h0; newer := newer h0; handles := handles h0 |} in
      if String.eqb name "git" then
        port' ← freePort (h_runner h1);
        let h2 :=
          {| h_execPath := h_execPath h1; h_cwd := h_cwd h1;
             httpAddr := httpAddr h1;
             vcsAddr := "git://localhost:" +:+ itoa port' +:+ "/";
             vcsName := vcsName h1; h_pkg := h_pkg h1; l := l h1;
             newer := newer h1; handles := handles h1 |} in
        runAsync (h_runner h2) " Ready "
          ["daemon"; "--listen=localhost"; "--port=" +:+ itoa port';
           "--export-all"; "--verbose"; "--informative-errors";
           "--base-path=" +:+ env_Path env EmptyString; h_cwd h2];;
        emit (EvPrint (mkDiagnostic ("base-path %q, serve %q" +:+ newline)
                         [AString (env_Path env EmptyString);
                          AString (h_cwd h2)]));;
        mret (Some {| h_execPath := h_execPath h2; h_cwd := h_cwd h2;
                      httpAddr := httpAddr h2; vcsAddr := vcsAddr h2;
                      vcsName := vcsName h2; h_pkg := h_pkg h2; l := l h2;
                      newer := Some gitNewer; handles := handles h2 |})
      else panic "unknown vcs type"
  end.

End Harness.

(** * The vocabulary of the properties *)

(** [p] is a prefix of [s], said without the code's functions. *)
Definition is_prefix (p s : string) : Prop := exists rest, s = p +:+ rest.

(** [sub] occurs in [s] as a substring, said without the code's
    functions. *)
Definition is_substring (sub s : string) : Prop :=
  exists before after, s = before +:+ sub +:+ after.

(** The request path without one leading slash, said without the code's
    functions. *)
Definition cleaned (urlPath : string) : string :=
  match urlPath with
  | String c rest => if Ascii.eqb c "/" then rest else urlPath
  | EmptyString => urlPath
  end.

(** The page a matched request is answered with. *)
Definition go_import_page (h : HttpHandler) (p : string) : string :=
  "<html><head><meta name=" +:+ dquote +:+ "go-import" +:+ dquote
  +:+ " content=" +:+ dquote
  +:+ httpAddr h +:+ "/" +:+ p +:+ " " +:+ vcsName h +:+ " "
  +:+ vcsAddr h +:+ p +:+ "/.git"
  +:+ dquote +:+ "></head></html>" +:+ newline.

(** All the commands numbered [from], ..., [from + count - 1] succeed. *)
Definition commands_succeed (env : Env) (from count : nat) : Prop :=
  forall n path dir args,
    (from <= n < from + count)%nat ->
    (env_CombinedOutput env n path dir args).2 = None.

(** What the three commands of [create] leave: the call counter three
    further, the three commands in the trace. *)
Definition after_create (vcs : VcsHandle) (w : World) : World :=
  with_trace
    (fun t => (t ++ [EvCommand (vcs_execPath vcs) (vcs_cwd vcs) ["init"];
                   EvCommand (vcs_execPath vcs) (vcs_cwd vcs)
                     ["config"; "user.name"; "tests"];
                   EvCommand (vcs_execPath vcs) (vcs_cwd vcs)
                     ["config"; "user.email"; "tests@govendor.io"]])%list)
    (with_calls (fun n => S (S (S n))) w).

(** The handle [Setup] builds in world [w]. *)
Definition new_handle (env : Env) (h : HttpHandler) (w : World) : VcsHandle :=
  {| vcs_addr := allocs w; vcs_execPath := h_execPath h;
     vcs_cwd := env_Current env; importPath := g_pkg w |}.

(** Every handle is registered under its own package path. *)
Definition registry_ok (m : gmap string VcsHandle) : Prop :=
  forall k vcs, m !! k = Some vcs -> pkg vcs = k.

(** The handlers a test can hold: one that [NewHttpHandler] returned, then
    changed by [Setup] and by the [remove] of any handle, in any world. *)
Inductive reachable (env : Env) : HttpHandler -> Prop :=
| reach_new name w h w' :
    NewHttpHandler env name w = (Returned (Some h), w') ->
    reachable env h
| reach_Setup h w vcs h' w' :
    reachable env h ->
    Setup env h w = (Returned (vcs, h'), w') ->
    reachable env h'
| reach_remove h vcs :
    reachable env h ->
    reachable env (remove vcs h).

(** The table after a run of removals. *)
Definition remove_all (later : list VcsHandle) (h : HttpHandler) : HttpHandler :=
  foldl (fun h vcs => remove vcs h) h later.

(** The marker is in what the process has written, to either buffer. *)
Definition marker_seen (o : Observation) (checkFor : string) : Prop :=
  is_substring checkFor (obs_out o) \/ is_substring checkFor (obs_err o).

(** The marker is in neither buffer. *)
Definition quiet (o : Observation) (checkFor : string) : Prop :=
  ~ is_substring checkFor (obs_out o) /\ ~ is_substring checkFor (obs_err o).

(** The world after [n] naps of the polling loop. *)
Definition slept (n : nat) (w : World) : World :=
  with_trace (fun t => (t ++ replicate n (EvSleep 10))%list) w.

(** The total time slept in a trace, in milliseconds. *)
Fixpoint time_slept (t : list Event) : Z :=
  match t with
  | [] => 0
  | EvSleep ms :: t' => ms + time_slept t'
  | _ :: t' => time_slept t'
  end.

(** The two fatal messages of the loop. *)
Definition unexpected_stop (r : runner) (args : list string) (o : Observation)
  : Diagnostic :=
  mkDiagnostic
    ("unexpected stop %q %q" +:+ newline +:+ "%s" +:+ newline +:+ "%s"
     +:+ newline)
    [AString (execPath r); AStrings args; ABytes (obs_out o);
     ABytes (obs_err o)].

Definition no_expected_output (r : runner) (checkFor : string)
    (args : list string) (o : Observation) : Diagnostic :=
  mkDiagnostic
    ("failed to read expected output %q from %q %q" +:+ newline +:+ "%s"
     +:+ newline)
    [AString checkFor; AString (execPath r); AStrings args;
     ABytes (obs_err o)].

(** A message carries a buffer when the buffer's bytes are one of its
    operands. *)
Definition carries (d : Diagnostic) (b : string) : Prop := In (ABytes b) (d_args d).

(** The command [runAsync] builds when it captures the output, and the
    world once the process is started and its cleanup registered. *)
Definition captured_cmd (env : Env) (r : runner) (args : list string)
    (pid : nat) : Cmd :=
  {| cmd_Path := execPath r; cmd_Args := execPath r :: args;
     cmd_Dir := env_Current env; cmd_Stdout := Some StdOut;
     cmd_Stderr := Some StdErr; cmd_Process := Some pid;
     cmd_ProcessState := None |}.

Definition started (env : Env) (r : runner) (args : list string) (pid : nat)
    (cmd : Cmd) (w : World) : World :=
  with_cleanups
    (fun c => (c ++ [CleanProcess r cmd (cmd_Stdout cmd) (cmd_Stderr cmd)])%list)
    (with_trace
       (fun t => (t ++ [EvStart pid (execPath r) (env_Current env) args])%list)
       (with_calls S w)).

(** ** A small world to run the harness in

    Git is installed, every command succeeds, and the daemon prints its
    readiness line at once. *)
Definition example_env : Env :=
  {| env_GOOS := "linux";
     env_Current := "/tmp/src";
     env_Path := fun suffix => "/tmp/gopath/src/" +:+ suffix;
     env_Listen := fun n => inl ("127.0.0.1:4000", 4000 + Z.of_nat n);
     env_LookPath := fun name => "/usr/bin/" +:+ name;
     env_CombinedOutput := fun _ _ _ _ =>
       ("0123abcd@2016-03-04 16:05:06 +0100" +:+ newline, None);
     env_Start := fun _ _ _ _ => inl 77%nat;
     env_poll := fun _ _ =>
       {| obs_exited := false;
          obs_out := "[77] Ready to rumble"; obs_err := EmptyString |};
     env_cleanup := fun _ =>
       {| cv_Signal := None; cv_wait_in_time := true;
          cv_out := "[77] Ready to rumble"; cv_err := EmptyString |} |}.

Definition example_world : World :=
  {| g_pkg := "example.org/mod"; cleanups := []; logs := []; trace := [];
     calls := 0; allocs := 0 |}.

Definition example_fresh : HttpHandler :=
  {| h_execPath := "/usr/bin/git"; h_cwd := "/tmp/src";
     httpAddr := "127.0.0.1:4000"; vcsAddr := "git://localhost:4001/";
     vcsName := "git"; h_pkg := "example.org/mod"; l := 4000;
     newer := Some gitNewer; handles := ∅ |}.

Definition example_vcs : VcsHandle :=
  {| vcs_addr := 0; vcs_execPath := "/usr/bin/git"; vcs_cwd := "/tmp/src";
     importPath := "example.org/mod" |}.

Definition example_handler : HttpHandler :=
  {| h_execPath := "/usr/bin/git"; h_cwd := "/tmp/src";
     httpAddr := "127.0.0.1:4000"; vcsAddr := "git://localhost:4001/";
     vcsName := "git"; h_pkg := "example.org/mod"; l := 4000;
     newer := Some gitNewer;
     handles := {[ "example.org/mod" := example_vcs ]} |}.

(** A daemon that has exited by the first look at it, with a complaint on
    stderr and no readiness line. *)
Definition exited_env : Env :=
  {| env_GOOS := "linux";
     env_Current := "/tmp/src";
     env_Path := fun suffix => "/tmp/gopath/src/" +:+ suffix;
     env_Listen := fun n => inl ("127.0.0.1:4000", 4000 + Z.of_nat n);
     env_LookPath := fun name => "/usr/bin/" +:+ name;
     env_CombinedOutput := fun _ _ _ _ => (EmptyString, None);
     env_Start := fun _ _ _ _ => inl 77%nat;
     env_poll := fun _ _ =>
       {| obs_exited := true;
          obs_out := EmptyString;
          obs_err := "fatal: unable to allocate any listen sockets" |};
     env_cleanup := fun _ =>
       {| cv_Signal := Some "os: process already finished";
          cv_wait_in_time := true;
          cv_out := EmptyString;
          cv_err := "fatal: unable to allocate any listen sockets" |} |}.

(** A daemon that stays up and never prints its readiness line. *)
Definition silent_env : Env :=
  {| env_GOOS := env_GOOS example_env;
     env_Current := env_Current example_env;
     env_Path := env_Path example_env;
     env_Listen := env_Listen example_env;
     env_LookPath := env_LookPath example_env;
     env_CombinedOutput := env_CombinedOutput example_env;
     env_Start := env_Start example_env;
     env_poll := fun _ _ =>
       {| obs_exited := false;
          obs_out := "git daemon starting";
          obs_err := "warning: nothing yet" |};
     env_cleanup := env_cleanup example_env |}.

(** No port to listen on. *)
Definition no_listen_env : Env :=
  {| env_GOOS := env_GOOS example_env;
     env_Current := env_Current example_env;
     env_Path := env_Path example_env;
     env_Listen := fun _ => inr "listen tcp 127.0.0.1:0: bind: no ports left";
     env_LookPath := env_LookPath example_env;
     env_CombinedOutput := env_CombinedOutput example_env;
     env_Start := env_Start example_env;
     env_poll := env_poll example_env;
     env_cleanup := env_cleanup example_env |}.

Definition example_runner : runner :=
  {| execPath := "/usr/bin/git"; cwd := "/tmp/src" |}.

(** The byte [c] occurs in [s]. *)
Definition occurs (c : ascii) (s : string) : Prop :=
  exists a b, s = a +:+ String c b.

(** The three commands of [Commit]. *)
Definition commit_commands : list (list string) :=
  [["add"; "-A"]; ["commit"; "-a"; "-m"; "msg"];
   ["show"; "--pretty=format:%H@%ai"; "-s"]].

(** What the three commands of [Commit] leave. *)
Definition after_commit (vcs : VcsHandle) (w : World) : World :=
  with_trace
    (fun t => (t ++ map (EvCommand (vcs_execPath vcs) (vcs_cwd vcs))
                     commit_commands)%list)
    (with_calls (fun n => S (S (S n))) w).

(** The line [Commit] reads: the trimmed output of its third command. *)
Definition commit_line (env : Env) (vcs : VcsHandle) (w : World) : string :=
  TrimSpace
    (env_CombinedOutput env (S (S (calls w))) (vcs_execPath vcs) (vcs_cwd vcs)
       ["show"; "--pretty=format:%H@%ai"; "-s"]).1.

(** Git answers the commit query with something that is no timestamp. *)
Definition garbled_env : Env :=
  {| env_GOOS := env_GOOS example_env;
     env_Current := env_Current example_env;
     env_Path := env_Path example_env;
     env_Listen := env_Listen example_env;
     env_LookPath := env_LookPath example_env;
     env_CombinedOutput := fun _ _ _ _ => ("0123abcd@yesterday", None);
     env_Start := env_Start example_env;
     env_poll := env_poll example_env;
     env_cleanup := env_cleanup example_env |}.

(** Git answers the commit query without the separator. *)
Definition unseparated_env : Env :=
  {| env_GOOS := env_GOOS example_env;
     env_Current := env_Current example_env;
     env_Path := env_Path example_env;
     env_Listen := env_Listen example_env;
     env_LookPath := env_LookPath example_env;
     env_CombinedOutput := fun _ _ _ _ => ("0123abcd", None);
     env_Start := env_Start example_env;
     env_poll := env_poll example_env;
     env_cleanup := env_cleanup example_env |}.


(** ** The calendar and the digits, for the timestamp *)

(** Within an era of 146097 days that starts on 1 March: the days before
    year [y] of the era, the last day of that year, and the count from
    which the year of a day is read. *)
Definition era_start (y : Z) : Z := 365 * y + y / 4 - y / 100.
Definition era_last (y : Z) : Z :=
  if y =? 399 then 146096 else era_start (y + 1) - 1.
Definition era_h (doe : Z) : Z := doe - doe / 1460 + doe / 36524 - doe / 146096.

(** Month and day of the day [doy] of a year that starts on 1 March. *)
Definition month_day (doy : Z) : Z * Z :=
  let mp := (5 * doy + 2) / 153 in
  let d := doy - (153 * mp + 2) / 5 + 1 in
  let m := if mp <? 10 then mp + 3 else mp - 9 in
  (m, d).

(** The day of the era: year of the era, month, day. *)
Definition era_civil (doe : Z) : Z * Z * Z :=
  let yoe := era_h doe / 365 in
  let '(m, d) := month_day (doe - era_start yoe) in
  (yoe, m, d).

(** The day of the era of a date, and the year a month of a year that
    starts in March falls in. *)
Definition era_day (yoe m d : Z) : Z :=
  let mp := (m + 9) mod 12 in
  let doy := (153 * mp + 2) / 5 + d - 1 in
  yoe * 365 + yoe / 4 - yoe / 100 + doy.

Definition carry (m : Z) : Z := if m <=? 2 then 1 else 0.

(** What is checked of each year of the era, and of each day of a year. *)
Definition year_check (y : Z) : bool :=
  (0 <=? era_start y) && (era_last y <=? 146096)
  && (365 * y <=? era_h (era_start y))
  && (era_h (era_last y) <? 365 * (y + 1))
  && (era_last y - era_start y =? (if isLeap (y + 1) then 365 else 364)).

Definition doy_check (doy : Z) : bool :=
  let '(m, d) := month_day doy in
  (1 <=? m) && (m <=? 12) && (1 <=? d)
  && (d <=? (if m =? 2 then (if doy =? 365 then 29 else 28) else daysIn m 1))
  && ((153 * ((m + 9) mod 12) + 2) / 5 + d - 1 =? doy).

(** [check] holds of [z], [z + 1], ..., [fuel] numbers in all. *)
Fixpoint check_from (check : Z -> bool) (fuel : nat) (z : Z) : bool :=
  match fuel with
  | O => true
  | S fuel' => check z && check_from check fuel' (z + 1)
  end.

(** The character [c] is the decimal digit of value [v]. *)
Definition shows (c : ascii) (v : Z) : Prop :=
  is_digit_char c = true /\ digit_val c = v.

(** Two and four decimal digits. *)
Definition pad2 (n : Z) : string :=
  String (digit_char (n / 10)) (String (digit_char (n mod 10)) EmptyString).

Definition pad4 (n : Z) : string :=
  String (digit_char (n / 10 / 10 / 10))
    (String (digit_char (n / 10 / 10 mod 10))
       (String (digit_char (n / 10 mod 10))
          (String (digit_char (n mod 10)) EmptyString))).

(** A timestamp as git's [%ai] prints it: the date and the clock of a
    place, and the offset of that place from UTC, east or west, in hours
    and minutes. *)
Record Stamp := mkStamp {
  st_year : Z;
  st_month : Z;
  st_day : Z;
  st_hour : Z;
  st_min : Z;
  st_sec : Z;
  st_east : bool;
  st_zh : Z;
  st_zm : Z
}.

(** The fields are those of a day of the calendar and a time of the day. *)
Definition stamp_ok (st : Stamp) : Prop :=
  0 <= st_year st <= 9999
  /\ 1 <= st_month st <= 12
  /\ 1 <= st_day st <= daysIn (st_month st) (st_year st)
  /\ 0 <= st_hour st < 24
  /\ 0 <= st_min st < 60
  /\ 0 <= st_sec st < 60
  /\ 0 <= st_zh st <= 24
  /\ 0 <= st_zm st < 60.

(** The string of the pattern [YYYY-MM-DD HH:MM:SS ±HHMM]. *)
Definition render_stamp (st : Stamp) : string :=
  pad4 (st_year st) +:+ "-" +:+ pad2 (st_month st) +:+ "-"
  +:+ pad2 (st_day st) +:+ " " +:+ pad2 (st_hour st) +:+ ":"
  +:+ pad2 (st_min st) +:+ ":" +:+ pad2 (st_sec st) +:+ " "
  +:+ (if st_east st then "+" else "-") +:+ pad2 (st_zh st)
  +:+ pad2 (st_zm st).

(** The offset in seconds east of UTC, and the instant the timestamp
    denotes, in seconds since 1970-01-01T00:00:00Z. *)
Definition stamp_offset (st : Stamp) : Z :=
  (if st_east st then 1 else -1) * ((st_zh st * 60 + st_zm st) * 60).

Definition stamp_instant (st : Stamp) : Z :=
  days_from_civil (st_year st) (st_month st) (st_day st) * 86400
  + st_hour st * 3600 + st_min st * 60 + st_sec st - stamp_offset st.

Definition example_stamp_fields : Stamp :=
  {| st_year := 2016; st_month := 3; st_day := 4; st_hour := 16;
     st_min := 5; st_sec := 6; st_east := true; st_zh := 1; st_zm := 0 |}.

(** The first hour of the year 0000, one hour east of UTC. *)
Definition year_zero_stamp : Stamp :=
  {| st_year := 0; st_month := 1; st_day := 1; st_hour := 0;
     st_min := 0; st_sec := 0; st_east := true; st_zh := 1; st_zm := 0 |}.

(** * The rest of the harness, and more vocabulary *)

(** [func (h *HttpHandler) HttpAddr() string] *)
Definition HttpAddr (h : HttpHandler) : string := httpAddr h.

(** The three commands of [create]. *)
Definition create_commands : list (list string) :=
  [["init"]; ["config"; "user.name"; "tests"];
   ["config"; "user.email"; "tests@govendor.io"]].

(** The message [run] fails the test with. *)
Definition run_failure (r : runner) (args : list string) (e : string)
  : Diagnostic :=
  mkDiagnostic "Failed to run %q %q: %v"
    [AString (execPath r); AStrings args; AError e].

(** The world once the runner [r] has issued the commands [cmds], one
    after the other, and nothing else has happened. *)
Definition ran (r : runner) (cmds : list (list string)) (w : World) : World :=
  with_trace
    (fun t => (t ++ map (EvCommand (execPath r) (cwd r)) cmds)%list)
    (with_calls (fun n => (n + length cmds)%nat) w).

(** Of the commands [cmds], numbered from call [from] on, the one at
    position [k] is the first to fail, with error [e]. *)
Definition first_failure (env : Env) (r : runner) (cmds : list (list string))
    (from k : nat) (args : list string) (e : string) : Prop :=
  cmds !! k = Some args
  /\ (forall j a, (j < k)%nat -> cmds !! j = Some a ->
        (env_CombinedOutput env (from + j) (execPath r) (cwd r) a).2 = None)
  /\ (env_CombinedOutput env (from + k) (execPath r) (cwd r) args).2 = Some e.

(** The byte [c] is one of the bytes of [s]. *)
Fixpoint has_byte (c : ascii) (s : string) : bool :=
  match s with
  | EmptyString => false
  | String x s' => Ascii.eqb x c || has_byte c s'
  end.

(** Git's command number [n] fails; everything else is as in
    [example_env]. *)
Definition failing_env (n : nat) : Env :=
  {| env_GOOS := env_GOOS example_env;
     env_Current := env_Current example_env;
     env_Path := env_Path example_env;
     env_Listen := env_Listen example_env;
     env_LookPath := env_LookPath example_env;
     env_CombinedOutput := fun i path dir args =>
       if (i =? n)%nat then ("fatal: unable to write", Some "exit status 128")
       else env_CombinedOutput example_env i path dir args;
     env_Start := env_Start example_env;
     env_poll := env_poll example_env;
     env_cleanup := env_cleanup example_env |}.

(** A second handle, for a package below the first, and a handler that
    has both registered. *)
Definition example_sub_vcs : VcsHandle :=
  {| vcs_addr := 1; vcs_execPath := "/usr/bin/git"; vcs_cwd := "/tmp/src";
     importPath := "example.org/mod/sub" |}.

Definition nested_handler : HttpHandler :=
  with_handles (<["example.org/mod/sub" := example_sub_vcs]>) example_handler.

(** The message of [runAsync] for a process that could not be started:
    the format has three verbs and the call passes two operands. *)
Definition start_failure (r : runner) (args : list string) : Diagnostic :=
  mkDiagnostic "Failed to start %q %q: %v" [AString (execPath r); AStrings args].

(** The command [runAsync] builds when it does not capture the output. *)
Definition uncaptured_cmd (env : Env) (r : runner) (args : list string)
    (pid : nat) : Cmd :=
  {| cmd_Path := execPath r; cmd_Args := execPath r :: args;
     cmd_Dir := env_Current env; cmd_Stdout := None; cmd_Stderr := None;
     cmd_Process := Some pid; cmd_ProcessState := None |}.

(** What the cleanup of process [pid] does to it: the interrupt, and the
    kill when the process outlasts the timer. *)
Definition stop_events (env : Env) (pid : nat) : list Event :=
  EvSignalInterrupt pid
  :: (if cv_wait_in_time (env_cleanup env pid) then [] else [EvKill pid]).

(** The two lines the cleanup logs. *)
Definition cleanup_log (env : Env) (path : string) (pid : nat)
  : list Diagnostic :=
  [mkDiagnostic ("%q StdOut: %s" +:+ newline)
     [AString path; ABytes (cv_out (env_cleanup env pid))];
   mkDiagnostic ("%q StdErr: %s" +:+ newline)
     [AString path; ABytes (cv_err (env_cleanup env pid))]].

(** The process cannot be started. *)
Definition no_start_env : Env :=
  {| env_GOOS := env_GOOS example_env;
     env_Current := env_Current example_env;
     env_Path := env_Path example_env;
     env_Listen := env_Listen example_env;
     env_LookPath := env_LookPath example_env;
     env_CombinedOutput := env_CombinedOutput example_env;
     env_Start := fun _ _ _ _ => inr "fork/exec /usr/bin/git: permission denied";
     env_poll := env_poll example_env;
     env_cleanup := env_cleanup example_env |}.

(** A daemon that does not go away on the interrupt. *)
Definition stubborn_env : Env :=
  {| env_GOOS := env_GOOS example_env;
     env_Current := env_Current example_env;
     env_Path := env_Path example_env;
     env_Listen := env_Listen example_env;
     env_LookPath := env_LookPath example_env;
     env_CombinedOutput := env_CombinedOutput example_env;
     env_Start := env_Start example_env;
     env_poll := env_poll example_env;
     env_cleanup := fun _ =>
       {| cv_Signal := None; cv_wait_in_time := false;
          cv_out := "[77] Ready to rumble"; cv_err := "still busy" |} |}.

(** The world once [NewHttpHandler] has its listener and has started the
    server on it. *)
Definition served (addr : string) (port : Z) (w : World) : World :=
  with_trace (fun t => (t ++ [EvListen addr; EvServe port])%list)
    (with_calls S w).

(** The world once [freePort] has had a listener and closed it. *)
Definition freed (env : Env) (addr : string) (port : Z) (w : World) : World :=
  with_trace
    (fun t => (t ++ [EvListen addr; EvClose port]
                 ++ (if String.eqb (env_GOOS env) "windows"
                     then [EvSleep 300] else []))%list)
    (with_calls S w).

Definition port_failure (e : string) : Diagnostic :=
  mkDiagnostic "Failed to find free port %v" [AError e].

(** The runner of the handler, and the command line of the git daemon. *)
Definition git_runner (env : Env) : runner :=
  {| execPath := env_LookPath env "git"; cwd := env_Current env |}.

Definition daemon_args (env : Env) (port : Z) : list string :=
  ["daemon"; "--listen=localhost"; "--port=" +:+ itoa port;
   "--export-all"; "--verbose"; "--informative-errors";
   "--base-path=" +:+ env_Path env EmptyString; env_Current env].

(** The handler [NewHttpHandler] returns for git. *)
Definition git_handler (env : Env) (addr : string) (port port' : Z)
    (p : string) : HttpHandler :=
  {| h_execPath := env_LookPath env "git"; h_cwd := env_Current env;
     httpAddr := addr;
     vcsAddr := "git://localhost:" +:+ itoa port' +:+ "/";
     vcsName := "git"; h_pkg := p; l := port;
     newer := Some gitNewer; handles := ∅ |}.

(** The line [NewHttpHandler] prints at its end. *)
Definition announced (env : Env) (w : World) : World :=
  with_trace
    (fun t => (t ++ [EvPrint (mkDiagnostic
                                ("base-path %q, serve %q" +:+ newline)
                                [AString (env_Path env EmptyString);
                                 AString (env_Current env)])])%list)
    w.

(** The formats of the fatal messages on the way to a running daemon. *)
Definition daemon_failures : list string :=
  ["Failed to find free port %v";
   "Failed to start %q %q: %v";
   "unexpected stop %q %q" +:+ newline +:+ "%s" +:+ newline +:+ "%s"
   +:+ newline;
   "failed to read expected output %q from %q %q" +:+ newline +:+ "%s"
   +:+ newline].

(** No git on this machine. *)
Definition no_git_env : Env :=
  {| env_GOOS := env_GOOS example_env;
     env_Current := env_Current example_env;
     env_Path := env_Path example_env;
     env_Listen := env_Listen example_env;
     env_LookPath := fun _ => EmptyString;
     env_CombinedOutput := env_CombinedOutput example_env;
     env_Start := env_Start example_env;
     env_poll := env_poll example_env;
     env_cleanup := env_cleanup example_env |}.

(** The fields of a timestamp are numbers of as many digits as the
    pattern has for them. *)
Definition stamp_digits (st : Stamp) : Prop :=
  0 <= st_year st <= 9999
  /\ 0 <= st_month st <= 99 /\ 0 <= st_day st <= 99
  /\ 0 <= st_hour st <= 99 /\ 0 <= st_min st <= 99 /\ 0 <= st_sec st <= 99
  /\ 0 <= st_zh st <= 99 /\ 0 <= st_zm st <= 99.

(** A timestamp of the pattern whose month does not have its day; all the
    other fields are as in [stamp_ok]. *)
Definition day_missing (st : Stamp) : Prop :=
  0 <= st_year st <= 9999
  /\ 1 <= st_month st <= 12
  /\ (st_day st = 0 \/ daysIn (st_month st) (st_year st) < st_day st <= 99)
  /\ 0 <= st_hour st < 24
  /\ 0 <= st_min st < 60
  /\ 0 <= st_sec st < 60
  /\ 0 <= st_zh st <= 24
  /\ 0 <= st_zm st < 60.

(** The time a parsed timestamp is. *)
Definition stamp_time (st : Stamp) : Time :=
  {| unixSec := stamp_instant st; nsec := 0; zoneOffset := stamp_offset st |}.

(** The instant of [example_stamp_fields], as a clock thirteen hours east
    of UTC shows it: on the next day. *)
Definition example_stamp_east : Stamp :=
  {| st_year := 2016; st_month := 3; st_day := 5; st_hour := 4;
     st_min := 5; st_sec := 6; st_east := true; st_zh := 13; st_zm := 0 |}.

(** 29 February of a year that is not a leap year. *)
Definition leap_day_stamp : Stamp :=
  {| st_year := 2015; st_month := 2; st_day := 29; st_hour := 12;
     st_min := 0; st_sec := 0; st_east := false; st_zh := 8; st_zm := 0 |}.

(** * Properties *)

(** ** Strings *)

Lemma append_cons (c : ascii) (a b : string) :
  String c a +:+ b = String c (a +:+ b).
Proof. reflexivity. Qed.

Lemma append_assoc (a b c : string) : (a +:+ b) +:+ c = a +:+ (b +:+ c).
Proof.
  induction a as [|x a IH]; [done |]. by rewrite !append_cons, IH.
Qed.

Lemma slice_to_app (p rest : string) :
  slice_to (String.length p) (p +:+ rest) = p.
Proof. induction p as [|c p IH]; simpl; [by destruct rest | by rewrite IH]. Qed.

Lemma slice_from_app (p rest : string) :
  slice_from (String.length p) (p +:+ rest) = rest.
Proof. induction p as [|c p IH]; simpl; done. Qed.

Lemma slice_to_from (n : nat) (s : string) :
  s = slice_to n s +:+ slice_from n s.
Proof.
  revert s; induction n as [|n IH]; intros [|c s]; simpl; try done.
  rewrite append_cons. f_equal. apply IH.
Qed.

Lemma length_append (a b : string) :
  String.length (a +:+ b) = (String.length a + String.length b)%nat.
Proof. induction a as [|c a IH]; simpl; [done | by rewrite IH]. Qed.

Lemma HasPrefix_spec (s p : string) : HasPrefix s p = true <-> is_prefix p s.
Proof.
  unfold HasPrefix, is_prefix. rewrite andb_true_iff, Nat.leb_le, String.eqb_eq.
  split.
  - intros [_ Hp]. exists (slice_from (String.length p) s).
    rewrite <- Hp at 1. apply slice_to_from.
  - intros [rest ->]. rewrite slice_to_app, length_append. split; [lia | done].
Qed.

Lemma HasPrefix_false (s p : string) : HasPrefix s p = false <-> ~ is_prefix p s.
Proof. rewrite <- HasPrefix_spec. by destruct (HasPrefix s p). Qed.

Lemma TrimPrefix_slash (urlPath : string) : TrimPrefix urlPath "/" = cleaned urlPath.
Proof.
  destruct urlPath as [|c rest]; [done |].
  unfold TrimPrefix, HasPrefix, cleaned; simpl.
  destruct (Ascii.eqb c "/"); simpl; done.
Qed.

Lemma Contains_spec (s sub : string) :
  Contains s sub = true <-> is_substring sub s.
Proof.
  split.
  - induction s as [|c s IH]; simpl; rewrite orb_true_iff.
    + intros [H|H]; [|done]. apply HasPrefix_spec in H as [rest ->].
      by exists EmptyString, rest.
    + intros [H|H].
      * apply HasPrefix_spec in H as [rest ->]. by exists EmptyString, rest.
      * destruct (IH H) as (a & b & ->). by exists (String c a), b.
  - intros (a & b & ->). induction a as [|c a IH].
    + change (EmptyString +:+ sub +:+ b) with (sub +:+ b).
      assert (HasPrefix (sub +:+ b) sub = true) as H
        by (apply HasPrefix_spec; by exists b).
      destruct (sub +:+ b); simpl; by rewrite H.
    + rewrite append_cons. simpl. rewrite IH. apply orb_true_r.
Qed.

(** ** The redirect server *)

Lemma Sprintf_templ (a b c : string) :
  Sprintf templ [a; b; c]
  = "<html><head><meta name=" +:+ dquote +:+ "go-import" +:+ dquote
    +:+ " content=" +:+ dquote +:+ a +:+ " " +:+ b +:+ " " +:+ c
    +:+ dquote +:+ "></head></html>" +:+ newline.
Proof. reflexivity. Qed.

Lemma range_handles_Some (p : string) (order : list (string * VcsHandle))
    (vcs : VcsHandle) :
  range_handles p order = Some vcs ->
  exists k, (k, vcs) ∈ order /\ HasPrefix p (pkg vcs) = true.
Proof.
  induction order as [|[k try] order IH]; simpl; [done |].
  destruct (HasPrefix p (pkg try)) eqn:E.
  - intros [= <-]. exists k. split; [left | done].
  - intros H. destruct (IH H) as (k' & Hin & Hp). exists k'. split; [by right | done].
Qed.

Lemma range_handles_None (p : string) (order : list (string * VcsHandle)) :
  range_handles p order = None <->
  forall k vcs, (k, vcs) ∈ order -> HasPrefix p (pkg vcs) = false.
Proof.
  induction order as [|[k try] order IH]; simpl.
  - split; [intros _ k vcs Hin; by apply elem_of_nil in Hin | done].
  - destruct (HasPrefix p (pkg try)) eqn:E.
    + split; [done |]. intros H. specialize (H k try (list_elem_of_here _ _)).
      congruence.
    + rewrite IH. split.
      * intros H k' vcs [[= -> ->]|Hin]%elem_of_cons; [done | by eapply H].
      * intros H k' vcs Hin. eapply H. by right.
Qed.

Lemma iteration_elem (m : gmap string VcsHandle) order k vcs :
  iteration_of m order -> (k, vcs) ∈ order <-> m !! k = Some vcs.
Proof. intros Hp. unfold iteration_of in Hp. rewrite Hp. apply elem_of_map_to_list. Qed.

(** Whatever order the table is visited in: some registered handle is
    matched exactly when the loop finds one, and a handle the loop finds is
    registered and matches. *)
Lemma range_handles_found (m : gmap string VcsHandle) order p :
  iteration_of m order ->
  (exists k vcs, m !! k = Some vcs /\ is_prefix (pkg vcs) p) ->
  exists k vcs, m !! k = Some vcs /\ is_prefix (pkg vcs) p
                /\ range_handles p order = Some vcs.
Proof.
  intros Hit (k & vcs & Hk & Hp).
  destruct (range_handles p order) as [found|] eqn:E.
  - destruct (range_handles_Some _ _ _ E) as (k' & Hin & Hpre).
    exists k', found. rewrite <- (iteration_elem m order) by done.
    by rewrite <- HasPrefix_spec.
  - rewrite range_handles_None in E.
    apply (iteration_elem m order k vcs Hit) in Hk.
    apply E in Hk. apply HasPrefix_false in Hk. done.
Qed.

Lemma range_handles_not_found (m : gmap string VcsHandle) order p :
  iteration_of m order ->
  (forall k vcs, m !! k = Some vcs -> ~ is_prefix (pkg vcs) p) ->
  range_handles p order = None.
Proof.
  intros Hit Hno. apply range_handles_None. intros k vcs Hin.
  apply HasPrefix_false, (Hno k). by apply (iteration_elem m order).
Qed.

Lemma ServeHTTP_match (h : HttpHandler) order urlPath :
  iteration_of (handles h) order ->
  (exists k vcs, handles h !! k = Some vcs
                 /\ is_prefix (pkg vcs) (cleaned urlPath)) ->
  exists k vcs, handles h !! k = Some vcs
                /\ is_prefix (pkg vcs) (cleaned urlPath)
                /\ ServeHTTP h order urlPath
                   = {| status := 200; contentType := None;
                        body := go_import_page h (pkg vcs) |}.
Proof.
  intros Hit Hex. unfold ServeHTTP. rewrite TrimPrefix_slash.
  destruct (range_handles_found _ _ _ Hit Hex) as (k & vcs & Hk & Hp & ->).
  exists k, vcs. repeat split; try done.
  unfold Fprintf_fresh. rewrite Sprintf_templ. unfold go_import_page, StatusOK.
  by rewrite !append_assoc.
Qed.

Lemma ServeHTTP_no_match (h : HttpHandler) order urlPath :
  iteration_of (handles h) order ->
  (forall k vcs, handles h !! k = Some vcs
                 -> ~ is_prefix (pkg vcs) (cleaned urlPath)) ->
  ServeHTTP h order urlPath
  = {| status := 404; contentType := Some "text/plain; charset=utf-8";
       body := "repo not found" +:+ newline |}.
Proof.
  intros Hit Hno. unfold ServeHTTP. rewrite TrimPrefix_slash.
  by rewrite (range_handles_not_found _ _ _ Hit Hno).
Qed.

(** C1: a request whose cleaned path (one leading slash removed) has a
    registered handle's package path as a prefix is answered 200 with
    exactly the go-import page of a matching registered handle, newline
    included; a request that no registered package path is a prefix of is
    answered 404 with the plain-text line [repo not found]. *)
Theorem ServeHTTP_go_import (h : HttpHandler) (order : list (string * VcsHandle))
    (urlPath : string) :
  iteration_of (handles h) order ->
  ((exists k vcs, handles h !! k = Some vcs
                  /\ is_prefix (pkg vcs) (cleaned urlPath)) ->
   exists k vcs, handles h !! k = Some vcs
                 /\ is_prefix (pkg vcs) (cleaned urlPath)
                 /\ ServeHTTP h order urlPath
                    = {| status := 200; contentType := None;
                         body := go_import_page h (pkg vcs) |})
  /\ ((forall k vcs, handles h !! k = Some vcs
                     -> ~ is_prefix (pkg vcs) (cleaned urlPath)) ->
      ServeHTTP h order urlPath
      = {| status := 404;
           contentType := Some "text/plain; charset=utf-8";
           body := "repo not found" +:+ newline |}).
Proof.
  intros Hit. split.
  - by apply ServeHTTP_match.
  - by apply ServeHTTP_no_match.
Qed.

Lemma example_iteration :
  iteration_of (handles example_handler) [("example.org/mod", example_vcs)].
Proof. unfold iteration_of; simpl. by rewrite map_to_list_singleton. Qed.

Lemma ServeHTTP_go_import_witness :
  (exists k vcs,
      handles example_handler !! k = Some vcs
      /\ is_prefix (pkg vcs) (cleaned "/example.org/mod/sub")
      /\ ServeHTTP example_handler [("example.org/mod", example_vcs)]
           "/example.org/mod/sub"
         = {| status := 200; contentType := None;
              body := go_import_page example_handler (pkg vcs) |})
  /\ ServeHTTP example_handler [("example.org/mod", example_vcs)] "/other"
     = {| status := 404; contentType := Some "text/plain; charset=utf-8";
          body := "repo not found" +:+ newline |}.
Proof.
  split.
  - apply (ServeHTTP_go_import example_handler _ "/example.org/mod/sub"
             example_iteration).
    exists "example.org/mod", example_vcs. split; [done |].
    by apply HasPrefix_spec.
  - apply (ServeHTTP_go_import example_handler _ "/other" example_iteration).
    intros k vcs Hk. simpl in Hk.
    apply lookup_singleton_Some in Hk as [_ <-]. by apply HasPrefix_false.
Defined.

(** ** Computations *)

Lemma bind_Returned {A B} (m : M A) (f : A -> M B) (w w' : World) (b : B) :
  (m ≫= f) w = (Returned b, w') ->
  exists a w1, m w = (Returned a, w1) /\ f a w1 = (Returned b, w').
Proof.
  unfold mbind, M_bind. destruct (m w) as [[a|why] w1]; [eauto | done].
Qed.

Lemma bind_step {A B} (m : M A) (f : A -> M B) (w w1 : World) (a : A) :
  m w = (Returned a, w1) -> (m ≫= f) w = f a w1.
Proof. unfold mbind, M_bind. by intros ->. Qed.

Lemma bind_abort {A B} (m : M A) (f : A -> M B) (w w1 : World) why :
  m w = (Aborted why, w1) -> (m ≫= f) w = (Aborted why, w1).
Proof. unfold mbind, M_bind. by intros ->. Qed.

Lemma world_eq (w1 w2 : World) :
  g_pkg w1 = g_pkg w2 -> cleanups w1 = cleanups w2 -> logs w1 = logs w2 ->
  trace w1 = trace w2 -> calls w1 = calls w2 -> allocs w1 = allocs w2 ->
  w1 = w2.
Proof. destruct w1, w2; simpl; intros; by subst. Qed.

Lemma run_Returned env r args w out w' :
  run env r args w = (Returned out, w') ->
  env_CombinedOutput env (calls w) (execPath r) (cwd r) args = (out, None)
  /\ w' = with_trace (fun t => (t ++ [EvCommand (execPath r) (cwd r) args])%list)
            (with_calls S w).
Proof.
  unfold run. intros H.
  apply bind_Returned in H as (n & w1 & [= <- <-] & H).
  apply bind_Returned in H as ([] & w2 & [= <-] & H).
  simpl in H. destruct (env_CombinedOutput _ _ _ _ _) as [o [e|]]; [done |].
  by injection H as <- <-.
Qed.

Lemma run_succeeds env r args w :
  (env_CombinedOutput env (calls w) (execPath r) (cwd r) args).2 = None ->
  run env r args w
  = (Returned (env_CombinedOutput env (calls w) (execPath r) (cwd r) args).1,
     with_trace (fun t => (t ++ [EvCommand (execPath r) (cwd r) args])%list)
       (with_calls S w)).
Proof.
  intros H. unfold run, mbind, M_bind; simpl.
  destruct (env_CombinedOutput _ _ _ _ _) as [o e]; simpl in *. by subst e.
Qed.

Lemma run_fails env r args w e :
  (env_CombinedOutput env (calls w) (execPath r) (cwd r) args).2 = Some e ->
  run env r args w
  = (Aborted (Fatal (mkDiagnostic "Failed to run %q %q: %v"
                       [AString (execPath r); AStrings args; AError e])),
     with_trace (fun t => (t ++ [EvCommand (execPath r) (cwd r) args])%list)
       (with_calls S w)).
Proof.
  intros H. unfold run, mbind, M_bind; simpl.
  destruct (env_CombinedOutput _ _ _ _ _) as [o e']; simpl in *. by subst e'.
Qed.

Lemma create_Returned env vcs w w' :
  create env vcs w = (Returned tt, w') -> w' = after_create vcs w.
Proof.
  unfold create. intros H.
  apply bind_Returned in H as (o1 & w1 & H1 & H).
  apply bind_Returned in H as (o2 & w2 & H2 & H).
  apply bind_Returned in H as (o3 & w3 & H3 & H).
  injection H as <-.
  apply run_Returned in H1 as [_ ->], H2 as [_ ->], H3 as [_ ->].
  apply world_eq; simpl; try done. by rewrite <- !app_assoc.
Qed.

Lemma create_succeeds env vcs w :
  commands_succeed env (calls w) 3 ->
  create env vcs w = (Returned tt, after_create vcs w).
Proof.
  intros Hok. unfold create.
  erewrite bind_step; [| apply run_succeeds, Hok; lia].
  erewrite bind_step; [| apply run_succeeds, Hok; simpl; lia].
  erewrite bind_step; [| apply run_succeeds, Hok; simpl; lia].
  unfold mret, M_ret. f_equal.
  apply world_eq; simpl; try done. by rewrite <- !app_assoc.
Qed.

Lemma Setup_Returned env h w vcs h' w' :
  Setup env h w = (Returned (vcs, h'), w') ->
  newer h = Some gitNewer
  /\ vcs = new_handle env h w
  /\ h' = with_handles (<[g_pkg w := vcs]>) h
  /\ w' = with_cleanups (fun c => (c ++ [CleanRemove vcs])%list)
            (after_create vcs (with_allocs S w)).
Proof.
  unfold Setup. intros H.
  apply bind_Returned in H as (v & w1 & Hn & H).
  unfold call_newer in Hn. destruct (newer h) as [[]|]; [|done].
  apply bind_Returned in Hn as (a & wa & [= <- <-] & Hn).
  apply bind_Returned in Hn as (p & wp & [= <- <-] & Hn).
  injection Hn as <- <-.
  apply bind_Returned in H as ([] & w2 & Hc & H).
  apply create_Returned in Hc as ->.
  apply bind_Returned in H as ([] & w3 & [= <-] & H).
  injection H as <- <- <-. done.
Qed.

Lemma Setup_succeeds env h w :
  newer h = Some gitNewer ->
  commands_succeed env (calls w) 3 ->
  Setup env h w
  = (Returned (new_handle env h w,
               with_handles (<[g_pkg w := new_handle env h w]>) h),
     with_cleanups (fun c => (c ++ [CleanRemove (new_handle env h w)])%list)
       (after_create (new_handle env h w) (with_allocs S w))).
Proof.
  intros Hn Hok. unfold Setup, call_newer. rewrite Hn.
  unfold mbind, M_bind, alloc, get_pkg, mret, M_ret, onClean. simpl.
  rewrite (create_succeeds env _ (with_allocs S w)) by exact Hok.
  reflexivity.
Qed.

Lemma NewHttpHandler_Returned env name w h w' :
  NewHttpHandler env name w = (Returned (Some h), w') ->
  handles h = ∅ /\ newer h = Some gitNewer /\ vcsName h = "git".
Proof.
  unfold NewHttpHandler. intros H.
  apply bind_Returned in H as (n & w1 & _ & H).
  destruct (env_Listen env n) as [[addr port]|e]; [|done].
  apply bind_Returned in H as ([] & w2 & _ & H).
  apply bind_Returned in H as (p & w3 & _ & H).
  apply bind_Returned in H as ([] & w4 & _ & H).
  apply bind_Returned in H as ([] & w5 & _ & H).
  destruct (String.eqb name "git") eqn:Hgit; [|done].
  apply String.eqb_eq in Hgit as ->.
  apply bind_Returned in H as (port' & w6 & _ & H).
  apply bind_Returned in H as (cmd & w7 & _ & H).
  apply bind_Returned in H as ([] & w8 & _ & H).
  by injection H as <- <-.
Qed.

(** ** The routing table *)

Lemma registry_ok_insert (m : gmap string VcsHandle) vcs :
  registry_ok m -> registry_ok (<[pkg vcs := vcs]> m).
Proof.
  intros Hm k v. rewrite lookup_insert. case_decide; [naive_solver | apply Hm].
Qed.

Lemma registry_ok_delete (m : gmap string VcsHandle) k :
  registry_ok m -> registry_ok (delete k m).
Proof. intros Hm k' v. rewrite lookup_delete. case_decide; [done | apply Hm]. Qed.

(** The invariant of the table: it holds of every reachable handler, which
    also has its [newer] set. *)
Lemma reachable_invariant env h :
  reachable env h -> registry_ok (handles h) /\ newer h = Some gitNewer.
Proof.
  induction 1 as [name w h w' Hnew | h w vcs h' w' _ [IH1 IH2] HS
                 | h vcs _ [IH1 IH2]].
  - apply NewHttpHandler_Returned in Hnew as (-> & -> & _).
    split; [by intros k v | done].
  - apply Setup_Returned in HS as (_ & -> & -> & _). simpl. split; [|done].
    apply (registry_ok_insert _ (new_handle env h w) IH1).
  - simpl. split; [by apply registry_ok_delete | done].
Qed.

Lemma registry_ok_injective (m : gmap string VcsHandle) k1 k2 v1 v2 :
  registry_ok m ->
  m !! k1 = Some v1 -> m !! k2 = Some v2 -> pkg v1 = pkg v2 ->
  k1 = k2 /\ v1 = v2.
Proof.
  intros Hm H1 H2 Hp.
  assert (k1 = k2) as <- by (rewrite <- (Hm _ _ H1), <- (Hm _ _ H2); done).
  split; [done | congruence].
Qed.

Lemma remove_all_lookup later h k vcs :
  handles (remove_all later h) !! k = Some vcs -> handles h !! k = Some vcs.
Proof.
  revert h. induction later as [|v later IH]; intros h; simpl; [done |].
  intros H%IH. simpl in H. by apply lookup_delete_Some in H as [_ H].
Qed.

Lemma example_fresh_reachable : reachable example_env example_fresh.
Proof.
  eapply (reach_new _ "git" example_world). vm_compute. reflexivity.
Qed.

Lemma example_handler_reachable : reachable example_env example_handler.
Proof.
  eapply (reach_Setup _ example_fresh example_world example_vcs).
  - apply example_fresh_reachable.
  - rewrite Setup_succeeds; [| done | done].
    unfold example_handler, with_handles; simpl. rewrite insert_empty.
    reflexivity.
Qed.

(** C7: once the removal of a registered handle [H] has run, a request that
    only [H]'s package path matched is answered 404: straight away and
    after any further removals, whatever order the table is visited in. *)
Theorem removed_handle_not_routed (env : Env) (h : HttpHandler)
    (H : VcsHandle) (k : string) (later : list VcsHandle)
    (order : list (string * VcsHandle)) (urlPath : string) :
  reachable env h ->
  handles h !! k = Some H ->
  (forall k' vcs, handles h !! k' = Some vcs ->
                  is_prefix (pkg vcs) (cleaned urlPath) -> pkg vcs = pkg H) ->
  iteration_of (handles (remove_all later (remove H h))) order ->
  ServeHTTP (remove_all later (remove H h)) order urlPath
  = {| status := 404; contentType := Some "text/plain; charset=utf-8";
       body := "repo not found" +:+ newline |}.
Proof.
  intros [Hok _]%reachable_invariant HH Honly Hit.
  apply (ServeHTTP_no_match _ order urlPath Hit).
  intros k' vcs Hk' Hp.
  apply remove_all_lookup in Hk'. simpl in Hk'.
  apply lookup_delete_Some in Hk' as [Hne Hk'].
  apply Hne. rewrite <- (Hok _ _ Hk'). symmetry. by apply (Honly k').
Qed.

Lemma removed_handle_not_routed_witness :
  ServeHTTP (remove_all [] (remove example_vcs example_handler)) []
    "/example.org/mod/sub"
  = {| status := 404; contentType := Some "text/plain; charset=utf-8";
       body := "repo not found" +:+ newline |}.
Proof.
  apply (removed_handle_not_routed example_env example_handler example_vcs
           "example.org/mod" [] [] "/example.org/mod/sub").
  - apply example_handler_reachable.
  - apply lookup_singleton_eq.
  - intros k' vcs Hk' _. simpl in Hk'.
    by apply lookup_singleton_Some in Hk' as [_ <-].
  - unfold iteration_of; simpl. by rewrite delete_singleton_eq, map_to_list_empty.
Defined.

(** C10: in every reachable handler no two registered handles share a
    package path; and [Setup] for a package path that is already registered
    does not fail for it and keeps one entry: it returns a new handle,
    nothing is logged, and that handle takes the place of the registered
    one under the same key, the rest of the table unchanged. *)
Theorem Setup_last_registered_wins (env : Env) (h : HttpHandler) :
  reachable env h ->
  (forall k1 k2 v1 v2,
      handles h !! k1 = Some v1 -> handles h !! k2 = Some v2 ->
      pkg v1 = pkg v2 -> k1 = k2 /\ v1 = v2)
  /\ (forall w old,
         handles h !! g_pkg w = Some old ->
         commands_succeed env (calls w) 3 ->
         exists vcs h' w',
           Setup env h w = (Returned (vcs, h'), w')
           /\ pkg vcs = pkg old
           /\ vcs_addr vcs = allocs w
           /\ handles h' = <[pkg old := vcs]> (handles h)
           /\ handles h' !! pkg old = Some vcs
           /\ (forall k, k <> pkg old -> handles h' !! k = handles h !! k)
           /\ size (handles h') = size (handles h)
           /\ logs w' = logs w
           /\ (vcs_addr old < allocs w ->
               forall k, handles h' !! k <> Some old)%nat).
Proof.
  intros Hr. destruct (reachable_invariant _ _ Hr) as [Hok Hnewer]. split.
  - intros k1 k2 v1 v2. by apply registry_ok_injective.
  - intros w old Hold Hcmd.
    pose proof (Hok _ _ Hold) as Hpkg.
    eexists _, _, _. split; [by apply Setup_succeeds |].
    simpl. rewrite Hpkg.
    split; [done |]. split; [done |]. split; [done |].
    split; [apply lookup_insert_eq |].
    split; [by intros k Hk; rewrite lookup_insert_ne |].
    split; [by apply map_size_insert_Some |].
    split; [done |].
    intros Hfresh k. rewrite lookup_insert. case_decide as Hk.
    + intros [= Heq]. apply (f_equal vcs_addr) in Heq. simpl in Heq. lia.
    + intros Hk'. apply Hok in Hk'. congruence.
Qed.

Lemma Setup_last_registered_wins_witness :
  exists vcs h' w',
    Setup example_env example_handler example_world = (Returned (vcs, h'), w')
    /\ pkg vcs = pkg example_vcs
    /\ vcs_addr vcs = allocs example_world
    /\ handles h' = <[pkg example_vcs := vcs]> (handles example_handler)
    /\ handles h' !! pkg example_vcs = Some vcs
    /\ (forall k, k <> pkg example_vcs ->
                  handles h' !! k = handles example_handler !! k)
    /\ size (handles h') = size (handles example_handler)
    /\ logs w' = logs example_world
    /\ (vcs_addr example_vcs < allocs example_world ->
        forall k, handles h' !! k <> Some example_vcs)%nat.
Proof.
  apply (proj2 (Setup_last_registered_wins example_env example_handler
                  example_handler_reachable) example_world example_vcs).
  - apply lookup_singleton_eq.
  - done.
Defined.

(** ** The supervised process *)

Lemma slept_0 (w : World) : slept 0 w = w.
Proof. destruct w. unfold slept, with_trace; simpl. by rewrite app_nil_r. Qed.

Lemma slept_slept (n m : nat) (w : World) :
  slept n (slept m w) = slept (m + n) w.
Proof.
  unfold slept, with_trace; simpl. f_equal.
  by rewrite replicate_add, app_assoc.
Qed.

Lemma Contains_false (s sub : string) :
  Contains s sub = false <-> ~ is_substring sub s.
Proof. rewrite <- Contains_spec. by destruct (Contains s sub). Qed.

(** Every pass either has the marker in a buffer or has it in neither. *)
Lemma marker_seen_or_quiet (o : Observation) (checkFor : string) :
  marker_seen o checkFor \/ quiet o checkFor.
Proof.
  unfold marker_seen, quiet. rewrite <- !Contains_spec.
  destruct (Contains (obs_out o) checkFor), (Contains (obs_err o) checkFor);
    intuition congruence.
Qed.

Lemma poll_exhausted env r checkFor args cmd pid i w :
  poll env r checkFor args cmd pid (Some StdOut) (Some StdErr) i 0 w
  = (Aborted (Fatal (no_expected_output r checkFor args (env_poll env pid i))), w).
Proof. reflexivity. Qed.

(** Were [cmd.ProcessState] filled and the process gone, the pass would
    stop the loop, with both buffers in the message. *)
Lemma poll_exited env r checkFor args cmd pid i n w ps :
  cmd_ProcessState cmd = Some ps -> Exited ps = true ->
  poll env r checkFor args cmd pid (Some StdOut) (Some StdErr) i (S n) w
  = (Aborted (Fatal (unexpected_stop r args (env_poll env pid i))), w).
Proof. intros Hps He. simpl. by rewrite Hps, He. Qed.

Lemma poll_ready env r checkFor args cmd pid i n w :
  cmd_ProcessState cmd = None ->
  marker_seen (env_poll env pid i) checkFor ->
  poll env r checkFor args cmd pid (Some StdOut) (Some StdErr) i (S n) w
  = (Returned cmd, w).
Proof.
  unfold marker_seen. rewrite <- !Contains_spec. intros Hps Hm. simpl.
  rewrite Hps. unfold mbind, M_bind, mret, M_ret; simpl.
  destruct (Contains (obs_out _) checkFor); [done |].
  destruct (Contains (obs_err _) checkFor); [done |]. by destruct Hm.
Qed.

Lemma poll_quiet env r checkFor args cmd pid i n w :
  cmd_ProcessState cmd = None ->
  quiet (env_poll env pid i) checkFor ->
  poll env r checkFor args cmd pid (Some StdOut) (Some StdErr) i (S n) w
  = poll env r checkFor args cmd pid (Some StdOut) (Some StdErr) (S i) n
      (slept 1 w).
Proof.
  unfold quiet. rewrite <- !Contains_false. intros Hps [Ho He]. simpl.
  rewrite Hps. unfold mbind, M_bind, mret, M_ret; simpl. by rewrite Ho, He.
Qed.

(** [k] quiet passes in a row are [k] naps. *)
Lemma poll_quiet_run env r checkFor args cmd pid k : forall i n w,
  cmd_ProcessState cmd = None ->
  (forall j, (i <= j < i + k)%nat -> quiet (env_poll env pid j) checkFor) ->
  poll env r checkFor args cmd pid (Some StdOut) (Some StdErr) i (k + n) w
  = poll env r checkFor args cmd pid (Some StdOut) (Some StdErr) (i + k) n
      (slept k w).
Proof.
  induction k as [|k IH]; intros i n w Hps Hq.
  - by rewrite Nat.add_0_r, slept_0.
  - change (S k + n)%nat with (S (k + n)).
    rewrite poll_quiet by (done || apply Hq; lia).
    rewrite IH by (done || intros j Hj; apply Hq; lia).
    rewrite slept_slept. by replace (S i + k)%nat with (i + S k)%nat by lia.
Qed.

(** With [cmd.ProcessState] never filled, the loop from pass [i] with [n]
    passes left ends in one of two ways: at the first pass that has the
    marker in a buffer, or with its passes used up. *)
Lemma poll_cases env r checkFor args cmd pid n : forall i w,
  cmd_ProcessState cmd = None ->
  (exists j, (i <= j < i + n)%nat
     /\ (forall j', (i <= j' < j)%nat -> quiet (env_poll env pid j') checkFor)
     /\ marker_seen (env_poll env pid j) checkFor
     /\ poll env r checkFor args cmd pid (Some StdOut) (Some StdErr) i n w
        = (Returned cmd, slept (j - i) w))
  \/ ((forall j', (i <= j' < i + n)%nat -> quiet (env_poll env pid j') checkFor)
      /\ poll env r checkFor args cmd pid (Some StdOut) (Some StdErr) i n w
         = (Aborted (Fatal (no_expected_output r checkFor args
                              (env_poll env pid (i + n)))),
            slept n w)).
Proof.
  induction n as [|n IH]; intros i w Hps.
  - right. split; [intros j' Hj'; lia |].
    by rewrite poll_exhausted, slept_0, Nat.add_0_r.
  - destruct (marker_seen_or_quiet (env_poll env pid i) checkFor) as [Hm|Hq].
    { left. exists i. split; [lia |]. split; [intros j' Hj'; lia |].
      split; [done |]. by rewrite poll_ready, Nat.sub_diag, slept_0. }
    assert (forall j, (S i <= j)%nat ->
              (forall j', (S i <= j' < j)%nat ->
                          quiet (env_poll env pid j') checkFor) ->
              forall j', (i <= j' < j)%nat ->
                         quiet (env_poll env pid j') checkFor) as Hext.
    { intros j Hj Hall j' Hj'. destruct (decide (j' = i)) as [->|]; [done |].
      apply Hall. lia. }
    rewrite poll_quiet by done.
    destruct (IH (S i) (slept 1 w) Hps)
      as [(j & Hj & Hall & Hm' & ->) | (Hall & ->)].
    + left. exists j. split; [lia |]. split; [apply Hext; [lia | done] |].
      split; [done |]. rewrite slept_slept. do 2 f_equal. lia.
    + right. split.
      * apply Hext; [lia |]. intros j' Hj'. apply Hall. lia.
      * rewrite slept_slept. replace (S i + n)%nat with (i + S n)%nat by lia.
        done.
Qed.

(** The loop is bounded: it naps at most as often as it has passes left,
    and changes nothing else in the world. *)
Lemma poll_bounded env r checkFor args cmd pid n : forall i w,
  cmd_ProcessState cmd = None ->
  exists k, (k <= n)%nat
    /\ (poll env r checkFor args cmd pid (Some StdOut) (Some StdErr) i n w).2
       = slept k w.
Proof.
  intros i w Hps.
  destruct (poll_cases env r checkFor args cmd pid n i w Hps)
    as [(j & Hj & _ & _ & ->) | (_ & ->)].
  - exists (j - i)%nat. split; [lia | done].
  - by exists n.
Qed.

Lemma runAsync_capture env r checkFor args w pid :
  checkFor <> EmptyString ->
  env_Start env (calls w) (execPath r) (env_Current env) args = inl pid ->
  runAsync env r checkFor args w
  = poll env r checkFor args (captured_cmd env r args pid) pid
      (Some StdOut) (Some StdErr) 0 100
      (started env r args pid (captured_cmd env r args pid) w).
Proof.
  intros Hne Hstart. unfold runAsync.
  destruct (String.eqb checkFor EmptyString) eqn:E;
    [by apply String.eqb_eq in E |].
  unfold mbind at 1. unfold M_bind at 1. simpl. rewrite Hstart.
  reflexivity.
Qed.

Lemma time_slept_app (t1 t2 : list Event) :
  time_slept (t1 ++ t2) = time_slept t1 + time_slept t2.
Proof.
  induction t1 as [|e t1 IH]; simpl; [done |]. destruct e; lia.
Qed.

Lemma time_slept_replicate (n : nat) :
  time_slept (replicate n (EvSleep 10)) = 10 * Z.of_nat n.
Proof. induction n as [|n IH]; simpl replicate; simpl time_slept; lia. Qed.

(** All hundred passes quiet: the loop ends in the [Fatalf] after it, with
    the message built from the last read. *)
Lemma runAsync_exhausted env r checkFor args w pid :
  checkFor <> EmptyString ->
  env_Start env (calls w) (execPath r) (env_Current env) args = inl pid ->
  (forall j, (j < 100)%nat -> quiet (env_poll env pid j) checkFor) ->
  runAsync env r checkFor args w
  = (Aborted (Fatal (no_expected_output r checkFor args (env_poll env pid 100))),
     slept 100 (started env r args pid (captured_cmd env r args pid) w)).
Proof.
  intros Hne Hstart Hq. rewrite (runAsync_capture _ _ _ _ _ pid) by done.
  change 100%nat with (100 + 0)%nat at 1.
  rewrite poll_quiet_run by (done || intros j Hj; apply Hq; lia).
  apply poll_exhausted.
Qed.

(** C3 (the code falls short of it): a daemon that stays up for all hundred
    passes without the marker in either buffer makes [runAsync] fail
    fatally, and the message carries the captured stderr but not the
    captured stdout. *)
Theorem runAsync_exhausted_reports_stderr_only :
  exists d w',
    runAsync silent_env example_runner " Ready " ["daemon"] example_world
    = (Aborted (Fatal d), w')
    /\ d_args d = [AString " Ready "; AString "/usr/bin/git";
                   AStrings ["daemon"]; ABytes "warning: nothing yet"]
    /\ carries d "warning: nothing yet"
    /\ ~ carries d "git daemon starting".
Proof.
  eexists _, _. split.
  - apply (runAsync_exhausted silent_env example_runner " Ready " ["daemon"]
             example_world 77); [done | done |].
    intros j _. split; by apply Contains_false.
  - split; [reflexivity |]. split.
    + unfold carries; simpl. tauto.
    + unfold carries; simpl. intros H. decompose [or] H; discriminate || done.
Qed.

(** C8 (the code falls short of it): the loop's test for a process that
    has exited reads [cmd.ProcessState], which [Start] leaves [nil] and
    only [cmd.Wait] fills, and nothing calls [cmd.Wait].  So a daemon that
    has exited by the first pass, the marker in neither buffer, is not
    found out: [runAsync] naps through all hundred passes, a second in
    all, and then fails with the message of the used-up loop, which
    carries the captured stderr only; and no run of [runAsync] whatever
    ends in the message [unexpected stop]. *)
Theorem runAsync_exit_goes_unnoticed :
  exists d w',
    (forall i, obs_exited (env_poll exited_env 77 i) = true)
    /\ runAsync exited_env example_runner " Ready " ["daemon"] example_world
       = (Aborted (Fatal d), w')
    /\ d = no_expected_output example_runner " Ready " ["daemon"]
             (env_poll exited_env 77 100)
    /\ d <> unexpected_stop example_runner ["daemon"] (env_poll exited_env 77 0)
    /\ time_slept (trace w') = 1000
    /\ (forall env r checkFor args w d' w'',
          runAsync env r checkFor args w = (Aborted (Fatal d'), w'') ->
          d_format d' <> d_format (unexpected_stop r args (env_poll env 0 0))).
Proof.
  eexists _, _. split; [done |]. split.
  { apply (runAsync_exhausted exited_env example_runner " Ready " ["daemon"]
             example_world 77); [done | done |].
    intros j _. split; by apply Contains_false. }
  split; [reflexivity |]. split; [discriminate |]. split.
  { vm_compute. reflexivity. }
  intros env r checkFor args w d' w'' H.
  destruct (env_Start env (calls w) (execPath r) (env_Current env) args)
    as [pid|e] eqn:Hs.
  - destruct (String.eqb checkFor EmptyString) eqn:E.
    + unfold runAsync, mbind, M_bind, next_call in H; simpl in H.
      rewrite Hs, E in H. done.
    + apply String.eqb_neq in E.
      rewrite (runAsync_capture _ _ _ _ _ pid) in H by done.
      destruct (poll_cases env r checkFor args (captured_cmd env r args pid)
                  pid 100 0%nat
                  (started env r args pid (captured_cmd env r args pid) w)
                  eq_refl)
        as [(j & _ & _ & _ & Hp) | (_ & Hp)]; rewrite Hp in H; [done |].
      injection H as <- <-. discriminate.
  - unfold runAsync, mbind, M_bind, next_call in H; simpl in H.
    rewrite Hs in H. injection H as <- <-. discriminate.
Qed.

(** ** The cleanup of a supervised process *)

(** With its output captured, a started process is always cleaned up
    without a fault: interrupted, killed if it outlasts the timer, and both
    buffers logged, stdout first. *)
Lemma cleanProcess_captured env r cmd pid w :
  cmd_Process cmd = Some pid ->
  cleanProcess env r cmd (Some StdOut) (Some StdErr) w
  = (Returned tt,
     with_logs
       (fun l => (l ++ [mkDiagnostic ("%q StdOut: %s" +:+ newline)
                        [AString (cmd_Path cmd);
                         ABytes (cv_out (env_cleanup env pid))];
                      mkDiagnostic ("%q StdErr: %s" +:+ newline)
                        [AString (cmd_Path cmd);
                         ABytes (cv_err (env_cleanup env pid))]])%list)
       (with_trace
          (fun t => (t ++ EvSignalInterrupt pid
                          :: (if cv_wait_in_time (env_cleanup env pid)
                              then [] else [EvKill pid]))%list)
          w)).
Proof.
  intros Hp. unfold cleanProcess. rewrite Hp.
  unfold mbind, M_bind, emit, Logf, Buffer_Bytes, mret, M_ret; simpl.
  destruct (cv_wait_in_time (env_cleanup env pid)); simpl; f_equal;
    apply world_eq; simpl; try done; by rewrite <- !app_assoc.
Qed.

(** A process that was never started is left alone: no signal, no log. *)
Lemma cleanProcess_not_started env r cmd buf bufErr w :
  cmd_Process cmd = None ->
  cleanProcess env r cmd buf bufErr w = (Returned tt, w).
Proof. intros Hp. unfold cleanProcess. by rewrite Hp. Qed.

(** C4 (the code falls short of it): started without a marker, [runAsync]
    registers a cleanup whose buffers are nil; running that cleanup signals
    the process and then faults on the nil buffer, before anything is
    logged. *)
Theorem cleanup_without_marker_crashes :
  exists cmd w1 c w2,
    runAsync example_env example_runner EmptyString ["daemon"] example_world
    = (Returned cmd, w1)
    /\ cleanups w1 = [c]
    /\ run_cleanup example_env c example_fresh w1
       = (Aborted (Crashed NilDereference), w2)
    /\ trace w2 = [EvStart 77 "/usr/bin/git" "/tmp/src" ["daemon"];
                   EvSignalInterrupt 77]
    /\ logs w2 = [].
Proof.
  eexists _, _, _, _. split; [vm_compute; reflexivity |].
  split; [reflexivity |]. split; [vm_compute; reflexivity |].
  split; reflexivity.
Qed.

(** ** The constructor *)

(** C5: when the listener cannot be had, [NewHttpHandler] returns the nil
    handler as its signal that there is nothing to test: it neither fails
    the test nor aborts in any other way, tries no other listener, and
    starts neither the server nor the daemon; the world is as before but
    for the one call made. *)
Theorem NewHttpHandler_listen_failure (env : Env) (name : string) (w : World)
    (e : string) :
  env_Listen env (calls w) = inr e ->
  NewHttpHandler env name w = (Returned None, with_calls S w)
  /\ trace (NewHttpHandler env name w).2 = trace w
  /\ cleanups (NewHttpHandler env name w).2 = cleanups w
  /\ logs (NewHttpHandler env name w).2 = logs w.
Proof.
  intros He.
  assert (NewHttpHandler env name w = (Returned None, with_calls S w)) as ->.
  { unfold NewHttpHandler, mbind, M_bind, next_call. by rewrite He. }
  done.
Qed.

Lemma NewHttpHandler_listen_failure_witness :
  NewHttpHandler no_listen_env "git" example_world
  = (Returned None, with_calls S example_world)
  /\ trace (NewHttpHandler no_listen_env "git" example_world).2
     = trace example_world
  /\ cleanups (NewHttpHandler no_listen_env "git" example_world).2
     = cleanups example_world
  /\ logs (NewHttpHandler no_listen_env "git" example_world).2
     = logs example_world.
Proof.
  apply (NewHttpHandler_listen_failure no_listen_env "git" example_world
           "listen tcp 127.0.0.1:0: bind: no ports left").
  reflexivity.
Defined.

(** ** Commit *)

Lemma Split_nonempty (s : string) (sep : ascii) :
  exists piece pieces, Split s sep = piece :: pieces.
Proof.
  induction s as [|c s (piece & pieces & IH)]; simpl; [eauto |].
  destruct (Ascii.eqb c sep); [eauto |]. rewrite IH. eauto.
Qed.

Lemma not_occurs_cons (sep c : ascii) (s : string) :
  ~ occurs sep (String c s) -> c <> sep /\ ~ occurs sep s.
Proof.
  intros Hno. split.
  - intros ->. apply Hno. by exists EmptyString, s.
  - intros (a & b & ->). apply Hno. by exists (String c a), b.
Qed.

(** The first piece ends at the first separator. *)
Lemma Split_cut (a b : string) (sep : ascii) :
  ~ occurs sep a -> Split (a +:+ String sep b) sep = a :: Split b sep.
Proof.
  induction a as [|c a IH]; intros Hno.
  - change (EmptyString +:+ String sep b) with (String sep b). simpl.
    by rewrite Ascii.eqb_refl.
  - apply not_occurs_cons in Hno as [Hc Hno].
    rewrite append_cons. simpl.
    apply Ascii.eqb_neq in Hc. rewrite Hc. by rewrite IH.
Qed.

Lemma Split_whole (s : string) (sep : ascii) :
  ~ occurs sep s -> Split s sep = [s].
Proof.
  induction s as [|c s IH]; intros Hno; [done |].
  apply not_occurs_cons in Hno as [Hc Hno]. simpl.
  apply Ascii.eqb_neq in Hc. rewrite Hc. by rewrite IH.
Qed.

(** A string in which the separator occurs has a first occurrence. *)
Lemma first_occurrence (s : string) (sep : ascii) :
  occurs sep s ->
  exists a b, s = a +:+ String sep b /\ ~ occurs sep a.
Proof.
  induction s as [|c s IH]; intros (a & b & Hs).
  - by destruct a.
  - destruct (Ascii.eqb c sep) eqn:E.
    + apply Ascii.eqb_eq in E as ->. exists EmptyString, s.
      split; [done |]. intros (x & y & Hx). by destruct x.
    + apply Ascii.eqb_neq in E.
      destruct a as [|c' a]; [injection Hs as -> _; done |].
      rewrite append_cons in Hs. injection Hs as <- ->.
      destruct IH as (a' & b' & -> & Hno); [by exists a, b |].
      exists (String c a'), b'. split; [done |].
      intros (x & y & Hx). destruct x as [|cx x].
      * injection Hx as -> _. done.
      * rewrite append_cons in Hx. injection Hx as _ ->.
        apply Hno. by exists x, y.
Qed.

Lemma parse_commit_separated (rev rest : string) (w : World) :
  ~ occurs "@" rev ->
  parse_commit (rev +:+ String "@" rest) w
  = match time_Parse gitLayout (hd EmptyString (Split rest "@")) with
    | Parsed tm => (Returned (rev, Format (UTC tm) RFC3339), w)
    | ParseFailed err =>
        (Aborted (Panicked ("Failed to parse time: "
                            +:+ hd EmptyString (Split rest "@") +:+ " : "
                            +:+ ParseError_Error err)), w)
    end.
Proof.
  intros Hno. unfold parse_commit. rewrite Split_cut by done.
  destruct (Split_nonempty rest "@") as (stamp & more & ->). simpl.
  unfold mbind, M_bind, index, mret, M_ret; simpl.
  by destruct (time_Parse gitLayout stamp).
Qed.

Lemma parse_commit_unseparated (line : string) (w : World) :
  ~ occurs "@" line ->
  parse_commit line w = (Aborted (Crashed (IndexOutOfRange 1 1)), w).
Proof. intros Hno. unfold parse_commit. by rewrite Split_whole. Qed.

Lemma Commit_runs env vcs w :
  commands_succeed env (calls w) 3 ->
  Commit env vcs w = parse_commit (commit_line env vcs w) (after_commit vcs w).
Proof.
  intros Hok. unfold Commit.
  erewrite bind_step; [| apply run_succeeds, Hok; lia].
  erewrite bind_step; [| apply run_succeeds, Hok; simpl; lia].
  erewrite bind_step; [| apply run_succeeds, Hok; simpl; lia].
  unfold commit_line. simpl. f_equal.
  apply world_eq; simpl; try done. by rewrite <- !app_assoc.
Qed.

(** A command of [Commit] that fails is fatal through the test context. *)
Lemma Commit_first_command_fails env vcs w e :
  (env_CombinedOutput env (calls w) (vcs_execPath vcs) (vcs_cwd vcs)
     ["add"; "-A"]).2 = Some e ->
  exists w',
    Commit env vcs w
    = (Aborted (Fatal (mkDiagnostic "Failed to run %q %q: %v"
                         [AString (vcs_execPath vcs); AStrings ["add"; "-A"];
                          AError e])), w').
Proof.
  intros He. unfold Commit. eexists.
  erewrite bind_abort; [reflexivity |]. by apply run_fails.
Qed.

(** C2, as the code has it: when the git commands succeed and the line read
    contains the separator, [Commit] either returns the revision (the text
    before the first separator) with the timestamp (the text after it, up
    to the next separator) in RFC 3339 UTC, or, the timestamp not parsing
    under the layout, stops with the panic [Failed to parse time:]
    followed by the field and the parse error: a panic of the program, not
    a [Fatalf] of the test context. *)
Theorem Commit_returns_or_panics (env : Env) (vcs : VcsHandle) (w : World) :
  commands_succeed env (calls w) 3 ->
  occurs "@" (commit_line env vcs w) ->
  exists rev rest,
    commit_line env vcs w = rev +:+ String "@" rest
    /\ ~ occurs "@" rev
    /\ let stamp := hd EmptyString (Split rest "@") in
       Commit env vcs w
       = match time_Parse gitLayout stamp with
         | Parsed tm =>
             (Returned (rev, Format (UTC tm) RFC3339), after_commit vcs w)
         | ParseFailed err =>
             (Aborted (Panicked ("Failed to parse time: " +:+ stamp +:+ " : "
                                 +:+ ParseError_Error err)),
              after_commit vcs w)
         end.
Proof.
  intros Hok Hsep.
  destruct (first_occurrence _ _ Hsep) as (rev & rest & Hline & Hno).
  exists rev, rest. split; [done |]. split; [done |].
  rewrite Commit_runs by done. rewrite Hline.
  by rewrite parse_commit_separated.
Qed.

Lemma example_commit_line :
  commit_line example_env example_vcs example_world
  = "0123abcd" +:+ String "@" "2016-03-04 16:05:06 +0100".
Proof. vm_compute. reflexivity. Qed.

Lemma Commit_returns_or_panics_witness :
  exists rev rest,
    commit_line example_env example_vcs example_world = rev +:+ String "@" rest
    /\ ~ occurs "@" rev
    /\ let stamp := hd EmptyString (Split rest "@") in
       Commit example_env example_vcs example_world
       = match time_Parse gitLayout stamp with
         | Parsed tm =>
             (Returned (rev, Format (UTC tm) RFC3339),
              after_commit example_vcs example_world)
         | ParseFailed err =>
             (Aborted (Panicked ("Failed to parse time: " +:+ stamp +:+ " : "
                                 +:+ ParseError_Error err)),
              after_commit example_vcs example_world)
         end.
Proof.
  apply (Commit_returns_or_panics example_env example_vcs example_world).
  - done.
  - rewrite example_commit_line. by exists "0123abcd", "2016-03-04 16:05:06 +0100".
Defined.

(** What the example commit returns. *)
Example Commit_example :
  (Commit example_env example_vcs example_world).1
  = Returned ("0123abcd", "2016-03-04T15:05:06Z").
Proof. vm_compute. reflexivity. Qed.

(** C2, as the claim has it, fails: a timestamp that does not parse ends
    [Commit] in a panic, which is neither a return nor a [Fatalf]. *)
Lemma Commit_garbled_timestamp_panics :
  exists msg w',
    Commit garbled_env example_vcs example_world = (Aborted (Panicked msg), w')
    /\ HasPrefix msg "Failed to parse time: yesterday : " = true.
Proof. eexists _, _. split; vm_compute; reflexivity. Qed.

(** The line without a separator: [ss[1]] is out of range. *)
Example Commit_unseparated_crashes :
  (Commit unseparated_env example_vcs example_world).1
  = Aborted (Crashed (IndexOutOfRange 1 1)).
Proof. vm_compute. reflexivity. Qed.


(** ** The commit timestamp *)

(** The day count is anchored at the Unix epoch and follows the Gregorian
    leap years. *)
Example days_from_civil_known :
  days_from_civil 1970 1 1 = 0
  /\ days_from_civil 2000 2 29 = 11016
  /\ days_from_civil 2000 3 1 = 11017
  /\ days_from_civil 1900 2 28 = -25509
  /\ days_from_civil 1900 3 1 = -25508
  /\ days_from_civil 1 1 1 = -719162
  /\ days_from_civil 9999 12 31 = 2932896
  /\ civil_from_days 16864 = (2016, 3, 4).
Proof. repeat split; reflexivity. Qed.

Lemma check_from_spec (check : Z -> bool) (fuel : nat) : forall z x,
  check_from check fuel z = true ->
  z <= x < z + Z.of_nat fuel -> check x = true.
Proof.
  induction fuel as [|fuel IH]; intros z x H Hx; [lia |].
  simpl in H. apply andb_true_iff in H as [Hz H].
  destruct (Z.eq_dec x z) as [->|Hne]; [done |].
  apply (IH (z + 1)); [done | lia].
Qed.

Lemma year_check_all : check_from year_check (Z.to_nat 400) 0 = true.
Proof. vm_compute. reflexivity. Qed.

Lemma doy_check_all : check_from doy_check (Z.to_nat 366) 0 = true.
Proof. vm_compute. reflexivity. Qed.

Lemma era_h_step (d : Z) : 0 <= d < 146096 -> era_h d <= era_h (d + 1).
Proof. intros H. unfold era_h. Z.div_mod_to_equations. lia. Qed.

Lemma era_h_mono (a b : Z) : 0 <= a <= b -> b <= 146096 -> era_h a <= era_h b.
Proof.
  intros [Ha Hab] Hb. revert Hb. pattern b.
  apply (Zlt_lower_bound_ind _ a); [|done].
  intros x IH Hx Hb. destruct (Z.eq_dec x a) as [->|Hne]; [lia |].
  pose proof (IH (x - 1) ltac:(lia) ltac:(lia)).
  pose proof (era_h_step (x - 1) ltac:(lia)).
  replace (x - 1 + 1) with x in * by lia. lia.
Qed.

Lemma year_check_ok (y : Z) :
  0 <= y < 400 ->
  0 <= era_start y /\ era_last y <= 146096
  /\ 365 * y <= era_h (era_start y)
  /\ era_h (era_last y) < 365 * (y + 1)
  /\ era_last y - era_start y = (if isLeap (y + 1) then 365 else 364).
Proof.
  intros H.
  pose proof (check_from_spec _ _ 0 y year_check_all) as Hc.
  rewrite Z2Nat.id in Hc by lia. specialize (Hc ltac:(lia)).
  unfold year_check in Hc. repeat (apply andb_true_iff in Hc as [Hc ?]).
  repeat split; lia.
Qed.

Lemma doy_check_ok (doy : Z) : 0 <= doy <= 365 -> doy_check doy = true.
Proof.
  intros H. apply (check_from_spec _ _ 0 doy doy_check_all).
  rewrite Z2Nat.id; lia.
Qed.

(** The year of the era of a day: the year whose days include it. *)
Lemma year_of_era (doe : Z) :
  0 <= doe < 146097 ->
  0 <= era_h doe / 365 < 400
  /\ era_start (era_h doe / 365) <= doe <= era_last (era_h doe / 365).
Proof.
  intros Hd.
  pose proof (era_h_mono 0 doe ltac:(lia) ltac:(lia)) as H0.
  pose proof (era_h_mono doe 146096 ltac:(lia) ltac:(lia)) as H1.
  change (era_h 0) with 0 in H0. change (era_h 146096) with 145999 in H1.
  pose proof (Z.div_mod (era_h doe) 365 ltac:(lia)) as Hdiv.
  pose proof (Z.mod_pos_bound (era_h doe) 365 ltac:(lia)) as Hmod.
  remember (era_h doe / 365) as y eqn:Ey. clear Ey.
  assert (0 <= y < 400) as Hy by lia.
  split; [done |].
  destruct (year_check_ok y Hy) as (Hs & Hl & Hlo & Hhi & _). split.
  - destruct (Z.eq_dec y 0) as [->|Hy0];
      [change (era_start 0) with 0; lia |].
    destruct (Z_lt_le_dec doe (era_start y)) as [Hlt|]; [|done]. exfalso.
    destruct (year_check_ok (y - 1) ltac:(lia)) as (Hs' & Hl' & _ & Hhi' & _).
    assert (era_last (y - 1) = era_start y - 1) as Hlast.
    { unfold era_last. destruct (y - 1 =? 399) eqn:E; [lia |].
      by replace (y - 1 + 1) with y by lia. }
    pose proof (era_h_mono doe (era_last (y - 1)) ltac:(lia) ltac:(lia)).
    lia.
  - destruct (Z_le_gt_dec doe (era_last y)) as [|Hgt]; [done |]. exfalso.
    assert (y <> 399) as Hy399
      by (intros ->; change (era_last 399) with 146096 in Hgt; lia).
    assert (era_last y = era_start (y + 1) - 1) as Hlast.
    { unfold era_last. destruct (y =? 399) eqn:E; [lia | done]. }
    destruct (year_check_ok (y + 1) ltac:(lia)) as (Hs' & _ & Hlo' & _ & _).
    pose proof (era_h_mono (era_start (y + 1)) doe ltac:(lia) ltac:(lia)).
    lia.
Qed.

Lemma daysIn_not_February (m y y' : Z) : m <> 2 -> daysIn m y = daysIn m y'.
Proof.
  intros Hm. unfold daysIn. destruct (m =? 2) eqn:E; [lia | done].
Qed.

Lemma daysIn_February (y : Z) : daysIn 2 y = if isLeap y then 29 else 28.
Proof. unfold daysIn. simpl. by destruct (isLeap y). Qed.

(** The date of a day of the era is a date of the calendar, and the day of
    that date is the day. *)
Lemma era_civil_spec (doe : Z) :
  0 <= doe < 146097 ->
  let '(yoe, m, d) := era_civil doe in
  0 <= yoe < 400 /\ 1 <= m <= 12 /\ 1 <= d <= daysIn m (yoe + carry m)
  /\ era_day yoe m d = doe.
Proof.
  intros Hd. destruct (year_of_era doe Hd) as (Hy & Hlo & Hhi).
  unfold era_civil. remember (era_h doe / 365) as y eqn:Ey. clear Ey.
  destruct (year_check_ok y Hy) as (_ & _ & _ & _ & Hlen).
  assert (0 <= doe - era_start y <= 365) as Hdoy
    by (destruct (isLeap (y + 1)); lia).
  pose proof (doy_check_ok _ Hdoy) as Hc. unfold doy_check in Hc.
  destruct (month_day (doe - era_start y)) as [m d].
  repeat (apply andb_true_iff in Hc as [Hc ?]).
  split; [done |]. split; [lia |]. split.
  - split; [lia |].
    destruct (Z.eq_dec m 2) as [->|Hm].
    + unfold carry. simpl. rewrite daysIn_February.
      destruct (doe - era_start y =? 365) eqn:E.
      * destruct (isLeap (y + 1)); simpl in *; lia.
      * destruct (isLeap (y + 1)); simpl in *; lia.
    + rewrite (daysIn_not_February m _ 1 Hm).
      destruct (m =? 2) eqn:E; lia.
  - unfold era_day. unfold era_start in *. lia.
Qed.

Lemma isLeap_era (y e : Z) : isLeap (y + e * 400) = isLeap y.
Proof.
  unfold isLeap.
  replace ((y + e * 400) mod 4) with (y mod 4)
    by (replace (e * 400) with (e * 100 * 4) by lia; by rewrite Z.mod_add).
  replace ((y + e * 400) mod 100) with (y mod 100)
    by (replace (e * 400) with (e * 4 * 100) by lia; by rewrite Z.mod_add).
  by rewrite Z.mod_add.
Qed.

Lemma daysIn_era (m y e : Z) : daysIn m (y + e * 400) = daysIn m y.
Proof. unfold daysIn. by rewrite isLeap_era. Qed.

Lemma civil_from_days_era (z : Z) :
  civil_from_days z
  = let era := (z + 719468) / 146097 in
    let '(yoe, m, d) := era_civil ((z + 719468) mod 146097) in
    (yoe + era * 400 + carry m, m, d).
Proof. reflexivity. Qed.

Lemma days_from_civil_era (yoe era m d : Z) :
  0 <= yoe < 400 ->
  days_from_civil (yoe + era * 400 + carry m) m d
  = era * 146097 + era_day yoe m d - 719468.
Proof.
  intros Hy. unfold days_from_civil, carry, era_day.
  replace (if m <=? 2 then yoe + era * 400 + (if m <=? 2 then 1 else 0) - 1
           else yoe + era * 400 + (if m <=? 2 then 1 else 0))
    with (yoe + era * 400) by (destruct (m <=? 2); lia).
  rewrite Z.div_add, Z.mod_add by lia.
  rewrite Z.div_small, Z.mod_small by lia. lia.
Qed.

(** The calendar day of a day number is a day of the calendar, and it is
    the day with that number. *)
Lemma civil_from_days_spec (z : Z) :
  let '(y, m, d) := civil_from_days z in
  1 <= m <= 12 /\ 1 <= d <= daysIn m y /\ days_from_civil y m d = z.
Proof.
  rewrite civil_from_days_era.
  pose proof (Z.mod_pos_bound (z + 719468) 146097 ltac:(lia)) as Hdoe.
  pose proof (era_civil_spec _ Hdoe) as Hc.
  pose proof (Z.div_mod (z + 719468) 146097 ltac:(lia)) as Hz.
  cbv zeta.
  destruct (era_civil ((z + 719468) mod 146097)) as [[yoe m] d].
  destruct Hc as (Hyoe & Hm & Hd & Hday).
  replace (yoe + (z + 719468) / 146097 * 400 + carry m)
    with (yoe + carry m + (z + 719468) / 146097 * 400) at 1 by lia.
  rewrite daysIn_era, days_from_civil_era by lia.
  lia.
Qed.

Lemma digit_char_shows (k : Z) : 0 <= k <= 9 -> shows (digit_char k) k.
Proof.
  intros H.
  assert (k = 0 \/ k = 1 \/ k = 2 \/ k = 3 \/ k = 4 \/ k = 5 \/ k = 6
          \/ k = 7 \/ k = 8 \/ k = 9) as Hk by lia.
  decompose [or] Hk; subst k; by split.
Qed.

Lemma shows_range (c : ascii) (v : Z) : shows c v -> 0 <= v <= 9.
Proof.
  unfold shows, is_digit_char, digit_val. intros [Hd <-].
  apply andb_true_iff in Hd as [H1 H2].
  apply Nat.leb_le in H1, H2. lia.
Qed.

Lemma digit_not_sign (c : ascii) :
  is_digit_char c = true -> Ascii.eqb c "-" = false /\ Ascii.eqb c "+" = false.
Proof. destruct c as [[] [] [] [] [] [] [] []]; by vm_compute. Qed.

Lemma appendInt_2_all :
  check_from (fun n => String.eqb (appendInt n 2) (pad2 n)) (Z.to_nat 100) 0 = true.
Proof. vm_compute. reflexivity. Qed.

Lemma appendInt_2 (n : Z) : 0 <= n <= 99 -> appendInt n 2 = pad2 n.
Proof.
  intros H. apply String.eqb_eq.
  apply (check_from_spec _ _ 0 n appendInt_2_all). rewrite Z2Nat.id; lia.
Qed.

Lemma utoa_S (fuel : nat) (u : Z) (acc : string) :
  utoa (S fuel) u acc
  = if u <? 10 then String (digit_char (u mod 10)) acc
    else utoa fuel (u / 10) (String (digit_char (u mod 10)) acc).
Proof. reflexivity. Qed.

Lemma appendInt_4 (n : Z) : 0 <= n <= 9999 -> appendInt n 4 = pad4 n.
Proof.
  intros H. unfold appendInt, pad4. rewrite Z.abs_eq by lia.
  destruct (Z.ltb_spec n 0) as [|_]; [lia |].
  assert (0 <= n / 10) by (apply Z.div_pos; lia).
  assert (0 <= n / 10 / 10) by (apply Z.div_pos; lia).
  assert (0 <= n / 10 / 10 / 10) by (apply Z.div_pos; lia).
  rewrite utoa_S. destruct (Z.ltb_spec n 10).
  { rewrite (Z.div_small n 10) by lia. reflexivity. }
  rewrite utoa_S. destruct (Z.ltb_spec (n / 10) 10).
  { rewrite (Z.div_small (n / 10) 10) by lia.
    rewrite (Z.mod_small (n / 10) 10) by lia. reflexivity. }
  rewrite utoa_S. destruct (Z.ltb_spec (n / 10 / 10) 10).
  { rewrite (Z.div_small (n / 10 / 10) 10) by lia.
    rewrite (Z.mod_small (n / 10 / 10) 10) by lia. reflexivity. }
  rewrite utoa_S. destruct (Z.ltb_spec (n / 10 / 10 / 10) 10).
  { rewrite (Z.mod_small (n / 10 / 10 / 10) 10) by lia. reflexivity. }
  exfalso. Z.div_mod_to_equations. lia.
Qed.

Lemma getnum_shown (a b : ascii) (va vb : Z) (rest : string) (fixed : bool) :
  shows a va -> shows b vb ->
  getnum (String a (String b rest)) fixed = Some (va * 10 + vb, rest).
Proof.
  intros [Ea <-] [Eb <-]. unfold getnum, isDigit, byte_at. simpl.
  by rewrite Ea, Eb.
Qed.

Lemma chunk_year (f : Fields) (y1 y2 y3 y4 : ascii) (v1 v2 v3 v4 : Z)
    (rest : string) :
  shows y1 v1 -> shows y2 v2 -> shows y3 v3 -> shows y4 v4 ->
  parse_chunk stdLongYear f (String y1 (String y2 (String y3 (String y4 rest))))
  = ChunkOk (set_year f (((v1 * 10 + v2) * 10 + v3) * 10 + v4)) rest.
Proof.
  intros [E1 <-] [E2 <-] [E3 <-] [E4 <-].
  destruct (digit_not_sign y1 E1) as [Hminus Hplus].
  unfold parse_chunk, isDigit, atoi. simpl.
  rewrite E1, Hminus, Hplus. simpl. rewrite E1, E2, E3, E4. simpl.
  do 2 f_equal; lia.
Qed.

Lemma chunk_month (f : Fields) (a b : ascii) (va vb : Z) (rest : string) :
  shows a va -> shows b vb -> 1 <= va * 10 + vb <= 12 ->
  parse_chunk stdZeroMonth f (String a (String b rest))
  = ChunkOk (set_month f (va * 10 + vb)) rest.
Proof.
  intros Ha Hb Hr. unfold parse_chunk. rewrite (getnum_shown _ _ _ _ _ _ Ha Hb).
  destruct (_ <=? 0) eqn:E1; [lia |]. destruct (12 <? _) eqn:E2; [lia | done].
Qed.

Lemma chunk_day (f : Fields) (a b : ascii) (va vb : Z) (rest : string) :
  shows a va -> shows b vb ->
  parse_chunk stdZeroDay f (String a (String b rest))
  = ChunkOk (set_day f (va * 10 + vb)) rest.
Proof.
  intros Ha Hb. unfold parse_chunk. by rewrite (getnum_shown _ _ _ _ _ _ Ha Hb).
Qed.

Lemma chunk_hour (f : Fields) (a b : ascii) (va vb : Z) (rest : string) :
  shows a va -> shows b vb -> va * 10 + vb < 24 ->
  parse_chunk stdHour f (String a (String b rest))
  = ChunkOk (set_hour f (va * 10 + vb)) rest.
Proof.
  intros Ha Hb Hr. unfold parse_chunk. rewrite (getnum_shown _ _ _ _ _ _ Ha Hb).
  apply shows_range in Ha, Hb.
  destruct (_ <? 0) eqn:E1; [lia |]. destruct (24 <=? _) eqn:E2; [lia | done].
Qed.

Lemma chunk_minute (f : Fields) (a b : ascii) (va vb : Z) (rest : string) :
  shows a va -> shows b vb -> va * 10 + vb < 60 ->
  parse_chunk stdZeroMinute f (String a (String b rest))
  = ChunkOk (set_min f (va * 10 + vb)) rest.
Proof.
  intros Ha Hb Hr. unfold parse_chunk. rewrite (getnum_shown _ _ _ _ _ _ Ha Hb).
  apply shows_range in Ha, Hb.
  destruct (_ <? 0) eqn:E1; [lia |]. destruct (60 <=? _) eqn:E2; [lia | done].
Qed.

Lemma chunk_second_Z (f : Fields) (a b : ascii) (va vb : Z) :
  shows a va -> shows b vb -> va * 10 + vb < 60 ->
  parse_chunk stdZeroSecond f (String a (String b "Z"))
  = ChunkOk (set_sec f (va * 10 + vb) (f_nsec f)) "Z".
Proof.
  intros Ha Hb Hr. unfold parse_chunk. rewrite (getnum_shown _ _ _ _ _ _ Ha Hb).
  apply shows_range in Ha, Hb.
  destruct (_ <? 0) eqn:E1; [lia |]. destruct (60 <=? _) eqn:E2; [lia | done].
Qed.

Lemma parse_RFC3339_shown
    (y1 y2 y3 y4 m1 m2 d1 d2 h1 h2 i1 i2 s1 s2 : ascii)
    (vy1 vy2 vy3 vy4 vm1 vm2 vd1 vd2 vh1 vh2 vi1 vi2 vs1 vs2 : Z) :
  shows y1 vy1 -> shows y2 vy2 -> shows y3 vy3 -> shows y4 vy4 ->
  shows m1 vm1 -> shows m2 vm2 -> shows d1 vd1 -> shows d2 vd2 ->
  shows h1 vh1 -> shows h2 vh2 -> shows i1 vi1 -> shows i2 vi2 ->
  shows s1 vs1 -> shows s2 vs2 ->
  let Y := ((vy1 * 10 + vy2) * 10 + vy3) * 10 + vy4 in
  let Mo := vm1 * 10 + vm2 in
  let D := vd1 * 10 + vd2 in
  let H := vh1 * 10 + vh2 in
  let Mi := vi1 * 10 + vi2 in
  let S := vs1 * 10 + vs2 in
  1 <= Mo <= 12 -> 1 <= D <= daysIn Mo Y -> H < 24 -> Mi < 60 -> S < 60 ->
  time_Parse RFC3339
    (String y1 (String y2 (String y3 (String y4 (String "-"
    (String m1 (String m2 (String "-"
    (String d1 (String d2 (String "T"
    (String h1 (String h2 (String ":"
    (String i1 (String i2 (String ":"
    (String s1 (String s2 "Z")))))))))))))))))))
  = Parsed (Date Y Mo D H Mi S 0).
Proof.
  intros Hy1 Hy2 Hy3 Hy4 Hm1 Hm2 Hd1 Hd2 Hh1 Hh2 Hi1 Hi2 Hs1 Hs2.
  intros Y Mo D H Mi S HMo HD HH HMi HS.
  unfold time_Parse. simpl layout_chunks. simpl layout_string.
  cbn [parse_loop].
  change (skip ?v EmptyString) with (v, true). cbv iota beta.
  rewrite (chunk_year _ _ _ _ _ _ _ _ _ _ Hy1 Hy2 Hy3 Hy4).
  change (skip (String "-" ?v) "-") with (v, true). cbv iota beta.
  rewrite (chunk_month _ _ _ _ _ _ Hm1 Hm2 HMo).
  change (skip (String "-" ?v) "-") with (v, true). cbv iota beta.
  rewrite (chunk_day _ _ _ _ _ _ Hd1 Hd2).
  change (skip (String "T" ?v) "T") with (v, true). cbv iota beta.
  rewrite (chunk_hour _ _ _ _ _ _ Hh1 Hh2 HH).
  change (skip (String ":" ?v) ":") with (v, true). cbv iota beta.
  rewrite (chunk_minute _ _ _ _ _ _ Hi1 Hi2 HMi).
  change (skip (String ":" ?v) ":") with (v, true). cbv iota beta.
  rewrite (chunk_second_Z _ _ _ _ _ Hs1 Hs2 HS).
  change (skip ?v EmptyString) with (v, true). cbv iota beta.
  change (parse_chunk stdISO8601ColonTZ ?f "Z") with (ChunkOk (set_z f) EmptyString).
  cbv iota beta. unfold parse_finish. simpl.
  fold Y Mo D H Mi S.
  destruct (D <? 1) eqn:E1; [lia |]. destruct (daysIn Mo Y <? D) eqn:E2; [lia |].
  reflexivity.
Qed.

Lemma civil_fields (t : Time) :
  1 <= Month t <= 12 /\ 1 <= Day t <= daysIn (Month t) (Year t)
  /\ days_from_civil (Year t) (Month t) (Day t)
     = (unixSec t + zoneOffset t) / 86400.
Proof.
  unfold Month, Day, Year, civil.
  pose proof (civil_from_days_spec ((unixSec t + zoneOffset t) / 86400)) as H.
  by destruct (civil_from_days _) as [[y m] d].
Qed.

Lemma daysIn_le_31 (m y : Z) : daysIn m y <= 31.
Proof.
  unfold daysIn.
  destruct ((m =? 2) && isLeap y); [lia |]. destruct (m =? 2); [lia |].
  destruct ((m =? 4) || (m =? 6) || (m =? 9) || (m =? 11)); lia.
Qed.

Lemma clock_fields (t : Time) :
  0 <= Hour t < 24 /\ 0 <= Minute t < 60 /\ 0 <= Second t < 60
  /\ Hour t * 3600 + Minute t * 60 + Second t = secondOfDay t.
Proof.
  unfold Hour, Minute, Second.
  assert (0 <= secondOfDay t < 86400) as Hs
    by (unfold secondOfDay; apply Z.mod_pos_bound; lia).
  revert Hs. generalize (secondOfDay t). intros s Hs.
  Z.div_mod_to_equations. lia.
Qed.

Lemma pad2_shows (n : Z) :
  0 <= n <= 99 ->
  shows (digit_char (n / 10)) (n / 10)
  /\ shows (digit_char (n mod 10)) (n mod 10)
  /\ n / 10 * 10 + n mod 10 = n.
Proof.
  intros H. split; [|split].
  - apply digit_char_shows. Z.div_mod_to_equations. lia.
  - apply digit_char_shows. Z.div_mod_to_equations. lia.
  - Z.div_mod_to_equations. lia.
Qed.

Lemma pad4_shows (n : Z) :
  0 <= n <= 9999 ->
  shows (digit_char (n / 10 / 10 / 10)) (n / 10 / 10 / 10)
  /\ shows (digit_char (n / 10 / 10 mod 10)) (n / 10 / 10 mod 10)
  /\ shows (digit_char (n / 10 mod 10)) (n / 10 mod 10)
  /\ shows (digit_char (n mod 10)) (n mod 10)
  /\ ((n / 10 / 10 / 10 * 10 + n / 10 / 10 mod 10) * 10 + n / 10 mod 10) * 10
     + n mod 10 = n.
Proof.
  intros H. repeat split; try apply digit_char_shows;
    Z.div_mod_to_equations; lia.
Qed.

(** A time in UTC within the four-digit years, written in RFC 3339: the
    digits of its date and clock and the letter [Z]. *)
Lemma Format_RFC3339_UTC (t : Time) :
  zoneOffset t = 0 -> 0 <= Year t <= 9999 ->
  Format t RFC3339
  = pad4 (Year t) +:+ "-" +:+ pad2 (Month t) +:+ "-" +:+ pad2 (Day t) +:+ "T"
    +:+ pad2 (Hour t) +:+ ":" +:+ pad2 (Minute t) +:+ ":" +:+ pad2 (Second t)
    +:+ "Z".
Proof.
  intros Hz Hy.
  destruct (civil_fields t) as (Hm & Hd & _).
  destruct (clock_fields t) as (Hh & Hi & Hs & _).
  pose proof (daysIn_le_31 (Month t) (Year t)).
  unfold Format. simpl layout_chunks. cbn [format_loop format_chunk].
  rewrite Hz. simpl (0 =? 0).  cbv iota.
  rewrite appendInt_4 by lia. rewrite !appendInt_2 by lia.
  reflexivity.
Qed.

(** Reading back what [Format] wrote gives the same second. *)
Lemma RFC3339_round_trip (t : Time) :
  zoneOffset t = 0 -> 0 <= Year t <= 9999 ->
  time_Parse RFC3339 (Format t RFC3339)
  = Parsed {| unixSec := unixSec t; nsec := 0; zoneOffset := 0 |}.
Proof.
  intros Hz Hy. rewrite Format_RFC3339_UTC by done.
  destruct (civil_fields t) as (Hm & Hd & Hdays).
  destruct (clock_fields t) as (Hh & Hi & Hs & Hclock).
  pose proof (daysIn_le_31 (Month t) (Year t)).
  destruct (pad4_shows (Year t) Hy) as (Y1 & Y2 & Y3 & Y4 & EY).
  destruct (pad2_shows (Month t)) as (M1 & M2 & EM); [lia |].
  destruct (pad2_shows (Day t)) as (D1 & D2 & ED); [lia |].
  destruct (pad2_shows (Hour t)) as (H1 & H2 & EH); [lia |].
  destruct (pad2_shows (Minute t)) as (I1 & I2 & EI); [lia |].
  destruct (pad2_shows (Second t)) as (S1 & S2 & ES); [lia |].
  unfold pad4, pad2.
  repeat first [rewrite append_cons
               | progress change (EmptyString +:+ ?s) with s].
  rewrite (parse_RFC3339_shown _ _ _ _ _ _ _ _ _ _ _ _ _ _
             _ _ _ _ _ _ _ _ _ _ _ _ _ _
             Y1 Y2 Y3 Y4 M1 M2 D1 D2 H1 H2 I1 I2 S1 S2);
    rewrite ?EY, ?EM, ?ED, ?EH, ?EI, ?ES; try lia.
  unfold Date. f_equal. rewrite Hdays.
  unfold secondOfDay in Hclock. rewrite Hz, Z.add_0_r in *.
  pose proof (Z.div_mod (unixSec t) 86400 ltac:(lia)). f_equal. lia.
Qed.

Lemma digit_not_space (c : ascii) :
  is_digit_char c = true -> Ascii.eqb c " " = false.
Proof. destruct c as [[] [] [] [] [] [] [] []]; by vm_compute. Qed.

Lemma skip_space_digit (c : ascii) (v : Z) (rest : string) :
  shows c v -> skip (String " " (String c rest)) " " = (String c rest, true).
Proof.
  intros [Hc _]. unfold skip. simpl. by rewrite (digit_not_space c Hc).
Qed.

Lemma chunk_second_space (f : Fields) (a b : ascii) (va vb : Z) (rest : string) :
  shows a va -> shows b vb -> va * 10 + vb < 60 ->
  parse_chunk stdZeroSecond f (String a (String b (String " " rest)))
  = ChunkOk (set_sec f (va * 10 + vb) (f_nsec f)) (String " " rest).
Proof.
  intros Ha Hb Hr. unfold parse_chunk. rewrite (getnum_shown _ _ _ _ _ _ Ha Hb).
  apply shows_range in Ha, Hb.
  destruct (_ <? 0) eqn:E1; [lia |]. destruct (60 <=? _) eqn:E2; [lia |].
  simpl. by rewrite andb_false_r.
Qed.

Lemma chunk_numTZ (f : Fields) (east : bool) (a b c d : ascii)
    (va vb vc vd : Z) :
  shows a va -> shows b vb -> shows c vc -> shows d vd ->
  va * 10 + vb <= 24 -> vc * 10 + vd <= 60 ->
  parse_chunk stdNumTZ f
    (String (if east then "+" else "-")%char
       (String a (String b (String c (String d EmptyString)))))
  = ChunkOk
      (set_zoneOffset f
         ((if east then 1 else -1)
          * (((va * 10 + vb) * 60 + (vc * 10 + vd)) * 60)))
      EmptyString.
Proof.
  intros Ha Hb Hc Hd Hh Hm. unfold parse_chunk, parse_offset. simpl.
  rewrite (getnum_shown _ _ _ _ _ _ Ha Hb), (getnum_shown _ _ _ _ _ _ Hc Hd).
  destruct (60 <? _) eqn:E1; [lia |]. destruct (24 <? _) eqn:E2; [lia |].
  destruct east; simpl; do 2 f_equal; lia.
Qed.

Lemma parse_git_shown
    (y1 y2 y3 y4 m1 m2 d1 d2 h1 h2 i1 i2 s1 s2 z1 z2 z3 z4 : ascii)
    (vy1 vy2 vy3 vy4 vm1 vm2 vd1 vd2 vh1 vh2 vi1 vi2 vs1 vs2 vz1 vz2 vz3 vz4 : Z)
    (east : bool) :
  shows y1 vy1 -> shows y2 vy2 -> shows y3 vy3 -> shows y4 vy4 ->
  shows m1 vm1 -> shows m2 vm2 -> shows d1 vd1 -> shows d2 vd2 ->
  shows h1 vh1 -> shows h2 vh2 -> shows i1 vi1 -> shows i2 vi2 ->
  shows s1 vs1 -> shows s2 vs2 ->
  shows z1 vz1 -> shows z2 vz2 -> shows z3 vz3 -> shows z4 vz4 ->
  let Y := ((vy1 * 10 + vy2) * 10 + vy3) * 10 + vy4 in
  let Mo := vm1 * 10 + vm2 in
  let D := vd1 * 10 + vd2 in
  let H := vh1 * 10 + vh2 in
  let Mi := vi1 * 10 + vi2 in
  let S := vs1 * 10 + vs2 in
  let off := (if east then 1 else -1)
             * (((vz1 * 10 + vz2) * 60 + (vz3 * 10 + vz4)) * 60) in
  1 <= Mo <= 12 -> 1 <= D <= daysIn Mo Y -> H < 24 -> Mi < 60 -> S < 60 ->
  vz1 * 10 + vz2 <= 24 -> vz3 * 10 + vz4 <= 60 ->
  time_Parse gitLayout
    (String y1 (String y2 (String y3 (String y4 (String "-"
    (String m1 (String m2 (String "-"
    (String d1 (String d2 (String " "
    (String h1 (String h2 (String ":"
    (String i1 (String i2 (String ":"
    (String s1 (String s2 (String " "
    (String (if east then "+" else "-")%char
    (String z1 (String z2 (String z3 (String z4 EmptyString)))))))))))))))))))))))))
  = Parsed {| unixSec := unixSec (Date Y Mo D H Mi S 0) - off;
              nsec := 0; zoneOffset := off |}.
Proof.
  intros Hy1 Hy2 Hy3 Hy4 Hm1 Hm2 Hd1 Hd2 Hh1 Hh2 Hi1 Hi2 Hs1 Hs2.
  intros Hz1 Hz2 Hz3 Hz4 Y Mo D H Mi S off HMo HD HH HMi HS HZh HZm.
  pose proof (shows_range _ _ Hz1). pose proof (shows_range _ _ Hz2).
  pose proof (shows_range _ _ Hz3). pose proof (shows_range _ _ Hz4).
  unfold time_Parse. simpl layout_chunks. simpl layout_string.
  cbn [parse_loop].
  change (skip ?v EmptyString) with (v, true). cbv iota beta.
  rewrite (chunk_year _ _ _ _ _ _ _ _ _ _ Hy1 Hy2 Hy3 Hy4).
  change (skip (String "-" ?v) "-") with (v, true). cbv iota beta.
  rewrite (chunk_month _ _ _ _ _ _ Hm1 Hm2 HMo).
  change (skip (String "-" ?v) "-") with (v, true). cbv iota beta.
  rewrite (chunk_day _ _ _ _ _ _ Hd1 Hd2).
  rewrite (skip_space_digit _ _ _ Hh1). cbv iota beta.
  rewrite (chunk_hour _ _ _ _ _ _ Hh1 Hh2 HH).
  change (skip (String ":" ?v) ":") with (v, true). cbv iota beta.
  rewrite (chunk_minute _ _ _ _ _ _ Hi1 Hi2 HMi).
  change (skip (String ":" ?v) ":") with (v, true). cbv iota beta.
  rewrite (chunk_second_space _ _ _ _ _ _ Hs1 Hs2 HS).
  replace (skip (String " " (String (if east then "+" else "-")%char
             (String z1 (String z2 (String z3 (String z4 EmptyString)))))) " ")
    with (String (if east then "+" else "-")%char
            (String z1 (String z2 (String z3 (String z4 EmptyString)))), true)
    by (by destruct east).
  cbv iota beta.
  rewrite (chunk_numTZ _ east _ _ _ _ _ _ _ _ Hz1 Hz2 Hz3 Hz4 HZh HZm).
  cbv iota beta. unfold parse_finish. simpl.
  fold Y Mo D H Mi S. fold off.
  destruct (D <? 1) eqn:E1; [lia |]. destruct (daysIn Mo Y <? D) eqn:E2; [lia |].
  simpl.
  destruct (off =? -1) eqn:E3; [|done].
  exfalso. apply Z.eqb_eq in E3. unfold off in E3. destruct east; lia.
Qed.

(** A string of the pattern is parsed, and to the instant it denotes. *)
Lemma parse_stamp (st : Stamp) :
  stamp_ok st ->
  time_Parse gitLayout (render_stamp st)
  = Parsed {| unixSec := stamp_instant st; nsec := 0;
              zoneOffset := stamp_offset st |}.
Proof.
  intros (Hy & Hm & Hd & Hh & Hi & Hs & Hzh & Hzm).
  pose proof (daysIn_le_31 (st_month st) (st_year st)).
  destruct (pad4_shows (st_year st) Hy) as (Y1 & Y2 & Y3 & Y4 & EY).
  destruct (pad2_shows (st_month st)) as (M1 & M2 & EM); [lia |].
  destruct (pad2_shows (st_day st)) as (D1 & D2 & ED); [lia |].
  destruct (pad2_shows (st_hour st)) as (H1 & H2 & EH); [lia |].
  destruct (pad2_shows (st_min st)) as (I1 & I2 & EI); [lia |].
  destruct (pad2_shows (st_sec st)) as (S1 & S2 & ES); [lia |].
  destruct (pad2_shows (st_zh st)) as (ZH1 & ZH2 & EZH); [lia |].
  destruct (pad2_shows (st_zm st)) as (ZM1 & ZM2 & EZM); [lia |].
  unfold render_stamp, pad4, pad2.
  replace (if st_east st then "+" else "-")
    with (String (if st_east st then "+" else "-")%char EmptyString)
    by (by destruct (st_east st)).
  repeat first [rewrite append_cons
               | progress change (EmptyString +:+ ?s) with s].
  rewrite (parse_git_shown _ _ _ _ _ _ _ _ _ _ _ _ _ _ _ _ _ _
             _ _ _ _ _ _ _ _ _ _ _ _ _ _ _ _ _ _ (st_east st)
             Y1 Y2 Y3 Y4 M1 M2 D1 D2 H1 H2 I1 I2 S1 S2 ZH1 ZH2 ZM1 ZM2);
    rewrite ?EY, ?EM, ?ED, ?EH, ?EI, ?ES, ?EZH, ?EZM; try lia.
  reflexivity.
Qed.

(** C6, as the code has it: a string of the pattern
    [YYYY-MM-DD HH:MM:SS ±HHMM] is parsed to the instant it denotes, and
    if that instant falls, in UTC, in a year from 0000 to 9999, then its
    RFC 3339 UTC form reads back, under the RFC 3339 layout, as the same
    instant to the second, in UTC. *)
Theorem commit_time_round_trip (st : Stamp) :
  stamp_ok st ->
  let tm := {| unixSec := stamp_instant st; nsec := 0;
               zoneOffset := stamp_offset st |} in
  0 <= Year (UTC tm) <= 9999 ->
  time_Parse gitLayout (render_stamp st) = Parsed tm
  /\ unixSec (UTC tm) = stamp_instant st
  /\ time_Parse RFC3339 (Format (UTC tm) RFC3339)
     = Parsed {| unixSec := stamp_instant st; nsec := 0; zoneOffset := 0 |}.
Proof.
  intros Hok tm Hy. split; [by apply parse_stamp |]. split; [done |].
  by apply (RFC3339_round_trip (UTC tm)).
Qed.

Lemma example_stamp_ok : stamp_ok example_stamp_fields.
Proof. unfold stamp_ok; simpl. repeat split; try lia; by vm_compute. Qed.

Lemma commit_time_round_trip_witness :
  time_Parse gitLayout (render_stamp example_stamp_fields)
  = Parsed {| unixSec := stamp_instant example_stamp_fields; nsec := 0;
              zoneOffset := stamp_offset example_stamp_fields |}
  /\ unixSec (UTC {| unixSec := stamp_instant example_stamp_fields; nsec := 0;
                     zoneOffset := stamp_offset example_stamp_fields |})
     = stamp_instant example_stamp_fields
  /\ time_Parse RFC3339
       (Format (UTC {| unixSec := stamp_instant example_stamp_fields;
                       nsec := 0;
                       zoneOffset := stamp_offset example_stamp_fields |})
          RFC3339)
     = Parsed {| unixSec := stamp_instant example_stamp_fields; nsec := 0;
                 zoneOffset := 0 |}.
Proof.
  apply (commit_time_round_trip example_stamp_fields example_stamp_ok).
  vm_compute. split; discriminate.
Defined.

(** The example, in figures. *)
Example example_stamp_rendered :
  render_stamp example_stamp_fields = "2016-03-04 16:05:06 +0100"
  /\ stamp_instant example_stamp_fields = 1457103906
  /\ Format (UTC {| unixSec := 1457103906; nsec := 0; zoneOffset := 3600 |})
       RFC3339 = "2016-03-04T15:05:06Z".
Proof. repeat split; vm_compute; reflexivity. Qed.

(** Whatever string [Commit] parses (a fraction of a second or a
    one-digit hour included): within the four-digit years its RFC 3339 UTC
    form reads back as the same instant to the second. *)
Lemma parsed_time_round_trip (stamp : string) (tm : Time) :
  time_Parse gitLayout stamp = Parsed tm ->
  0 <= Year (UTC tm) <= 9999 ->
  time_Parse RFC3339 (Format (UTC tm) RFC3339)
  = Parsed {| unixSec := unixSec tm; nsec := 0; zoneOffset := 0 |}.
Proof. intros _ Hy. by apply (RFC3339_round_trip (UTC tm)). Qed.

(** C6, as the claim has it, fails at the edge of the four-digit years:
    the first hour of 1 January 0000 at +0100 is a string of the pattern
    and is parsed, but its instant is in the year before in UTC, which
    [Format] writes with a sign, and the result is not read back under the
    RFC 3339 layout. *)
Lemma commit_time_year_zero :
  exists tm e,
    stamp_ok year_zero_stamp
    /\ render_stamp year_zero_stamp = "0000-01-01 00:00:00 +0100"
    /\ time_Parse gitLayout (render_stamp year_zero_stamp) = Parsed tm
    /\ Format (UTC tm) RFC3339 = "-0001-12-31T23:00:00Z"
    /\ time_Parse RFC3339 (Format (UTC tm) RFC3339) = ParseFailed e.
Proof.
  eexists _, _.
  split; [unfold stamp_ok; simpl; repeat split; try lia; by vm_compute |].
  split; [reflexivity |].
  split; [vm_compute; reflexivity |].
  split; vm_compute; reflexivity.
Qed.

(** * More of the code *)

(** ** Computations that abort *)

Lemma bind_Aborted {A B} (m : M A) (f : A -> M B) (w w' : World) why :
  (m ≫= f) w = (Aborted why, w') ->
  m w = (Aborted why, w')
  \/ exists a w1, m w = (Returned a, w1) /\ f a w1 = (Aborted why, w').
Proof.
  unfold mbind, M_bind. destruct (m w) as [[a|y] w1] eqn:E; intros H.
  - right. eauto.
  - left. by injection H as -> ->.
Qed.

Lemma run_Aborted env r args w why w' :
  run env r args w = (Aborted why, w') ->
  exists e,
    (env_CombinedOutput env (calls w) (execPath r) (cwd r) args).2 = Some e
    /\ why = Fatal (run_failure r args e)
    /\ w' = ran r [args] w.
Proof.
  destruct (env_CombinedOutput env (calls w) (execPath r) (cwd r) args).2
    as [e|] eqn:E.
  - rewrite (run_fails _ _ _ _ _ E). intros [= <- <-]. exists e.
    split; [done |]. split; [done |].
    apply world_eq; simpl; try done. lia.
  - by rewrite (run_succeeds _ _ _ _ E).
Qed.

Lemma ran_1 (r : runner) (args : list string) (w : World) :
  with_trace (fun t => (t ++ [EvCommand (execPath r) (cwd r) args])%list)
    (with_calls S w)
  = ran r [args] w.
Proof. apply world_eq; simpl; try done. lia. Qed.

Lemma ran_ran (r : runner) (a b : list (list string)) (w : World) :
  ran r b (ran r a w) = ran r (a ++ b) w.
Proof.
  apply world_eq; simpl; try done.
  - by rewrite map_app, app_assoc.
  - rewrite length_app. lia.
Qed.

Lemma occurs_has_byte (c : ascii) (s : string) :
  occurs c s <-> has_byte c s = true.
Proof.
  split.
  - intros (a & b & ->). induction a as [|x a IH].
    + simpl. by rewrite Ascii.eqb_refl.
    + rewrite append_cons. simpl. rewrite IH. apply orb_true_r.
  - induction s as [|x s IH]; simpl; [done |].
    rewrite orb_true_iff. intros [->%Ascii.eqb_eq | H].
    + by exists EmptyString, s.
    + destruct (IH H) as (a & b & ->). by exists (String x a), b.
Qed.

(** ** The git handle: commands that fail, output that is not a commit line *)

(** X1: [create] runs its three commands in order and stops at the first
    that fails: the test is failed with that command's message, and the
    commands after it are never issued. *)
Theorem create_stops_at_first_failure (env : Env) (vcs : VcsHandle)
    (w : World) (k : nat) (args : list string) (e : string) :
  first_failure env (vcs_runner vcs) create_commands (calls w) k args e ->
  create env vcs w
  = (Aborted (Fatal (run_failure (vcs_runner vcs) args e)),
     ran (vcs_runner vcs) (take (S k) create_commands) w).
Proof.
  intros (Hk & Hbefore & Hfail). unfold create.
  destruct k as [|[|[|k]]]; simpl in Hk; try done; injection Hk as <-.
  - rewrite Nat.add_0_r in Hfail.
    erewrite bind_abort; [| apply run_fails, Hfail]. by rewrite ran_1.
  - pose proof (Hbefore 0%nat _ ltac:(lia) eq_refl) as H0.
    rewrite Nat.add_0_r in H0.
    erewrite bind_step; [| apply run_succeeds, H0].
    replace (calls w + 1)%nat with (S (calls w)) in Hfail by lia.
    erewrite bind_abort; [| apply run_fails, Hfail].
    by rewrite !ran_1, ran_ran.
  - pose proof (Hbefore 0%nat _ ltac:(lia) eq_refl) as H0.
    pose proof (Hbefore 1%nat _ ltac:(lia) eq_refl) as H1.
    rewrite Nat.add_0_r in H0.
    replace (calls w + 1)%nat with (S (calls w)) in H1 by lia.
    replace (calls w + 2)%nat with (S (S (calls w))) in Hfail by lia.
    erewrite bind_step; [| apply run_succeeds, H0].
    erewrite bind_step; [| apply run_succeeds, H1].
    erewrite bind_abort; [| apply run_fails, Hfail].
    by rewrite !ran_1, !ran_ran.
Qed.

Lemma create_stops_at_first_failure_witness :
  create (failing_env 1) example_vcs example_world
  = (Aborted (Fatal (run_failure (vcs_runner example_vcs)
                       ["config"; "user.name"; "tests"] "exit status 128")),
     ran (vcs_runner example_vcs)
       [["init"]; ["config"; "user.name"; "tests"]] example_world).
Proof.
  apply (create_stops_at_first_failure (failing_env 1) example_vcs
           example_world 1).
  split; [reflexivity |]. split; [| reflexivity].
  intros j a Hj Ha. by replace j with 0%nat by lia.
Defined.

Lemma create_Aborted env vcs w why w' :
  create env vcs w = (Aborted why, w') ->
  exists k args e,
    first_failure env (vcs_runner vcs) create_commands (calls w) k args e
    /\ why = Fatal (run_failure (vcs_runner vcs) args e)
    /\ w' = ran (vcs_runner vcs) (take (S k) create_commands) w.
Proof.
  unfold create. intros H.
  apply bind_Aborted in H as [H | (o1 & w1 & H1 & H)].
  { apply run_Aborted in H as (e & He & -> & ->).
    exists 0%nat, ["init"], e. split; [|done].
    split; [done |]. split; [lia |]. by rewrite Nat.add_0_r. }
  apply run_Returned in H1 as [H1 ->].
  apply bind_Aborted in H as [H | (o2 & w2 & H2 & H)].
  { apply run_Aborted in H as (e & He & -> & ->).
    exists 1%nat, ["config"; "user.name"; "tests"], e.
    split; [| by rewrite ran_1, ran_ran].
    split; [done |]. split.
    - intros j a Hj Ha. replace j with 0%nat in * by lia.
      injection Ha as <-. by rewrite Nat.add_0_r, H1.
    - simpl in He. by replace (calls w + 1)%nat with (S (calls w)) by lia. }
  apply run_Returned in H2 as [H2 ->].
  apply bind_Aborted in H as [H | (o3 & w3 & H3 & H)]; [| done].
  apply run_Aborted in H as (e & He & -> & ->).
  exists 2%nat, ["config"; "user.email"; "tests@govendor.io"], e.
  split; [| by rewrite !ran_1, !ran_ran].
  split; [done |]. split.
  - intros j a Hj Ha. destruct j as [|[|j]]; [| | lia]; injection Ha as <-.
    + by rewrite Nat.add_0_r, H1.
    + replace (calls w + 1)%nat with (S (calls w)) by lia.
      simpl in H2 |- *. by rewrite H2.
  - simpl in He. by replace (calls w + 2)%nat with (S (S (calls w))) by lia.
Qed.

(** X2: a [Setup] that does not return has failed the test over one of
    the three commands of [create], on any handler a test can hold; it
    has then registered no cleanup and logged nothing, and it never ends
    in a panic or a fault. *)
Theorem Setup_failure_registers_nothing (env : Env) (h : HttpHandler)
    (w w' : World) (why : Abort) :
  reachable env h ->
  Setup env h w = (Aborted why, w') ->
  (exists k args e,
      create_commands !! k = Some args
      /\ why = Fatal (run_failure
                        {| execPath := h_execPath h; cwd := env_Current env |}
                        args e))
  /\ cleanups w' = cleanups w
  /\ logs w' = logs w
  /\ g_pkg w' = g_pkg w.
Proof.
  intros [_ Hn]%reachable_invariant H. unfold Setup, call_newer in H.
  rewrite Hn in H.
  apply bind_Aborted in H as [H | (vcs & w1 & H1 & H)]; [done |].
  injection H1 as <- <-.
  apply bind_Aborted in H as [H | ([] & w2 & H2 & H)].
  - apply create_Aborted in H as (k & args & e & (Hk & _) & -> & ->).
    split; [by exists k, args, e | done].
  - apply bind_Aborted in H as [H | ([] & w3 & H3 & H)]; done.
Qed.

Lemma Setup_failure_registers_nothing_witness :
  (exists k args e,
      create_commands !! k = Some args
      /\ Fatal (run_failure (vcs_runner example_vcs) ["init"] "exit status 128")
         = Fatal (run_failure
                    {| execPath := h_execPath example_fresh;
                       cwd := env_Current (failing_env 0) |} args e))
  /\ cleanups (ran (vcs_runner example_vcs) [["init"]]
                 (with_allocs S example_world))
     = cleanups example_world
  /\ logs (ran (vcs_runner example_vcs) [["init"]]
             (with_allocs S example_world))
     = logs example_world
  /\ g_pkg (ran (vcs_runner example_vcs) [["init"]]
              (with_allocs S example_world))
     = g_pkg example_world.
Proof.
  apply (Setup_failure_registers_nothing (failing_env 0) example_fresh
           example_world).
  - eapply (reach_new _ "git" example_world). vm_compute. reflexivity.
  - vm_compute. reflexivity.
Defined.

(** X3: [Commit] too stops at the first of its three commands that
    fails: the test is failed with that command's message, the commands
    after it are never issued (no [git show] after a [git commit] that
    failed), and nothing is parsed. *)
Theorem Commit_stops_at_first_failure (env : Env) (vcs : VcsHandle)
    (w : World) (k : nat) (args : list string) (e : string) :
  first_failure env (vcs_runner vcs) commit_commands (calls w) k args e ->
  Commit env vcs w
  = (Aborted (Fatal (run_failure (vcs_runner vcs) args e)),
     ran (vcs_runner vcs) (take (S k) commit_commands) w).
Proof.
  intros (Hk & Hbefore & Hfail). unfold Commit.
  destruct k as [|[|[|k]]]; simpl in Hk; try done; injection Hk as <-.
  - rewrite Nat.add_0_r in Hfail.
    erewrite bind_abort; [| apply run_fails, Hfail]. by rewrite ran_1.
  - pose proof (Hbefore 0%nat _ ltac:(lia) eq_refl) as H0.
    rewrite Nat.add_0_r in H0.
    erewrite bind_step; [| apply run_succeeds, H0].
    replace (calls w + 1)%nat with (S (calls w)) in Hfail by lia.
    erewrite bind_abort; [| apply run_fails, Hfail].
    by rewrite !ran_1, ran_ran.
  - pose proof (Hbefore 0%nat _ ltac:(lia) eq_refl) as H0.
    pose proof (Hbefore 1%nat _ ltac:(lia) eq_refl) as H1.
    rewrite Nat.add_0_r in H0.
    replace (calls w + 1)%nat with (S (calls w)) in H1 by lia.
    replace (calls w + 2)%nat with (S (S (calls w))) in Hfail by lia.
    erewrite bind_step; [| apply run_succeeds, H0].
    erewrite bind_step; [| apply run_succeeds, H1].
    erewrite bind_abort; [| apply run_fails, Hfail].
    by rewrite !ran_1, !ran_ran.
Qed.

Lemma Commit_stops_at_first_failure_witness :
  Commit (failing_env 1) example_vcs example_world
  = (Aborted (Fatal (run_failure (vcs_runner example_vcs)
                       ["commit"; "-a"; "-m"; "msg"] "exit status 128")),
     ran (vcs_runner example_vcs)
       [["add"; "-A"]; ["commit"; "-a"; "-m"; "msg"]] example_world).
Proof.
  apply (Commit_stops_at_first_failure (failing_env 1) example_vcs
           example_world 1).
  split; [reflexivity |]. split; [| reflexivity].
  intros j a Hj Ha. by replace j with 0%nat by lia.
Defined.

(** X4: when the three commands succeed but the line read has no [@] in
    it (an empty output included), [Commit] does not return and does not
    fail the test either: [ss[1]] is out of range in a slice of length
    one, after the commit has been made. *)
Theorem Commit_without_separator (env : Env) (vcs : VcsHandle) (w : World) :
  commands_succeed env (calls w) 3 ->
  has_byte "@" (commit_line env vcs w) = false ->
  Commit env vcs w
  = (Aborted (Crashed (IndexOutOfRange 1 1)),
     ran (vcs_runner vcs) commit_commands w).
Proof.
  intros Hok Hno. rewrite Commit_runs by done.
  rewrite parse_commit_unseparated.
  - f_equal. apply world_eq; simpl; try done. lia.
  - rewrite occurs_has_byte. by rewrite Hno.
Qed.

Lemma Commit_without_separator_witness :
  Commit unseparated_env example_vcs example_world
  = (Aborted (Crashed (IndexOutOfRange 1 1)),
     ran (vcs_runner example_vcs) commit_commands example_world).
Proof.
  apply (Commit_without_separator unseparated_env example_vcs example_world).
  - done.
  - vm_compute. reflexivity.
Defined.

(** ** The routing table and the server, together *)

Lemma append_inj_l (a x y : string) : a +:+ x = a +:+ y -> x = y.
Proof.
  induction a as [|c a IH]; [done |]. rewrite !append_cons. intros [= H].
  by apply IH.
Qed.

Lemma append_inj_length (a b x y : string) :
  a +:+ x = b +:+ y -> String.length a = String.length b -> a = b.
Proof.
  revert b. induction a as [|c a IH]; intros [|d b]; simpl; try done.
  rewrite !append_cons. intros [= -> H] [= Hl]. f_equal. by apply IH.
Qed.

(** The page names the package: different packages have different pages. *)
Lemma go_import_page_inj (h : HttpHandler) (p q : string) :
  go_import_page h p = go_import_page h q -> p = q.
Proof.
  unfold go_import_page. intros H.
  assert (String.length p = String.length q) as Hl.
  { apply (f_equal String.length) in H. rewrite !length_append in H. lia. }
  do 8 apply append_inj_l in H.
  by apply append_inj_length in H.
Qed.

(** The loop takes the first entry it visits that matches. *)
Lemma ServeHTTP_first (h : HttpHandler) k v rest urlPath :
  is_prefix (pkg v) (cleaned urlPath) ->
  ServeHTTP h ((k, v) :: rest) urlPath
  = {| status := 200; contentType := None;
       body := go_import_page h (pkg v) |}.
Proof.
  intros Hp%HasPrefix_spec. unfold ServeHTTP. rewrite TrimPrefix_slash.
  simpl. rewrite Hp.
  unfold Fprintf_fresh. rewrite Sprintf_templ. unfold go_import_page, StatusOK.
  by rewrite !append_assoc.
Qed.

Lemma iteration_first (m : gmap string VcsHandle) k v :
  m !! k = Some v -> iteration_of m ((k, v) :: map_to_list (delete k m)).
Proof. intros H. unfold iteration_of. by apply map_to_list_delete. Qed.

(** X5: the loop of [ServeHTTP] takes the first match in the order the
    map is visited, not the longest: when two registered packages are both
    prefixes of the path (one package below the other), each of them is
    served under some order of the visit, and the two answers differ. *)
Theorem ServeHTTP_overlap_order_decides (h : HttpHandler) (k1 k2 : string)
    (v1 v2 : VcsHandle) (urlPath : string) :
  handles h !! k1 = Some v1 ->
  handles h !! k2 = Some v2 ->
  is_prefix (pkg v1) (cleaned urlPath) ->
  is_prefix (pkg v2) (cleaned urlPath) ->
  pkg v1 <> pkg v2 ->
  exists order1 order2,
    iteration_of (handles h) order1
    /\ iteration_of (handles h) order2
    /\ ServeHTTP h order1 urlPath
       = {| status := 200; contentType := None;
            body := go_import_page h (pkg v1) |}
    /\ ServeHTTP h order2 urlPath
       = {| status := 200; contentType := None;
            body := go_import_page h (pkg v2) |}
    /\ ServeHTTP h order1 urlPath <> ServeHTTP h order2 urlPath.
Proof.
  intros H1 H2 Hp1 Hp2 Hne.
  exists ((k1, v1) :: map_to_list (delete k1 (handles h))),
         ((k2, v2) :: map_to_list (delete k2 (handles h))).
  split; [by apply iteration_first |]. split; [by apply iteration_first |].
  rewrite !ServeHTTP_first by done.
  split; [done |]. split; [done |].
  intros Hb. apply Hne, (go_import_page_inj h). exact (f_equal body Hb).
Qed.

Lemma ServeHTTP_overlap_order_decides_witness :
  exists order1 order2,
    iteration_of (handles nested_handler) order1
    /\ iteration_of (handles nested_handler) order2
    /\ ServeHTTP nested_handler order1 "/example.org/mod/sub/pkg"
       = {| status := 200; contentType := None;
            body := go_import_page nested_handler (pkg example_vcs) |}
    /\ ServeHTTP nested_handler order2 "/example.org/mod/sub/pkg"
       = {| status := 200; contentType := None;
            body := go_import_page nested_handler (pkg example_sub_vcs) |}
    /\ ServeHTTP nested_handler order1 "/example.org/mod/sub/pkg"
       <> ServeHTTP nested_handler order2 "/example.org/mod/sub/pkg".
Proof.
  apply (ServeHTTP_overlap_order_decides nested_handler
           "example.org/mod" "example.org/mod/sub" example_vcs example_sub_vcs
           "/example.org/mod/sub/pkg").
  - reflexivity.
  - reflexivity.
  - by exists "/sub/pkg".
  - by exists "/pkg".
  - discriminate.
Defined.

(** X6: [Setup] registers the removal of the handle it returns as the
    latest cleanup; running that cleanup takes the package out of the
    table again.  If the package was not registered before, the handler is
    then exactly as it was before [Setup]; if it was, the handle that
    [Setup] replaced does not come back. *)
Theorem Setup_cleanup_round_trip (env : Env) (h h' : HttpHandler)
    (w w' : World) (vcs : VcsHandle) :
  Setup env h w = (Returned (vcs, h'), w') ->
  exists c,
    cleanups w' = (cleanups w ++ [c])%list
    /\ forall w2,
         exists h2,
           run_cleanup env c h' w2 = (Returned h2, w2)
           /\ handles h2 = delete (g_pkg w) (handles h)
           /\ handles h2 !! g_pkg w = None
           /\ (handles h !! g_pkg w = None -> h2 = h).
Proof.
  intros (_ & -> & -> & ->)%Setup_Returned.
  exists (CleanRemove (new_handle env h w)). split; [done |].
  intros w2. eexists. split; [reflexivity |]. simpl.
  rewrite delete_insert_eq. split; [done |].
  split; [apply lookup_delete_eq |].
  intros Hnone. unfold remove, with_handles; simpl.
  rewrite delete_insert_eq, delete_id by done. by destruct h.
Qed.

Lemma Setup_cleanup_round_trip_witness :
  exists c,
    cleanups (with_cleanups (fun c => (c ++ [CleanRemove example_vcs])%list)
                (after_create example_vcs (with_allocs S example_world)))
    = (cleanups example_world ++ [c])%list
    /\ forall w2,
         exists h2,
           run_cleanup example_env c example_handler w2 = (Returned h2, w2)
           /\ handles h2 = delete (g_pkg example_world) (handles example_fresh)
           /\ handles h2 !! g_pkg example_world = None
           /\ (handles example_fresh !! g_pkg example_world = None ->
               h2 = example_fresh).
Proof.
  apply (Setup_cleanup_round_trip example_env example_fresh example_handler
           example_world _ example_vcs).
  rewrite Setup_succeeds; [| done | done].
  unfold example_handler, with_handles; simpl. rewrite insert_empty.
  reflexivity.
Defined.

(** X7: once [Setup] has returned, every path that starts with the
    package of the test is answered 200, whatever the order of the visit;
    and when no other registered package is a prefix of the path, the
    answer is the page of that package. *)
Theorem Setup_package_served (env : Env) (h h' : HttpHandler) (w w' : World)
    (vcs : VcsHandle) (order : list (string * VcsHandle)) (rest : string) :
  Setup env h w = (Returned (vcs, h'), w') ->
  iteration_of (handles h') order ->
  status (ServeHTTP h' order ("/" +:+ g_pkg w +:+ rest)) = 200
  /\ ((forall k v, handles h !! k = Some v -> k <> g_pkg w ->
                   ~ is_prefix (pkg v) (g_pkg w +:+ rest)) ->
      ServeHTTP h' order ("/" +:+ g_pkg w +:+ rest)
      = {| status := 200; contentType := None;
           body := go_import_page h' (g_pkg w) |}).
Proof.
  intros (_ & -> & -> & _)%Setup_Returned Hit.
  set (h' := with_handles _ h) in *.
  destruct (ServeHTTP_match h' order ("/" +:+ g_pkg w +:+ rest) Hit)
    as (k & v & Hk & Hp & HS).
  { exists (g_pkg w), (new_handle env h w). split.
    - apply lookup_insert_eq.
    - by exists rest. }
  split; [by rewrite HS |].
  intros Hothers. rewrite HS. do 2 f_equal.
  simpl in Hk. rewrite lookup_insert in Hk. case_decide as Hkey.
  - by injection Hk as <-.
  - exfalso. by apply (Hothers k v).
Qed.

Lemma Setup_package_served_witness :
  status (ServeHTTP example_handler [("example.org/mod", example_vcs)]
            ("/" +:+ g_pkg example_world +:+ "/sub"))
  = 200
  /\ ((forall k v, handles example_fresh !! k = Some v ->
                   k <> g_pkg example_world ->
                   ~ is_prefix (pkg v) (g_pkg example_world +:+ "/sub")) ->
      ServeHTTP example_handler [("example.org/mod", example_vcs)]
        ("/" +:+ g_pkg example_world +:+ "/sub")
      = {| status := 200; contentType := None;
           body := go_import_page example_handler (g_pkg example_world) |}).
Proof.
  apply (Setup_package_served example_env example_fresh example_handler
           example_world
           (with_cleanups (fun c => (c ++ [CleanRemove example_vcs])%list)
              (after_create example_vcs (with_allocs S example_world)))
           example_vcs).
  - rewrite Setup_succeeds; [| done | done].
    unfold example_handler, with_handles; simpl. rewrite insert_empty.
    reflexivity.
  - apply example_iteration.
Defined.

(** ** The supervised process: every way [runAsync] can go *)

Lemma runAsync_not_started env r checkFor args w e :
  env_Start env (calls w) (execPath r) (env_Current env) args = inr e ->
  runAsync env r checkFor args w
  = (Aborted (Fatal (start_failure r args)), with_calls S w).
Proof.
  intros He. unfold runAsync, mbind, M_bind, next_call; simpl. by rewrite He.
Qed.

Lemma runAsync_uncaptured env r args w pid :
  env_Start env (calls w) (execPath r) (env_Current env) args = inl pid ->
  runAsync env r EmptyString args w
  = (Returned (uncaptured_cmd env r args pid),
     started env r args pid (uncaptured_cmd env r args pid) w).
Proof.
  intros Hs. unfold runAsync, mbind, M_bind, next_call; simpl. by rewrite Hs.
Qed.

Lemma runAsync_Returned env r checkFor args w cmd w' :
  checkFor <> EmptyString ->
  runAsync env r checkFor args w = (Returned cmd, w') ->
  exists pid i,
    env_Start env (calls w) (execPath r) (env_Current env) args = inl pid
    /\ (i < 100)%nat
    /\ (forall j, (j < i)%nat -> quiet (env_poll env pid j) checkFor)
    /\ marker_seen (env_poll env pid i) checkFor
    /\ cmd = captured_cmd env r args pid
    /\ w' = slept i (started env r args pid cmd w).
Proof.
  intros Hne H.
  destruct (env_Start env (calls w) (execPath r) (env_Current env) args)
    as [pid|e] eqn:Hs; [| by rewrite (runAsync_not_started _ _ _ _ _ e) in H].
  rewrite (runAsync_capture _ _ _ _ _ pid) in H by done.
  destruct (poll_cases env r checkFor args (captured_cmd env r args pid) pid
              100 0%nat
              (started env r args pid (captured_cmd env r args pid) w) eq_refl)
    as [(j & Hj & Hall & Hm & Hp) | (Hall & Hp)];
    rewrite Hp in H; [| done].
  injection H as <- <-. exists pid, j.
  split; [done |]. split; [lia |].
  split; [intros j' Hj'; apply Hall; lia |]. split; [done |].
  split; [done |]. by rewrite Nat.sub_0_r.
Qed.

(** A wait for a marker that does not end well ends in a fatal message
    of the wait, and in nothing else. *)
Lemma runAsync_Aborted env r checkFor args w why w' :
  checkFor <> EmptyString ->
  runAsync env r checkFor args w = (Aborted why, w') ->
  exists d, why = Fatal d /\ In (d_format d) (tail daemon_failures).
Proof.
  intros Hne H.
  destruct (env_Start env (calls w) (execPath r) (env_Current env) args)
    as [pid|e] eqn:Hs.
  - rewrite (runAsync_capture _ _ _ _ _ pid) in H by done.
    destruct (poll_cases env r checkFor args (captured_cmd env r args pid) pid
                100 0%nat
                (started env r args pid (captured_cmd env r args pid) w)
                eq_refl)
      as [(j & Hj & Hall & Hm & Hp) | (Hall & Hp)];
      rewrite Hp in H; [done |]; injection H as <- <-; eexists;
      (split; [reflexivity |]); simpl; tauto.
  - rewrite (runAsync_not_started _ _ _ _ _ e) in H by done.
    injection H as <- <-. eexists. split; [reflexivity |]. simpl. tauto.
Qed.

(** X8: [runAsync] reports a process ready only on the evidence of the
    buffers: when it returns for a marker that is not empty, the process
    was started and some pass within the hundred had the marker as a
    substring of what the process had written to stdout or to stderr,
    every pass before it having the marker in neither; the command
    returned captures both streams, and the time slept is that pass's
    number of naps.  Whether the process is still there is no part of it:
    the observation's [obs_exited] is not read. *)
Theorem runAsync_ready_only_on_marker (env : Env) (r : runner)
    (checkFor : string) (args : list string) (w w' : World) (cmd : Cmd) :
  checkFor <> EmptyString ->
  runAsync env r checkFor args w = (Returned cmd, w') ->
  exists pid i,
    env_Start env (calls w) (execPath r) (env_Current env) args = inl pid
    /\ (i < 100)%nat
    /\ (forall j, (j < i)%nat ->
          ~ is_substring checkFor (obs_out (env_poll env pid j))
          /\ ~ is_substring checkFor (obs_err (env_poll env pid j)))
    /\ (is_substring checkFor (obs_out (env_poll env pid i))
        \/ is_substring checkFor (obs_err (env_poll env pid i)))
    /\ cmd = captured_cmd env r args pid
    /\ w' = slept i (started env r args pid cmd w).
Proof.
  intros Hne H.
  destruct (runAsync_Returned _ _ _ _ _ _ _ Hne H)
    as (pid & i & Hs & Hi & Hq & Hm & Hc & Hw).
  by exists pid, i.
Qed.

Lemma runAsync_ready_only_on_marker_witness :
  exists pid i,
    env_Start example_env (calls example_world) (execPath example_runner)
      (env_Current example_env) ["daemon"] = inl pid
    /\ (i < 100)%nat
    /\ (forall j, (j < i)%nat ->
          ~ is_substring " Ready " (obs_out (env_poll example_env pid j))
          /\ ~ is_substring " Ready " (obs_err (env_poll example_env pid j)))
    /\ (is_substring " Ready " (obs_out (env_poll example_env pid i))
        \/ is_substring " Ready " (obs_err (env_poll example_env pid i)))
    /\ captured_cmd example_env example_runner ["daemon"] 77
       = captured_cmd example_env example_runner ["daemon"] pid
    /\ slept 0 (started example_env example_runner ["daemon"] 77
                  (captured_cmd example_env example_runner ["daemon"] 77)
                  example_world)
       = slept i (started example_env example_runner ["daemon"] pid
                    (captured_cmd example_env example_runner ["daemon"] 77)
                    example_world).
Proof.
  apply (runAsync_ready_only_on_marker example_env example_runner " Ready "
           ["daemon"] example_world).
  - done.
  - vm_compute. reflexivity.
Defined.

(** X9: when the process cannot be started, [runAsync] fails the test at
    once, whatever the marker: no cleanup is registered and nothing is
    waited for.  The message names the program and its arguments and has
    no operand for its third verb: the error of [Start] is not in it. *)
Theorem runAsync_start_failure (env : Env) (r : runner) (checkFor : string)
    (args : list string) (w : World) (e : string) :
  env_Start env (calls w) (execPath r) (env_Current env) args = inr e ->
  exists d,
    runAsync env r checkFor args w = (Aborted (Fatal d), with_calls S w)
    /\ d_format d = "Failed to start %q %q: %v"
    /\ d_args d = [AString (execPath r); AStrings args]
    /\ Forall (fun a => a <> AError e) (d_args d).
Proof.
  intros He. exists (start_failure r args).
  split; [by apply (runAsync_not_started _ _ _ _ _ e) |].
  split; [done |]. split; [done |].
  simpl. by repeat constructor.
Qed.

Lemma runAsync_start_failure_witness :
  exists d,
    runAsync no_start_env example_runner " Ready " ["daemon"] example_world
    = (Aborted (Fatal d), with_calls S example_world)
    /\ d_format d = "Failed to start %q %q: %v"
    /\ d_args d = [AString (execPath example_runner); AStrings ["daemon"]]
    /\ Forall (fun a => a <> AError "fork/exec /usr/bin/git: permission denied")
         (d_args d).
Proof.
  apply (runAsync_start_failure no_start_env example_runner " Ready "
           ["daemon"] example_world).
  reflexivity.
Defined.

(** X10: with the empty marker [runAsync] does not wait: it returns as
    soon as the process is started, without a look at the process or a
    nap, and the command it returns captures neither stream.  The cleanup
    is registered all the same. *)
Theorem runAsync_without_marker (env : Env) (r : runner) (args : list string)
    (w : World) (pid : nat) :
  env_Start env (calls w) (execPath r) (env_Current env) args = inl pid ->
  exists cmd w',
    runAsync env r EmptyString args w = (Returned cmd, w')
    /\ cmd_Process cmd = Some pid
    /\ cmd_Stdout cmd = None /\ cmd_Stderr cmd = None
    /\ trace w'
       = (trace w ++ [EvStart pid (execPath r) (env_Current env) args])%list
    /\ cleanups w' = (cleanups w ++ [CleanProcess r cmd None None])%list
    /\ logs w' = logs w.
Proof.
  intros Hs. eexists _, _.
  split; [by apply runAsync_uncaptured |]. done.
Qed.

Lemma runAsync_without_marker_witness :
  exists cmd w',
    runAsync example_env example_runner EmptyString ["daemon"] example_world
    = (Returned cmd, w')
    /\ cmd_Process cmd = Some 77%nat
    /\ cmd_Stdout cmd = None /\ cmd_Stderr cmd = None
    /\ trace w'
       = (trace example_world
          ++ [EvStart 77 (execPath example_runner) (env_Current example_env)
                ["daemon"]])%list
    /\ cleanups w'
       = (cleanups example_world ++ [CleanProcess example_runner cmd None None])%list
    /\ logs w' = logs example_world.
Proof.
  apply (runAsync_without_marker example_env example_runner ["daemon"]
           example_world 77).
  reflexivity.
Defined.

(** Whatever the marker, a started process has its cleanup registered, as
    the latest one, however [runAsync] ends. *)
Lemma runAsync_registers env r checkFor args w pid :
  env_Start env (calls w) (execPath r) (env_Current env) args = inl pid ->
  cleanups (runAsync env r checkFor args w).2
  = (cleanups w
     ++ [if String.eqb checkFor EmptyString
         then CleanProcess r (uncaptured_cmd env r args pid) None None
         else CleanProcess r (captured_cmd env r args pid)
                (Some StdOut) (Some StdErr)])%list.
Proof.
  intros Hs. destruct (String.eqb checkFor EmptyString) eqn:E.
  - apply String.eqb_eq in E as ->. by rewrite (runAsync_uncaptured _ _ _ _ pid).
  - apply String.eqb_neq in E.
    rewrite (runAsync_capture _ _ _ _ _ pid) by done.
    destruct (poll_bounded env r checkFor args (captured_cmd env r args pid)
                pid 100 0%nat
                (started env r args pid (captured_cmd env r args pid) w)
                eq_refl)
      as (k & _ & ->).
    done.
Qed.

Lemma cleanProcess_trace env r cmd pid buf bufErr w :
  cmd_Process cmd = Some pid ->
  trace (cleanProcess env r cmd buf bufErr w).2
  = (trace w ++ stop_events env pid)%list.
Proof.
  intros Hp. unfold cleanProcess, stop_events. rewrite Hp.
  unfold mbind, M_bind, emit, Logf, Buffer_Bytes, mret, M_ret, abort; simpl.
  destruct (cv_wait_in_time (env_cleanup env pid)), buf, bufErr; simpl;
    by rewrite <- ?app_assoc.
Qed.

(** X11: once the process is started, its cleanup is registered however
    [runAsync] ends (ready, found exited, given up on, or not waited
    for), and running that cleanup always interrupts the process, and
    kills it when it outlasts the timer, before anything else can go
    wrong in the cleanup. *)
Theorem cleanup_always_stops_process (env : Env) (r : runner)
    (checkFor : string) (args : list string) (w : World) (pid : nat) :
  env_Start env (calls w) (execPath r) (env_Current env) args = inl pid ->
  exists c,
    cleanups (runAsync env r checkFor args w).2 = (cleanups w ++ [c])%list
    /\ forall h w2,
         trace (run_cleanup env c h w2).2
         = (trace w2 ++ stop_events env pid)%list.
Proof.
  intros Hs. eexists. split; [by apply runAsync_registers |].
  intros h w2.
  destruct (String.eqb checkFor EmptyString); simpl;
    unfold mbind, M_bind;
    match goal with
    | |- context [cleanProcess env r ?cmd ?b ?b' w2] =>
        pose proof (cleanProcess_trace env r cmd pid b b' w2 eq_refl) as Ht;
        destruct (cleanProcess env r cmd b b' w2) as [[[]|why] w3]
    end; done.
Qed.

Lemma cleanup_always_stops_process_witness :
  exists c,
    cleanups (runAsync stubborn_env example_runner EmptyString ["daemon"]
                example_world).2
    = (cleanups example_world ++ [c])%list
    /\ forall h w2,
         trace (run_cleanup stubborn_env c h w2).2
         = (trace w2 ++ stop_events stubborn_env 77)%list.
Proof.
  apply (cleanup_always_stops_process stubborn_env example_runner EmptyString
           ["daemon"] example_world 77).
  reflexivity.
Defined.

(** X12: for a marker that is not empty, the cleanup registered for a
    started process never fails, however [runAsync] itself ended: it
    returns, having logged the captured stdout and then the captured
    stderr, two lines in all, and leaves the handler as it is. *)
Theorem cleanup_logs_captured_output (env : Env) (r : runner)
    (checkFor : string) (args : list string) (w : World) (pid : nat) :
  checkFor <> EmptyString ->
  env_Start env (calls w) (execPath r) (env_Current env) args = inl pid ->
  exists c,
    cleanups (runAsync env r checkFor args w).2 = (cleanups w ++ [c])%list
    /\ forall h w2,
         exists w3,
           run_cleanup env c h w2 = (Returned h, w3)
           /\ logs w3 = (logs w2 ++ cleanup_log env (execPath r) pid)%list
           /\ cleanups w3 = cleanups w2.
Proof.
  intros Hne Hs. eexists. split; [by apply runAsync_registers |].
  intros h w2. apply String.eqb_neq in Hne. rewrite Hne. simpl.
  unfold mbind, M_bind.
  rewrite (cleanProcess_captured _ _ _ pid) by done.
  eexists. split; [reflexivity |]. done.
Qed.

Lemma cleanup_logs_captured_output_witness :
  exists c,
    cleanups (runAsync stubborn_env example_runner " Ready " ["daemon"]
                example_world).2
    = (cleanups example_world ++ [c])%list
    /\ forall h w2,
         exists w3,
           run_cleanup stubborn_env c h w2 = (Returned h, w3)
           /\ logs w3
              = (logs w2
                 ++ cleanup_log stubborn_env (execPath example_runner) 77)%list
           /\ cleanups w3 = cleanups w2.
Proof.
  apply (cleanup_logs_captured_output stubborn_env example_runner " Ready "
           ["daemon"] example_world 77).
  - done.
  - reflexivity.
Defined.

(** ** The constructor, branch by branch *)

Lemma freePort_ok env r w addr port :
  env_Listen env (calls w) = inl (addr, port) ->
  freePort env r w = (Returned port, freed env addr port w).
Proof.
  intros Hl. unfold freePort, mbind, M_bind, next_call; simpl. rewrite Hl.
  unfold emit, Sleep, emit, mret, M_ret, freed; simpl.
  destruct (String.eqb (env_GOOS env) "windows"); simpl; f_equal;
    apply world_eq; simpl; try done; by rewrite <- !app_assoc.
Qed.

Lemma freePort_fails env r w e :
  env_Listen env (calls w) = inr e ->
  freePort env r w = (Aborted (Fatal (port_failure e)), with_calls S w).
Proof.
  intros Hl. unfold freePort, mbind, M_bind, next_call; simpl. by rewrite Hl.
Qed.

(** X13: when [freePort] returns a port, it is the port of the one
    listener the call opened, and the call has called [Close] on that
    listener before it returns (what [Close] answers is dropped): the
    call leaves no listener of its own open.  On Windows, and only there,
    300ms are slept after the close.  No cleanup is registered and
    nothing is logged. *)
Theorem freePort_closes_its_listener (env : Env) (r : runner) (w w' : World)
    (port : Z) :
  freePort env r w = (Returned port, w') ->
  exists addr,
    env_Listen env (calls w) = inl (addr, port)
    /\ trace w'
       = (trace w ++ [EvListen addr; EvClose port]
          ++ (if String.eqb (env_GOOS env) "windows"
              then [EvSleep 300] else []))%list
    /\ time_slept (trace w')
       = time_slept (trace w)
         + (if String.eqb (env_GOOS env) "windows" then 300 else 0)
    /\ cleanups w' = cleanups w
    /\ logs w' = logs w.
Proof.
  intros H.
  destruct (env_Listen env (calls w)) as [[addr p]|e] eqn:Hl;
    [| by rewrite (freePort_fails _ _ _ e) in H].
  rewrite (freePort_ok _ _ _ addr p) in H by done.
  injection H as <- <-. exists addr. split; [done |]. split; [done |].
  split; [| done].
  simpl. rewrite time_slept_app.
  destruct (String.eqb (env_GOOS env) "windows"); simpl; lia.
Qed.

Lemma freePort_closes_its_listener_witness :
  exists addr,
    env_Listen example_env (calls example_world) = inl (addr, 4000)
    /\ trace (freed example_env "127.0.0.1:4000" 4000 example_world)
       = (trace example_world ++ [EvListen addr; EvClose 4000]
          ++ (if String.eqb (env_GOOS example_env) "windows"
              then [EvSleep 300] else []))%list
    /\ time_slept (trace (freed example_env "127.0.0.1:4000" 4000
                            example_world))
       = time_slept (trace example_world)
         + (if String.eqb (env_GOOS example_env) "windows" then 300 else 0)
    /\ cleanups (freed example_env "127.0.0.1:4000" 4000 example_world)
       = cleanups example_world
    /\ logs (freed example_env "127.0.0.1:4000" 4000 example_world)
       = logs example_world.
Proof.
  apply (freePort_closes_its_listener example_env example_runner example_world).
  reflexivity.
Defined.

(** With the listener, [NewHttpHandler] is what it does after the server
    is started. *)
Lemma NewHttpHandler_served env name w addr port :
  env_Listen env (calls w) = inl (addr, port) ->
  NewHttpHandler env name w
  = if (String.length (env_LookPath env name) =? 0)%nat
    then (Aborted (Skipped "unsupported vcs"), served addr port w)
    else if String.eqb name "git" then
      (port' ← freePort env (git_runner env);
       runAsync env (git_runner env) " Ready " (daemon_args env port');;
       ((fun w' => (Returned (Some (git_handler env addr port port' (g_pkg w))),
                    announced env w')) : M (option HttpHandler)))
        (served addr port w)
    else (Aborted (Panicked "unknown vcs type"), served addr port w).
Proof.
  intros Hl. unfold NewHttpHandler.
  unfold mbind at 1, M_bind at 1, next_call. rewrite Hl.
  unfold mbind at 1, M_bind at 1, emit at 1.
  unfold mbind at 1, M_bind at 1, get_pkg.
  unfold mbind at 1, M_bind at 1, emit at 1.
  cbn [g_pkg with_trace with_calls].
  assert (with_trace (fun l => (l ++ [EvServe port])%list)
            (with_trace (fun l => (l ++ [EvListen addr])%list) (with_calls S w))
          = served addr port w) as ->.
  { apply world_eq; simpl; try done. by rewrite <- app_assoc. }
  destruct (String.length (env_LookPath env name) =? 0)%nat eqn:E; [done |].
  unfold mbind at 1, M_bind at 1. unfold mret at 1, M_ret at 1.
  destruct (String.eqb name "git") eqn:Hg; [| done].
  apply String.eqb_eq in Hg as ->. reflexivity.
Qed.

Lemma length_zero (s : string) : (String.length s =? 0)%nat = true <-> s = EmptyString.
Proof. destruct s; simpl; split; done. Qed.

Lemma NewHttpHandler_no_listener env name w e :
  env_Listen env (calls w) = inr e ->
  NewHttpHandler env name w = (Returned None, with_calls S w).
Proof.
  intros He. unfold NewHttpHandler, mbind, M_bind, next_call. by rewrite He.
Qed.

(** X14: a tool that is not installed makes [NewHttpHandler] skip the
    test, whatever its name (the skip comes before the switch on the
    name).  By then the listener is open and the server started on it;
    neither is undone, and no cleanup is registered. *)
Theorem NewHttpHandler_unsupported_vcs (env : Env) (name : string) (w : World)
    (addr : string) (port : Z) :
  env_Listen env (calls w) = inl (addr, port) ->
  env_LookPath env name = EmptyString ->
  NewHttpHandler env name w
  = (Aborted (Skipped "unsupported vcs"), served addr port w)
  /\ trace (served addr port w)
     = (trace w ++ [EvListen addr; EvServe port])%list
  /\ cleanups (served addr port w) = cleanups w.
Proof.
  intros Hl Hp. rewrite (NewHttpHandler_served _ _ _ addr port) by done.
  by rewrite Hp.
Qed.

Lemma NewHttpHandler_unsupported_vcs_witness :
  NewHttpHandler no_git_env "git" example_world
  = (Aborted (Skipped "unsupported vcs"),
     served "127.0.0.1:4000" 4000 example_world)
  /\ trace (served "127.0.0.1:4000" 4000 example_world)
     = (trace example_world
        ++ [EvListen "127.0.0.1:4000"; EvServe 4000])%list
  /\ cleanups (served "127.0.0.1:4000" 4000 example_world)
     = cleanups example_world.
Proof.
  apply (NewHttpHandler_unsupported_vcs no_git_env "git" example_world
           "127.0.0.1:4000" 4000); reflexivity.
Defined.

(** X15: a tool that is installed but is not git makes [NewHttpHandler]
    panic with [unknown vcs type]: neither a handler nor a failed or
    skipped test.  The listener is open and the server started by then;
    no daemon is started and no cleanup registered. *)
Theorem NewHttpHandler_unknown_vcs (env : Env) (name : string) (w : World)
    (addr : string) (port : Z) :
  env_Listen env (calls w) = inl (addr, port) ->
  env_LookPath env name <> EmptyString ->
  name <> "git" ->
  NewHttpHandler env name w
  = (Aborted (Panicked "unknown vcs type"), served addr port w)
  /\ trace (served addr port w)
     = (trace w ++ [EvListen addr; EvServe port])%list
  /\ cleanups (served addr port w) = cleanups w.
Proof.
  intros Hl Hp Hn. rewrite (NewHttpHandler_served _ _ _ addr port) by done.
  destruct (String.length (env_LookPath env name) =? 0)%nat eqn:E;
    [by apply length_zero in E |].
  apply String.eqb_neq in Hn. by rewrite Hn.
Qed.

Lemma NewHttpHandler_unknown_vcs_witness :
  NewHttpHandler example_env "hg" example_world
  = (Aborted (Panicked "unknown vcs type"),
     served "127.0.0.1:4000" 4000 example_world)
  /\ trace (served "127.0.0.1:4000" 4000 example_world)
     = (trace example_world
        ++ [EvListen "127.0.0.1:4000"; EvServe 4000])%list
  /\ cleanups (served "127.0.0.1:4000" 4000 example_world)
     = cleanups example_world.
Proof.
  apply (NewHttpHandler_unknown_vcs example_env "hg" example_world
           "127.0.0.1:4000" 4000); [reflexivity | discriminate | discriminate].
Defined.

(** What a returned handler tells about the call that made it. *)
Lemma NewHttpHandler_Some env name w h w' :
  NewHttpHandler env name w = (Returned (Some h), w') ->
  name = "git"
  /\ env_LookPath env "git" <> EmptyString
  /\ exists addr port addr' port' pid i,
       env_Listen env (calls w) = inl (addr, port)
       /\ env_Listen env (S (calls w)) = inl (addr', port')
       /\ env_Start env (S (S (calls w))) (env_LookPath env "git")
            (env_Current env) (daemon_args env port') = inl pid
       /\ (i < 100)%nat
       /\ (forall j, (j < i)%nat -> quiet (env_poll env pid j) " Ready ")
       /\ marker_seen (env_poll env pid i) " Ready "
       /\ h = git_handler env addr port port' (g_pkg w)
       /\ w' = announced env
                 (slept i
                    (started env (git_runner env) (daemon_args env port') pid
                       (captured_cmd env (git_runner env)
                          (daemon_args env port') pid)
                       (freed env addr' port' (served addr port w)))).
Proof.
  intros H.
  destruct (env_Listen env (calls w)) as [[addr port]|e] eqn:Hl;
    [| by rewrite (NewHttpHandler_no_listener _ _ _ e) in H].
  rewrite (NewHttpHandler_served _ _ _ addr port) in H by done.
  destruct (String.length (env_LookPath env name) =? 0)%nat eqn:E; [done |].
  destruct (String.eqb name "git") eqn:Hg; [| done].
  apply String.eqb_eq in Hg as ->. split; [done |].
  split; [intros Hp; by rewrite Hp in E |].
  apply bind_Returned in H as (port' & w1 & Hfp & H).
  destruct (env_Listen env (S (calls w))) as [[addr' p']|e] eqn:Hl';
    [| by rewrite (freePort_fails _ _ _ e) in Hfp].
  rewrite (freePort_ok _ _ _ addr' p') in Hfp by done.
  injection Hfp as <- <-.
  apply bind_Returned in H as (cmd & w2 & Hra & H).
  injection H as <- <-.
  apply runAsync_Returned in Hra
    as (pid & i & Hs & Hi & Hq & Hm & -> & ->); [| done].
  by exists addr, port, addr', p', pid, i.
Qed.

(** X16: a handler that [NewHttpHandler] returns is a handler for git,
    with git found on the machine.  Its [HttpAddr] is the address of the
    listener it serves on; its [vcsAddr] names the port that [freePort]
    had and closed, and the daemon was started on that same port, after
    the close.  The daemon was seen ready: at some pass within the
    hundred the marker [ Ready ] was in what it had written to stdout or
    to stderr, and at no pass before; that many naps were slept.  The
    daemon's cleanup is the one cleanup registered; the table is empty,
    so the handler answers 404 to everything. *)
Theorem NewHttpHandler_ready (env : Env) (name : string) (w w' : World)
    (h : HttpHandler) :
  NewHttpHandler env name w = (Returned (Some h), w') ->
  name = "git"
  /\ env_LookPath env "git" <> EmptyString
  /\ exists addr port addr' port' pid i,
       env_Listen env (calls w) = inl (addr, port)
       /\ env_Listen env (S (calls w)) = inl (addr', port')
       /\ env_Start env (S (S (calls w))) (env_LookPath env "git")
            (env_Current env) (daemon_args env port') = inl pid
       /\ HttpAddr h = addr
       /\ vcsAddr h = "git://localhost:" +:+ itoa port' +:+ "/"
       /\ (i < 100)%nat
       /\ (forall j, (j < i)%nat ->
             ~ is_substring " Ready " (obs_out (env_poll env pid j))
             /\ ~ is_substring " Ready " (obs_err (env_poll env pid j)))
       /\ (is_substring " Ready " (obs_out (env_poll env pid i))
           \/ is_substring " Ready " (obs_err (env_poll env pid i)))
       /\ trace w'
          = (trace w
             ++ [EvListen addr; EvServe port; EvListen addr'; EvClose port']
             ++ (if String.eqb (env_GOOS env) "windows"
                 then [EvSleep 300] else [])
             ++ [EvStart pid (env_LookPath env "git") (env_Current env)
                   (daemon_args env port')]
             ++ replicate i (EvSleep 10)
             ++ [EvPrint (mkDiagnostic ("base-path %q, serve %q" +:+ newline)
                            [AString (env_Path env EmptyString);
                             AString (env_Current env)])])%list
       /\ cleanups w'
          = (cleanups w
             ++ [CleanProcess (git_runner env)
                   (captured_cmd env (git_runner env) (daemon_args env port')
                      pid)
                   (Some StdOut) (Some StdErr)])%list
       /\ handles h = ∅
       /\ forall order urlPath,
            iteration_of (handles h) order ->
            status (ServeHTTP h order urlPath) = 404.
Proof.
  intros (-> & Hp & addr & port & addr' & port' & pid & i & Hl & Hl' & Hs
          & Hi & Hq & Hm & -> & ->)%NewHttpHandler_Some.
  split; [done |]. split; [done |].
  exists addr, port, addr', port', pid, i.
  split; [done |]. split; [done |]. split; [done |]. split; [done |].
  split; [done |]. split; [done |]. split; [exact Hq |]. split; [exact Hm |].
  split.
  { simpl. by rewrite <- !app_assoc. }
  split; [done |]. split; [done |].
  intros order urlPath Hit. rewrite ServeHTTP_no_match; [done | done |].
  intros k v Hk. simpl in Hk. by rewrite lookup_empty in Hk.
Qed.

Lemma NewHttpHandler_ready_witness :
  "git" = "git"
  /\ env_LookPath example_env "git" <> EmptyString
  /\ exists addr port addr' port' pid i,
       env_Listen example_env (calls example_world) = inl (addr, port)
       /\ env_Listen example_env (S (calls example_world)) = inl (addr', port')
       /\ env_Start example_env (S (S (calls example_world)))
            (env_LookPath example_env "git") (env_Current example_env)
            (daemon_args example_env port') = inl pid
       /\ HttpAddr example_fresh = addr
       /\ vcsAddr example_fresh = "git://localhost:" +:+ itoa port' +:+ "/"
       /\ (i < 100)%nat
       /\ (forall j, (j < i)%nat ->
             ~ is_substring " Ready " (obs_out (env_poll example_env pid j))
             /\ ~ is_substring " Ready " (obs_err (env_poll example_env pid j)))
       /\ (is_substring " Ready " (obs_out (env_poll example_env pid i))
           \/ is_substring " Ready " (obs_err (env_poll example_env pid i)))
       /\ trace (NewHttpHandler example_env "git" example_world).2
          = (trace example_world
             ++ [EvListen addr; EvServe port; EvListen addr'; EvClose port']
             ++ (if String.eqb (env_GOOS example_env) "windows"
                 then [EvSleep 300] else [])
             ++ [EvStart pid (env_LookPath example_env "git")
                   (env_Current example_env) (daemon_args example_env port')]
             ++ replicate i (EvSleep 10)
             ++ [EvPrint (mkDiagnostic ("base-path %q, serve %q" +:+ newline)
                            [AString (env_Path example_env EmptyString);
                             AString (env_Current example_env)])])%list
       /\ cleanups (NewHttpHandler example_env "git" example_world).2
          = (cleanups example_world
             ++ [CleanProcess (git_runner example_env)
                   (captured_cmd example_env (git_runner example_env)
                      (daemon_args example_env port') pid)
                   (Some StdOut) (Some StdErr)])%list
       /\ handles example_fresh = ∅
       /\ forall order urlPath,
            iteration_of (handles example_fresh) order ->
            status (ServeHTTP example_fresh order urlPath) = 404.
Proof.
  apply (NewHttpHandler_ready example_env "git" example_world).
  vm_compute. reflexivity.
Defined.

(** X17: every way [NewHttpHandler] can end.  It returns nil exactly for a
    listener it cannot have; it returns a handler only for git, found on
    the machine, and then one with an empty table and its [newer] set; it
    skips the test only over a tool that is not installed, and panics only
    over an installed tool that is not git; it fails the test only on the
    way to a running git daemon, with one of four messages; and it never
    ends in a fault. *)
Theorem NewHttpHandler_outcomes (env : Env) (name : string) (w : World) :
  match (NewHttpHandler env name w).1 with
  | Returned None => exists e, env_Listen env (calls w) = inr e
  | Returned (Some h) =>
      name = "git" /\ env_LookPath env "git" <> EmptyString
      /\ handles h = ∅ /\ newer h = Some gitNewer
  | Aborted (Skipped reason) =>
      reason = "unsupported vcs" /\ env_LookPath env name = EmptyString
  | Aborted (Panicked msg) =>
      msg = "unknown vcs type" /\ name <> "git"
      /\ env_LookPath env name <> EmptyString
  | Aborted (Fatal d) =>
      name = "git" /\ env_LookPath env "git" <> EmptyString
      /\ In (d_format d) daemon_failures
  | Aborted (Crashed _) => False
  end.
Proof.
  destruct (env_Listen env (calls w)) as [[addr port]|e] eqn:Hl;
    [| rewrite (NewHttpHandler_no_listener _ _ _ e) by done; simpl; eauto].
  rewrite (NewHttpHandler_served _ _ _ addr port) by done.
  destruct (String.length (env_LookPath env name) =? 0)%nat eqn:E.
  { simpl. split; [done | by apply length_zero]. }
  assert (env_LookPath env name <> EmptyString) as Hp
    by (intros Hp; by rewrite Hp in E).
  destruct (String.eqb name "git") eqn:Hg.
  2: { simpl. split; [done |]. split; [by apply String.eqb_neq | done]. }
  apply String.eqb_eq in Hg as ->.
  destruct (env_Listen env (S (calls w))) as [[addr' port']|e] eqn:Hl'.
  2: { erewrite bind_abort; [| by apply (freePort_fails _ _ _ e)].
       simpl. tauto. }
  erewrite bind_step; [| by apply (freePort_ok _ _ _ addr' port')].
  destruct (runAsync env (git_runner env) " Ready " (daemon_args env port')
              (freed env addr' port' (served addr port w)))
    as [[cmd|why] w2] eqn:Hra.
  - erewrite bind_step; [| exact Hra]. simpl. done.
  - erewrite bind_abort; [| exact Hra]. simpl.
    apply runAsync_Aborted in Hra as (d & -> & Hd); [| done].
    split; [done |]. split; [done |]. by right.
Qed.

(** X18: what holds of every handler a test can hold, through any run of
    [Setup] and [remove]: it is a handler for git, the path of its
    executable is the one found for git and is not empty, and every
    registered handle is registered under its own package and runs that
    same executable in the directory of the test. *)
Theorem reachable_handles_run_git (env : Env) (h : HttpHandler) :
  reachable env h ->
  vcsName h = "git"
  /\ h_execPath h = env_LookPath env "git"
  /\ h_execPath h <> EmptyString
  /\ forall k vcs, handles h !! k = Some vcs ->
       pkg vcs = k
       /\ vcs_execPath vcs = h_execPath h
       /\ vcs_cwd vcs = env_Current env.
Proof.
  induction 1 as [name w h w' Hnew | h w vcs h' w' _ (IHn & IHp & IHe & IHt) HS
                 | h vcs _ (IHn & IHp & IHe & IHt)].
  - apply NewHttpHandler_Some in Hnew
      as (-> & Hp & addr & port & addr' & port' & pid & i & _ & _ & _ & _ & _
          & _ & -> & _).
    simpl. split; [done |]. split; [done |]. split; [done |].
    intros k vcs Hk. by rewrite lookup_empty in Hk.
  - apply Setup_Returned in HS as (_ & -> & -> & _). simpl.
    split; [done |]. split; [done |]. split; [done |].
    intros k vcs. rewrite lookup_insert. case_decide as Hk.
    + intros [= <-]. by subst k.
    + apply IHt.
  - simpl. split; [done |]. split; [done |]. split; [done |].
    intros k v Hk. apply lookup_delete_Some in Hk as [_ Hk]. by apply IHt.
Qed.

Lemma reachable_handles_run_git_witness :
  vcsName example_handler = "git"
  /\ h_execPath example_handler = env_LookPath example_env "git"
  /\ h_execPath example_handler <> EmptyString
  /\ forall k vcs, handles example_handler !! k = Some vcs ->
       pkg vcs = k
       /\ vcs_execPath vcs = h_execPath example_handler
       /\ vcs_cwd vcs = env_Current example_env.
Proof.
  apply (reachable_handles_run_git example_env example_handler).
  apply example_handler_reachable.
Defined.

(** ** The commit line with a timestamp of the pattern *)

Lemma has_byte_app (c : ascii) (a b : string) :
  has_byte c (a +:+ b) = has_byte c a || has_byte c b.
Proof.
  induction a as [|x a IH]; [done |].
  rewrite append_cons. simpl. by rewrite IH, orb_assoc.
Qed.

Lemma digit_not_at (c : ascii) :
  is_digit_char c = true -> Ascii.eqb c "@" = false.
Proof. destruct c as [[] [] [] [] [] [] [] []]; by vm_compute. Qed.

Lemma pad2_no_at (n : Z) : 0 <= n <= 99 -> has_byte "@" (pad2 n) = false.
Proof.
  intros H. destruct (pad2_shows n H) as ([H1 _] & [H2 _] & _).
  unfold pad2. cbn [has_byte]. by rewrite !digit_not_at.
Qed.

Lemma pad4_no_at (n : Z) : 0 <= n <= 9999 -> has_byte "@" (pad4 n) = false.
Proof.
  intros H. destruct (pad4_shows n H) as ([H1 _] & [H2 _] & [H3 _] & [H4 _] & _).
  unfold pad4. cbn [has_byte]. by rewrite !digit_not_at.
Qed.

(** No [@] in a timestamp of the pattern. *)
Lemma render_stamp_no_at (st : Stamp) :
  stamp_digits st -> has_byte "@" (render_stamp st) = false.
Proof.
  intros (Hy & Hm & Hd & Hh & Hi & Hs & Hzh & Hzm).
  unfold render_stamp. rewrite !has_byte_app.
  rewrite pad4_no_at, !pad2_no_at by done.
  by destruct (st_east st).
Qed.

Lemma stamp_ok_digits (st : Stamp) : stamp_ok st -> stamp_digits st.
Proof.
  intros (Hy & Hm & Hd & Hh & Hi & Hs & Hzh & Hzm).
  pose proof (daysIn_le_31 (st_month st) (st_year st)).
  unfold stamp_digits. lia.
Qed.

Lemma daysIn_ge_28 (m y : Z) : 28 <= daysIn m y.
Proof.
  unfold daysIn.
  destruct ((m =? 2) && isLeap y); [lia |]. destruct (m =? 2); [lia |].
  destruct ((m =? 4) || (m =? 6) || (m =? 9) || (m =? 11)); lia.
Qed.

Lemma day_missing_digits (st : Stamp) : day_missing st -> stamp_digits st.
Proof.
  intros (Hy & Hm & Hd & Hh & Hi & Hs & Hzh & Hzm).
  pose proof (daysIn_ge_28 (st_month st) (st_year st)).
  unfold stamp_digits. lia.
Qed.

(** The line [rev@stamp] is cut into the revision and the timestamp. *)
Lemma parse_commit_stamp (rev : string) (st : Stamp) (w : World) :
  has_byte "@" rev = false -> stamp_digits st ->
  parse_commit (rev +:+ String "@" (render_stamp st)) w
  = match time_Parse gitLayout (render_stamp st) with
    | Parsed tm => (Returned (rev, Format (UTC tm) RFC3339), w)
    | ParseFailed err =>
        (Aborted (Panicked ("Failed to parse time: " +:+ render_stamp st
                            +:+ " : " +:+ ParseError_Error err)), w)
    end.
Proof.
  intros Hrev Hst. rewrite parse_commit_separated.
  - rewrite Split_whole; [done |].
    rewrite occurs_has_byte. by rewrite render_stamp_no_at.
  - rewrite occurs_has_byte. by rewrite Hrev.
Qed.

(** X19: the time [Commit] returns does not depend on the offset git
    printed the timestamp in: two lines with the same revision whose
    timestamps of the pattern denote the same instant are cut and parsed
    to the same pair. *)
Theorem commit_time_zone_independent (rev : string) (st1 st2 : Stamp)
    (w : World) :
  has_byte "@" rev = false ->
  stamp_ok st1 -> stamp_ok st2 ->
  stamp_instant st1 = stamp_instant st2 ->
  exists commitTime,
    parse_commit (rev +:+ String "@" (render_stamp st1)) w
    = (Returned (rev, commitTime), w)
    /\ parse_commit (rev +:+ String "@" (render_stamp st2)) w
       = (Returned (rev, commitTime), w).
Proof.
  intros Hrev H1 H2 Heq.
  rewrite !parse_commit_stamp by (done || by apply stamp_ok_digits).
  rewrite !parse_stamp by done.
  eexists. split; [reflexivity |]. unfold UTC; simpl. by rewrite Heq.
Qed.

Lemma example_stamp_east_ok : stamp_ok example_stamp_east.
Proof. unfold stamp_ok; simpl. repeat split; try lia; by vm_compute. Qed.

Lemma commit_time_zone_independent_witness :
  exists commitTime,
    parse_commit ("0123abcd" +:+ String "@" (render_stamp example_stamp_fields))
      example_world
    = (Returned ("0123abcd", commitTime), example_world)
    /\ parse_commit
         ("0123abcd" +:+ String "@" (render_stamp example_stamp_east))
         example_world
       = (Returned ("0123abcd", commitTime), example_world).
Proof.
  apply (commit_time_zone_independent "0123abcd" example_stamp_fields
           example_stamp_east example_world).
  - reflexivity.
  - apply example_stamp_ok.
  - apply example_stamp_east_ok.
  - reflexivity.
Defined.

(** X20: for a timestamp of the pattern whose instant falls, in UTC, in a
    year from 0000 to 9999, the time [Commit] returns is the date and the
    clock of that instant in UTC, in the form [YYYY-MM-DDTHH:MM:SSZ]:
    twenty bytes, the zone always the letter [Z], never an offset. *)
Theorem commit_time_canonical (rev : string) (st : Stamp) (w : World) :
  has_byte "@" rev = false ->
  stamp_ok st ->
  0 <= Year (UTC (stamp_time st)) <= 9999 ->
  exists commitTime,
    parse_commit (rev +:+ String "@" (render_stamp st)) w
    = (Returned (rev, commitTime), w)
    /\ commitTime
       = pad4 (Year (UTC (stamp_time st))) +:+ "-"
         +:+ pad2 (Month (UTC (stamp_time st))) +:+ "-"
         +:+ pad2 (Day (UTC (stamp_time st))) +:+ "T"
         +:+ pad2 (Hour (UTC (stamp_time st))) +:+ ":"
         +:+ pad2 (Minute (UTC (stamp_time st))) +:+ ":"
         +:+ pad2 (Second (UTC (stamp_time st))) +:+ "Z"
    /\ String.length commitTime = 20%nat.
Proof.
  intros Hrev Hok Hy.
  rewrite parse_commit_stamp by (done || by apply stamp_ok_digits).
  rewrite parse_stamp by done. fold (stamp_time st).
  eexists. split; [reflexivity |].
  rewrite Format_RFC3339_UTC by done. split; [reflexivity |]. reflexivity.
Qed.

Lemma commit_time_canonical_witness :
  exists commitTime,
    parse_commit ("0123abcd" +:+ String "@" (render_stamp example_stamp_fields))
      example_world
    = (Returned ("0123abcd", commitTime), example_world)
    /\ commitTime
       = pad4 (Year (UTC (stamp_time example_stamp_fields))) +:+ "-"
         +:+ pad2 (Month (UTC (stamp_time example_stamp_fields))) +:+ "-"
         +:+ pad2 (Day (UTC (stamp_time example_stamp_fields))) +:+ "T"
         +:+ pad2 (Hour (UTC (stamp_time example_stamp_fields))) +:+ ":"
         +:+ pad2 (Minute (UTC (stamp_time example_stamp_fields))) +:+ ":"
         +:+ pad2 (Second (UTC (stamp_time example_stamp_fields))) +:+ "Z"
    /\ String.length commitTime = 20%nat.
Proof.
  apply (commit_time_canonical "0123abcd" example_stamp_fields example_world).
  - reflexivity.
  - apply example_stamp_ok.
  - vm_compute. split; discriminate.
Defined.

(** The digits of a timestamp whose month does not have its day: all the
    elements of the layout are read, and the date is refused at the end. *)
Lemma parse_git_day_out_of_range
    (y1 y2 y3 y4 m1 m2 d1 d2 h1 h2 i1 i2 s1 s2 z1 z2 z3 z4 : ascii)
    (vy1 vy2 vy3 vy4 vm1 vm2 vd1 vd2 vh1 vh2 vi1 vi2 vs1 vs2 vz1 vz2 vz3 vz4 : Z)
    (east : bool) :
  shows y1 vy1 -> shows y2 vy2 -> shows y3 vy3 -> shows y4 vy4 ->
  shows m1 vm1 -> shows m2 vm2 -> shows d1 vd1 -> shows d2 vd2 ->
  shows h1 vh1 -> shows h2 vh2 -> shows i1 vi1 -> shows i2 vi2 ->
  shows s1 vs1 -> shows s2 vs2 ->
  shows z1 vz1 -> shows z2 vz2 -> shows z3 vz3 -> shows z4 vz4 ->
  let Y := ((vy1 * 10 + vy2) * 10 + vy3) * 10 + vy4 in
  let Mo := vm1 * 10 + vm2 in
  let D := vd1 * 10 + vd2 in
  let H := vh1 * 10 + vh2 in
  let Mi := vi1 * 10 + vi2 in
  let S := vs1 * 10 + vs2 in
  let value :=
    String y1 (String y2 (String y3 (String y4 (String "-"
    (String m1 (String m2 (String "-"
    (String d1 (String d2 (String " "
    (String h1 (String h2 (String ":"
    (String i1 (String i2 (String ":"
    (String s1 (String s2 (String " "
    (String (if east then "+" else "-")%char
    (String z1 (String z2 (String z3 (String z4 EmptyString))))))))))))))))))))))))
  in
  1 <= Mo <= 12 -> D < 1 \/ daysIn Mo Y < D -> H < 24 -> Mi < 60 -> S < 60 ->
  vz1 * 10 + vz2 <= 24 -> vz3 * 10 + vz4 <= 60 ->
  time_Parse gitLayout value
  = ParseFailed (mkParseError (layout_string gitLayout) value EmptyString
                   EmptyString ": day out of range").
Proof.
  intros Hy1 Hy2 Hy3 Hy4 Hm1 Hm2 Hd1 Hd2 Hh1 Hh2 Hi1 Hi2 Hs1 Hs2.
  intros Hz1 Hz2 Hz3 Hz4 Y Mo D H Mi S value HMo HD HH HMi HS HZh HZm.
  unfold value.
  unfold time_Parse. simpl layout_chunks. simpl layout_string.
  cbn [parse_loop].
  change (skip ?v EmptyString) with (v, true). cbv iota beta.
  rewrite (chunk_year _ _ _ _ _ _ _ _ _ _ Hy1 Hy2 Hy3 Hy4).
  change (skip (String "-" ?v) "-") with (v, true). cbv iota beta.
  rewrite (chunk_month _ _ _ _ _ _ Hm1 Hm2 HMo).
  change (skip (String "-" ?v) "-") with (v, true). cbv iota beta.
  rewrite (chunk_day _ _ _ _ _ _ Hd1 Hd2).
  rewrite (skip_space_digit _ _ _ Hh1). cbv iota beta.
  rewrite (chunk_hour _ _ _ _ _ _ Hh1 Hh2 HH).
  change (skip (String ":" ?v) ":") with (v, true). cbv iota beta.
  rewrite (chunk_minute _ _ _ _ _ _ Hi1 Hi2 HMi).
  change (skip (String ":" ?v) ":") with (v, true). cbv iota beta.
  rewrite (chunk_second_space _ _ _ _ _ _ Hs1 Hs2 HS).
  replace (skip (String " " (String (if east then "+" else "-")%char
             (String z1 (String z2 (String z3 (String z4 EmptyString)))))) " ")
    with (String (if east then "+" else "-")%char
            (String z1 (String z2 (String z3 (String z4 EmptyString)))), true)
    by (by destruct east).
  cbv iota beta.
  rewrite (chunk_numTZ _ east _ _ _ _ _ _ _ _ Hz1 Hz2 Hz3 Hz4 HZh HZm).
  cbv iota beta. unfold parse_finish. simpl.
  fold Y Mo D.
  destruct (D <? 1) eqn:E1; [done |].
  destruct (daysIn Mo Y <? D) eqn:E2; [done | lia].
Qed.

(** X21: a line whose timestamp has the pattern but names a day its month
    does not have (day 00, 31 April, 29 February of a common year) makes
    [Commit] panic: all the fields are read, and the date is refused at
    the end as [day out of range]. *)
Theorem commit_time_day_out_of_range (rev : string) (st : Stamp) (w : World) :
  has_byte "@" rev = false ->
  day_missing st ->
  parse_commit (rev +:+ String "@" (render_stamp st)) w
  = (Aborted (Panicked ("Failed to parse time: " +:+ render_stamp st
                        +:+ " : parsing time " +:+ quote (render_stamp st)
                        +:+ ": day out of range")), w).
Proof.
  intros Hrev Hst.
  rewrite parse_commit_stamp by (done || by apply day_missing_digits).
  destruct Hst as (Hy & Hm & Hd & Hh & Hi & Hs & Hzh & Hzm).
  pose proof (daysIn_ge_28 (st_month st) (st_year st)) as H28.
  destruct (pad4_shows (st_year st) Hy) as (Y1 & Y2 & Y3 & Y4 & EY).
  destruct (pad2_shows (st_month st)) as (M1 & M2 & EM); [lia |].
  destruct (pad2_shows (st_day st)) as (D1 & D2 & ED); [lia |].
  destruct (pad2_shows (st_hour st)) as (H1 & H2 & EH); [lia |].
  destruct (pad2_shows (st_min st)) as (I1 & I2 & EI); [lia |].
  destruct (pad2_shows (st_sec st)) as (S1 & S2 & ES); [lia |].
  destruct (pad2_shows (st_zh st)) as (ZH1 & ZH2 & EZH); [lia |].
  destruct (pad2_shows (st_zm st)) as (ZM1 & ZM2 & EZM); [lia |].
  assert (time_Parse gitLayout (render_stamp st)
          = ParseFailed (mkParseError (layout_string gitLayout)
                           (render_stamp st) EmptyString EmptyString
                           ": day out of range")) as ->; [| reflexivity].
  unfold render_stamp, pad4, pad2.
  replace (if st_east st then "+" else "-")
    with (String (if st_east st then "+" else "-")%char EmptyString)
    by (by destruct (st_east st)).
  repeat first [rewrite append_cons
               | progress change (EmptyString +:+ ?s) with s].
  apply (parse_git_day_out_of_range _ _ _ _ _ _ _ _ _ _ _ _ _ _ _ _ _ _
           _ _ _ _ _ _ _ _ _ _ _ _ _ _ _ _ _ _ (st_east st)
           Y1 Y2 Y3 Y4 M1 M2 D1 D2 H1 H2 I1 I2 S1 S2 ZH1 ZH2 ZM1 ZM2);
    rewrite ?EY, ?EM, ?ED, ?EH, ?EI, ?ES, ?EZH, ?EZM; lia.
Qed.

Lemma leap_day_stamp_missing : day_missing leap_day_stamp.
Proof.
  unfold day_missing; simpl. repeat split; try lia.
  right. split; [by vm_compute | lia].
Qed.

Lemma commit_time_day_out_of_range_witness :
  parse_commit ("0123abcd" +:+ String "@" (render_stamp leap_day_stamp))
    example_world
  = (Aborted (Panicked ("Failed to parse time: "
                        +:+ render_stamp leap_day_stamp
                        +:+ " : parsing time "
                        +:+ quote (render_stamp leap_day_stamp)
                        +:+ ": day out of range")), example_world).
Proof.
  apply (commit_time_day_out_of_range "0123abcd" leap_day_stamp example_world).
  - reflexivity.
  - apply leap_day_stamp_missing.
Defined.

Example leap_day_stamp_rendered :
  render_stamp leap_day_stamp = "2015-02-29 12:00:00 -0800".
Proof. reflexivity. Qed.
